(** * Button debounce state machine of the CWSW board support package

    Shallow embedding of [cwsw_bsp_buttons.c] (the per-button state
    functions, the event notifier, the transition table and the button
    task) and of the digital-input bit source
    [di_read_next_button_input_bit], followed by the properties of the
    specification that were checked against them.

    Conventions of the embedding:
    - C unsigned integers are [Z] values; arithmetic that can leave the
      range of its type is written with the wrap-around of that type.
    - The function-scope [static] arrays of a state function are the fields
      of one record per function; each array is a [list] read with stdpp's
      total lookup and written with stdpp's insert.  An index outside
      [0, kBoardNumButtons) is undefined behaviour in C: every function that
      indexes an array with its argument returns [None] there.
    - A pointer argument is an [option]: [None] is the null pointer, and
      the pointee after the call is part of the result. *)

From Stdlib Require Import ZArith Bool List Lia.
From Stdlib Require String.
From stdpp Require Import base list.
Import ListNotations.

#[local] Open Scope Z_scope.

(* ================================================================== *)
(** * Constants *)
(* ================================================================== *)

(** [enum eBoardButtons] of the GTK board header: [kBoardButtonNone] is 0,
    [kBoardButton0] .. [kBoardButton7] are 1 .. 8, so the enumerator that
    sizes every per-button array is 9. *)
Definition kBoardButtonNone : Z := 0.
Definition kBoardButton0 : Z := 1.
Definition kBoardButton1 : Z := 2.
Definition kBoardButton2 : Z := 3.
Definition kBoardButton3 : Z := 4.
Definition kBoardButton4 : Z := 5.
Definition kBoardButton5 : Z := 6.
Definition kBoardButton6 : Z := 7.
Definition kBoardButton7 : Z := 8.
Definition kBoardNumButtons : Z := 9.

(** "Reason3" reasons for exiting a state (anonymous enum of
    [cwsw_bsp_buttons.c]). *)
Definition kReasonNone : Z := 0.
Definition kReasonTwitchNoted : Z := 1.
Definition kReasonDebounced : Z := 2.
Definition kReasonTimeout : Z := 3.
Definition kReasonButtonUnstuck : Z := 4.

Definition kStateOperational : Z := 1.
Definition kStateExit : Z := 2.
Definition kStateFinished : Z := 3.

(** Constants of the project's event and clock headers, which are not among
    the sources: the five event identifiers used by the button module and
    the two calibration values of [enum eButtonCalibrationValues]
    ([tmr500ms + tmr100ms] and [tmr1000ms * 30], in clock tics).  They are
    parameters of the embedding. *)
Record tBspConsts : Type := mkBspConsts {
  evButton_Task : Z;
  evBntPressed : Z;
  evBtnReleased : Z;
  evButton_BtnStuck : Z;
  evButton_BtnUnstuck : Z;
  kTmButtonDebounceTime : Z;
  kButtonStuckTimeoutValue : Z
}.

(** The event identifiers are usable by the notifier when none of the ids
    it posts is the reserved "no event" id 0. *)
Definition posted_ids_nonzero (K : tBspConsts) : Prop :=
  evBntPressed K <> 0 /\ evBtnReleased K <> 0 /\
  evButton_BtnStuck K <> 0 /\ evButton_BtnUnstuck K <> 0.

(* ================================================================== *)
(** * Machine integers and arrays *)
(* ================================================================== *)

(** [(uint8_t)x] *)
Definition u8 (x : Z) : Z := Z.land x 255.

(** An enumeration without negative enumerators is an [unsigned int]:
    [x++] and [--x] on a [tStateReturnCodes] wrap modulo 2^32. *)
Definition incr (x : Z) : Z := (x + 1) mod 2 ^ 32.
Definition decr (x : Z) : Z := (x - 1) mod 2 ^ 32.

(** [idx] designates a cell of an array of [kBoardNumButtons] elements. *)
Definition in_bounds (idx : Z) : bool := (0 <=? idx) && (idx <? kBoardNumButtons).

(** [a[idx]] as an rvalue. *)
Definition rd {A : Type} `{Inhabited A} (a : list A) (idx : Z) : A :=
  a !!! Z.to_nat idx.

(** [a[idx] = v] *)
Definition wr {A : Type} (a : list A) (idx : Z) (v : A) : list A :=
  <[Z.to_nat idx := v]> a.

(** The array has the [kBoardNumButtons] cells of its declaration. *)
Definition sized {A : Type} (a : list A) : Prop :=
  length a = Z.to_nat kBoardNumButtons.

(* ================================================================== *)
(** * Events, clock and state-function results *)
(* ================================================================== *)

Module EvQ.
(** [tEvQ_Event]: event id and event data. *)
Record tEvQ_Event : Type := mkEv { evId : Z; evData : Z }.
End EvQ.
Import EvQ.

(** Modelled from the spec: the macros [Set(Cwsw_Clock, timer, duration)]
    and [TM(timer)] belong to the clock service, which is not among the
    sources ("ArmTimer(timerRef, durationTicks), TimerExpired(timerRef) ->
    bool: arm a countdown, query whether it has expired").  The board header
    expands [TM] through [Cwsw_GetTimeLeft(timer)]; [now] is the reading of
    the clock at the time of the call. *)
Definition Cwsw_Clock_Set (now duration : Z) : Z := now + duration.
Definition Cwsw_GetTimeLeft (now timer : Z) : Z := timer - now.
Definition TM (now timer : Z) : bool := Cwsw_GetTimeLeft now timer <=? 0.

(** What a call [f(pev, pextra)] of a state function leaves behind: the
    returned phase code, the variables the function owns or reaches, and the
    objects behind the two pointers. *)
Record tRet (S : Type) : Type := mkRet {
  ret : Z;
  vars : S;
  pev_out : option tEvQ_Event;
  pextra_out : option Z
}.
Arguments mkRet {S} _ _ _ _.
Arguments ret {S} _.
Arguments vars {S} _.
Arguments pev_out {S} _.
Arguments pextra_out {S} _.

(* ================================================================== *)
(** * Digital-input bit source *)
(* ================================================================== *)

Module DI.

(** Module-level variables of the GTK button layer: one 64-bit synthetic
    bit stream per button and the bitmap of the buttons' current status. *)
Record statics : Type := mk {
  buttoninputbits : list Z;
  buttonstatus : Z
}.

Definition wf (d : statics) : Prop := sized (buttoninputbits d).

(** Modelled from the spec: [BIT_TEST] is a macro of the support library,
    which is not among the sources; it yields "that button's bit from the
    cumulative button-status bitmap". *)
Definition BIT_TEST (bitmap idx : Z) : bool := Z.testbit bitmap idx.

(** [bool di_read_next_button_input_bit(uint32_t idx)] *)
Definition di_read_next_button_input_bit (idx : Z) (d : statics)
  : option (bool * statics) :=
  if negb (in_bounds idx) then None else
  let retval := negb (Z.land (rd (buttoninputbits d) idx) 1 =? 0) in
  let bits := wr (buttoninputbits d) idx (rd (buttoninputbits d) idx / 2) in
  let retval :=
    if negb retval && (rd bits idx =? 0)
    then BIT_TEST (buttonstatus d) idx
    else retval in
  Some (retval, mk bits (buttonstatus d)).

(** The bits returned by [n] successive reads of button [idx]. *)
Fixpoint peek (n : nat) (idx : Z) (d : statics) : option (list bool) :=
  match n with
  | O => Some []
  | S n' =>
      match di_read_next_button_input_bit idx d with
      | None => None
      | Some (b, d') =>
          match peek n' idx d' with
          | None => None
          | Some bs => Some (b :: bs)
          end
      end
  end.

(** Button [j]'s stream is the same in [d] and [d']. *)
Definition same_stream (j : Z) (d d' : statics) : Prop :=
  rd (buttoninputbits d') j = rd (buttoninputbits d) j.

End DI.

(* ================================================================== *)
(** * State functions *)
(* ================================================================== *)

Module Debounce.

(** The [static] variables of [stDebounceButton]. *)
Record statics : Type := mk {
  statephase : list Z;
  tmrMyStateTimer : list Z;
  tmrdebounce : Z;
  evId : list Z;
  reason3 : list Z;
  read_bits : list Z
}.

Definition wf (s : statics) : Prop :=
  sized (statephase s) /\ sized (tmrMyStateTimer s) /\ sized (evId s) /\
  sized (reason3 s) /\ sized (read_bits s).

Definition set_statephase (s : statics) (v : list Z) : statics :=
  mk v (tmrMyStateTimer s) (tmrdebounce s) (evId s) (reason3 s) (read_bits s).
Definition set_tmrMyStateTimer (s : statics) (v : list Z) : statics :=
  mk (statephase s) v (tmrdebounce s) (evId s) (reason3 s) (read_bits s).
Definition set_tmrdebounce (s : statics) (v : Z) : statics :=
  mk (statephase s) (tmrMyStateTimer s) v (evId s) (reason3 s) (read_bits s).
Definition set_evId (s : statics) (v : list Z) : statics :=
  mk (statephase s) (tmrMyStateTimer s) (tmrdebounce s) v (reason3 s) (read_bits s).
Definition set_reason3 (s : statics) (v : list Z) : statics :=
  mk (statephase s) (tmrMyStateTimer s) (tmrdebounce s) (evId s) v (read_bits s).
Definition set_read_bits (s : statics) (v : list Z) : statics :=
  mk (statephase s) (tmrMyStateTimer s) (tmrdebounce s) (evId s) (reason3 s) v.

(** One operate cycle on the accumulator:
    [read_bits <<= 1; read_bits = (uint8_t)(read_bits | bit)]. *)
Definition shift_in (acc : Z) (bit : bool) : Z :=
  u8 (Z.lor (u8 (Z.shiftl acc 1)) (Z.b2z bit)).

(** [static tStateReturnCodes stDebounceButton(ptEvQ_Event pev, uint32_t *pextra)] *)
Definition stDebounceButton (K : tBspConsts) (now : Z)
    (s : statics) (d : DI.statics)
    (pev : option tEvQ_Event) (pextra : option Z)
  : option (tRet (statics * DI.statics)) :=
  match pev, pextra with
  | None, _ => Some (mkRet 0 (s, d) pev pextra)
  | Some _, None => Some (mkRet 0 (s, d) pev pextra)
  | Some ev, Some extra =>
      let thisbutton := EvQ.evData ev in
      if negb (in_bounds thisbutton) then None else
      let phase := rd (statephase s) thisbutton in
      let s := set_statephase s (wr (statephase s) thisbutton (incr phase)) in
      if phase =? kStateOperational then
        let s := set_tmrdebounce s (rd (tmrMyStateTimer s) thisbutton) in
        match DI.di_read_next_button_input_bit thisbutton d with
        | None => None
        | Some (bit, d) =>
            let s := set_read_bits s
                       (wr (read_bits s) thisbutton
                           (shift_in (rd (read_bits s) thisbutton) bit)) in
            let s :=
              if rd (read_bits s) thisbutton =? 0 then
                let s := set_evId s (wr (evId s) thisbutton (evBtnReleased K)) in
                set_reason3 s (wr (reason3 s) thisbutton kReasonDebounced)
              else if rd (read_bits s) thisbutton =? 255 then
                let s := set_evId s (wr (evId s) thisbutton (evBntPressed K)) in
                set_reason3 s (wr (reason3 s) thisbutton kReasonDebounced)
              else if TM now (tmrdebounce s) then
                set_reason3 s (wr (reason3 s) thisbutton kReasonTimeout)
              else
                set_statephase s
                  (wr (statephase s) thisbutton
                      (decr (rd (statephase s) thisbutton))) in
            Some (mkRet (rd (statephase s) thisbutton) (s, d) pev pextra)
        end
      else if phase =? kStateExit then
        let ev := mkEv (rd (evId s) thisbutton) thisbutton in
        Some (mkRet (rd (statephase s) thisbutton) (s, d)
                    (Some ev) (Some (rd (reason3 s) thisbutton)))
      else
        let s := set_evId s (wr (evId s) thisbutton (EvQ.evId ev)) in
        let s := set_statephase s (wr (statephase s) thisbutton kStateOperational) in
        let s := set_read_bits s (wr (read_bits s) thisbutton 1) in
        let s := set_tmrMyStateTimer s
                   (wr (tmrMyStateTimer s) thisbutton
                       (Cwsw_Clock_Set now (kTmButtonDebounceTime K))) in
        Some (mkRet (rd (statephase s) thisbutton) (s, d) pev pextra)
  end.

(** [stDebouncePress] and [stDebounceRelease] only forward to
    [stDebounceButton]. *)
Definition stDebouncePress := stDebounceButton.
Definition stDebounceRelease := stDebounceButton.


(** Button [j]'s cells hold the same values in [s] and [s']. *)
Definition same_button (j : Z) (s s' : statics) : Prop :=
  rd (statephase s') j = rd (statephase s) j /\
  rd (tmrMyStateTimer s') j = rd (tmrMyStateTimer s) j /\
  rd (evId s') j = rd (evId s) j /\
  rd (reason3 s') j = rd (reason3 s) j /\
  rd (read_bits s') j = rd (read_bits s) j.

(** The engine calls the state function once per tick.  [cycles] makes
    these calls at the clock readings [nows] for as long as the function
    returns [kStateOperational]; it yields the number of calls made and the
    variables after the first call that returned another code, or [None]
    when the readings run out before that. *)
Fixpoint cycles (K : tBspConsts) (nows : list Z)
    (s : statics) (d : DI.statics) (ev : tEvQ_Event) (extra : Z)
  : option (nat * statics * DI.statics) :=
  match nows with
  | [] => None
  | now :: nows' =>
      match stDebounceButton K now s d (Some ev) (Some extra) with
      | None => None
      | Some r =>
          if ret r =? kStateOperational then
            match cycles K nows' (fst (vars r)) (snd (vars r)) ev extra with
            | Some (n, s', d') => Some (S n, s', d')
            | None => None
            end
          else Some (1%nat, fst (vars r), snd (vars r))
      end
  end.

(** The accumulator alone: the number of operate cycles after which it
    first holds 0x00 or 0xFF when every read returns [bit], and the pattern
    it then holds; [None] when [n] cycles do not suffice. *)
Fixpoint settle (n : nat) (acc : Z) (bit : bool) : option (nat * Z) :=
  match n with
  | O => None
  | S n' =>
      let acc := shift_in acc bit in
      if (acc =? 0) || (acc =? 255) then Some (1%nat, acc)
      else match settle n' acc bit with
           | Some (k, t) => Some (S k, t)
           | None => None
           end
  end.

(** [settle] within 8 cycles ends on the pattern of the bit fed. *)
Definition settles_in_8 (acc : Z) (bit : bool) : bool :=
  match settle 8 acc bit with
  | Some (k, t) =>
      (1 <=? k)%nat && (k <=? 8)%nat && (t =? (if bit then 255 else 0))
  | None => false
  end.

End Debounce.

Module Start.

(** The [static] variables of [stStart]. *)
Record statics : Type := mk {
  statephase : list Z;
  evId : list Z
}.

Definition wf (s : statics) : Prop :=
  sized (statephase s) /\ sized (evId s).

(** [static tStateReturnCodes stStart(ptEvQ_Event pev, uint32_t *pextra)] *)
Definition stStart (s : statics)
    (pev : option tEvQ_Event) (pextra : option Z)
  : option (tRet statics) :=
  match pev, pextra with
  | None, _ => Some (mkRet 0 s pev pextra)
  | Some _, None => Some (mkRet 0 s pev pextra)
  | Some ev, Some extra =>
      let thisbutton := EvQ.evData ev in
      if negb (in_bounds thisbutton) then None else
      let phase := rd (statephase s) thisbutton in
      let s := mk (wr (statephase s) thisbutton (incr phase)) (evId s) in
      if phase =? kStateOperational then
        Some (mkRet (rd (statephase s) thisbutton) s pev pextra)
      else if phase =? kStateExit then
        let ev := mkEv (rd (evId s) thisbutton) thisbutton in
        Some (mkRet (rd (statephase s) thisbutton) s (Some ev) (Some kReasonNone))
      else
        let s := mk (wr (statephase s) thisbutton kStateOperational) (evId s) in
        let s := mk (statephase s) (wr (evId s) thisbutton (EvQ.evId ev)) in
        Some (mkRet (rd (statephase s) thisbutton) s pev pextra)
  end.


(** Button [j]'s cells hold the same values in [s] and [s']. *)
Definition same_button (j : Z) (s s' : statics) : Prop :=
  rd (statephase s') j = rd (statephase s) j /\
  rd (evId s') j = rd (evId s) j.

End Start.

Module Released.

(** The [static] variable of [stButtonReleased]. *)
Record statics : Type := mk {
  statephase : list Z
}.

Definition wf (s : statics) : Prop := sized (statephase s).

(** [static tStateReturnCodes stButtonReleased(ptEvQ_Event pev, uint32_t *pextra)] *)
Definition stButtonReleased (s : statics) (d : DI.statics)
    (pev : option tEvQ_Event) (pextra : option Z)
  : option (tRet (statics * DI.statics)) :=
  match pev, pextra with
  | None, _ => Some (mkRet 0 (s, d) pev pextra)
  | Some _, None => Some (mkRet 0 (s, d) pev pextra)
  | Some ev, Some extra =>
      let thisbutton := EvQ.evData ev in
      if negb (in_bounds thisbutton) then None else
      let phase := rd (statephase s) thisbutton in
      let s := mk (wr (statephase s) thisbutton (incr phase)) in
      if phase =? kStateOperational then
        match DI.di_read_next_button_input_bit thisbutton d with
        | None => None
        | Some (thisbit, d) =>
            let s :=
              if negb thisbit
              then mk (wr (statephase s) thisbutton
                          (decr (rd (statephase s) thisbutton)))
              else s in
            Some (mkRet (rd (statephase s) thisbutton) (s, d) pev pextra)
        end
      else if phase =? kStateExit then
        let ev := mkEv (EvQ.evId ev) thisbutton in
        Some (mkRet (rd (statephase s) thisbutton) (s, d)
                    (Some ev) (Some kReasonTwitchNoted))
      else
        let s := mk (wr (statephase s) thisbutton kStateOperational) in
        Some (mkRet (rd (statephase s) thisbutton) (s, d) pev pextra)
  end.


(** Button [j]'s cell holds the same value in [s] and [s']. *)
Definition same_button (j : Z) (s s' : statics) : Prop :=
  rd (statephase s') j = rd (statephase s) j.

End Released.

Module Pressed.

(** The [static] variables of [stButtonPressed]. *)
Record statics : Type := mk {
  statephase : list Z;
  tmrPressedStateTimer : list Z;
  tmrPressed : Z;
  evId : list Z;
  reason2 : list Z;
  reason3 : list Z
}.

Definition wf (s : statics) : Prop :=
  sized (statephase s) /\ sized (tmrPressedStateTimer s) /\ sized (evId s) /\
  sized (reason2 s) /\ sized (reason3 s).

Definition set_statephase (s : statics) (v : list Z) : statics :=
  mk v (tmrPressedStateTimer s) (tmrPressed s) (evId s) (reason2 s) (reason3 s).
Definition set_tmrPressedStateTimer (s : statics) (v : list Z) : statics :=
  mk (statephase s) v (tmrPressed s) (evId s) (reason2 s) (reason3 s).
Definition set_tmrPressed (s : statics) (v : Z) : statics :=
  mk (statephase s) (tmrPressedStateTimer s) v (evId s) (reason2 s) (reason3 s).
Definition set_evId (s : statics) (v : list Z) : statics :=
  mk (statephase s) (tmrPressedStateTimer s) (tmrPressed s) v (reason2 s) (reason3 s).
Definition set_reason2 (s : statics) (v : list Z) : statics :=
  mk (statephase s) (tmrPressedStateTimer s) (tmrPressed s) (evId s) v (reason3 s).
Definition set_reason3 (s : statics) (v : list Z) : statics :=
  mk (statephase s) (tmrPressedStateTimer s) (tmrPressed s) (evId s) (reason2 s) v.

(** [static tStateReturnCodes stButtonPressed(ptEvQ_Event pev, uint32_t *pextra)] *)
Definition stButtonPressed (K : tBspConsts) (now : Z)
    (s : statics) (d : DI.statics)
    (pev : option tEvQ_Event) (pextra : option Z)
  : option (tRet (statics * DI.statics)) :=
  match pev, pextra with
  | None, _ => Some (mkRet 0 (s, d) pev pextra)
  | Some _, None => Some (mkRet 0 (s, d) pev pextra)
  | Some ev, Some extra =>
      let thisbutton := EvQ.evData ev in
      if negb (in_bounds thisbutton) then None else
      let phase := rd (statephase s) thisbutton in
      let s := set_statephase s (wr (statephase s) thisbutton (incr phase)) in
      if phase =? kStateOperational then
        let s := set_tmrPressed s (rd (tmrPressedStateTimer s) thisbutton) in
        match DI.di_read_next_button_input_bit thisbutton d with
        | None => None
        | Some (thisbit, d) =>
            let s :=
              if negb thisbit then
                let s := set_reason2 s (wr (reason2 s) thisbutton thisbutton) in
                set_reason3 s (wr (reason3 s) thisbutton kReasonTwitchNoted)
              else if TM now (tmrPressed s) then
                let s := set_reason2 s (wr (reason2 s) thisbutton 0) in
                set_reason3 s (wr (reason3 s) thisbutton kReasonTimeout)
              else
                set_statephase s
                  (wr (statephase s) thisbutton
                      (decr (rd (statephase s) thisbutton))) in
            Some (mkRet (rd (statephase s) thisbutton) (s, d) pev pextra)
        end
      else if phase =? kStateExit then
        let ev := mkEv (rd (evId s) thisbutton) (rd (reason2 s) thisbutton) in
        Some (mkRet (rd (statephase s) thisbutton) (s, d)
                    (Some ev) (Some (rd (reason3 s) thisbutton)))
      else
        let s := set_evId s (wr (evId s) thisbutton (EvQ.evId ev)) in
        let s := set_reason3 s (wr (reason3 s) thisbutton kReasonNone) in
        let s := set_statephase s (wr (statephase s) thisbutton kStateOperational) in
        let s := set_tmrPressedStateTimer s
                   (wr (tmrPressedStateTimer s) thisbutton
                       (Cwsw_Clock_Set now (kButtonStuckTimeoutValue K))) in
        Some (mkRet (rd (statephase s) thisbutton) (s, d) pev pextra)
  end.


(** Button [j]'s cells hold the same values in [s] and [s']. *)
Definition same_button (j : Z) (s s' : statics) : Prop :=
  rd (statephase s') j = rd (statephase s) j /\
  rd (tmrPressedStateTimer s') j = rd (tmrPressedStateTimer s) j /\
  rd (evId s') j = rd (evId s) j /\
  rd (reason2 s') j = rd (reason2 s) j /\
  rd (reason3 s') j = rd (reason3 s) j.

End Pressed.

Module Stuck.

(** The [static] variables of [stButtonStuck]. *)
Record statics : Type := mk {
  statephase : list Z;
  evId : list Z
}.

Definition wf (s : statics) : Prop :=
  sized (statephase s) /\ sized (evId s).

(** [static tStateReturnCodes stButtonStuck(ptEvQ_Event pev, uint32_t *pextra)].
    The entry branch stores the event id and nothing else; the operate
    branch reads the input of button 0. *)
Definition stButtonStuck (s : statics) (d : DI.statics)
    (pev : option tEvQ_Event) (pextra : option Z)
  : option (tRet (statics * DI.statics)) :=
  match pev, pextra with
  | None, _ => Some (mkRet 0 (s, d) pev pextra)
  | Some _, None => Some (mkRet 0 (s, d) pev pextra)
  | Some ev, Some extra =>
      let thisbutton := EvQ.evData ev in
      if negb (in_bounds thisbutton) then None else
      let phase := rd (statephase s) thisbutton in
      let s := mk (wr (statephase s) thisbutton (incr phase)) (evId s) in
      if phase =? kStateOperational then
        match DI.di_read_next_button_input_bit 0 d with
        | None => None
        | Some (thisbit, d) =>
            let s :=
              if thisbit
              then mk (wr (statephase s) thisbutton
                          (decr (rd (statephase s) thisbutton))) (evId s)
              else s in
            Some (mkRet (rd (statephase s) thisbutton) (s, d) pev pextra)
        end
      else if phase =? kStateExit then
        let ev := mkEv (rd (evId s) thisbutton) thisbutton in
        Some (mkRet (rd (statephase s) thisbutton) (s, d)
                    (Some ev) (Some kReasonButtonUnstuck))
      else
        let s := mk (statephase s) (wr (evId s) thisbutton (EvQ.evId ev)) in
        Some (mkRet (rd (statephase s) thisbutton) (s, d) pev pextra)
  end.


(** Button [j]'s cells hold the same values in [s] and [s']. *)
Definition same_button (j : Z) (s s' : statics) : Prop :=
  rd (statephase s') j = rd (statephase s) j /\
  rd (evId s') j = rd (evId s) j.

End Stuck.

(* ================================================================== *)
(** * Transition functions *)
(* ================================================================== *)

Module Notifier.
Section WithQueue.

(** The extended event queue behind [pBtnEvqx] and its posting function
    [Cwsw_EvQX__PostEvent] belong to the event-queue component, which is
    not among the sources; a post yields the queue afterwards and an
    error indication. *)
Variable Q : Type.
Variable Cwsw_EvQX__PostEvent : Q -> tEvQ_Event -> Q * bool.

(** [static void NullTransition(tEvQ_Event ev, uint32_t extra)] *)
Definition NullTransition (pBtnEvqx : Q) (ev : tEvQ_Event) (extra : Z) : Q :=
  pBtnEvqx.

(** The [switch] of [NotifyBtnStateChg]: the event id that reaches the
    final test. *)
Definition notified_id (K : tBspConsts) (ev : tEvQ_Event) (extra : Z) : Z :=
  if extra =? kReasonDebounced then
    if (EvQ.evId ev =? evBtnReleased K) || (EvQ.evId ev =? evBntPressed K)
    then EvQ.evId ev
    else 0
  else if extra =? kReasonTimeout then evButton_BtnStuck K
  else if extra =? kReasonButtonUnstuck then evButton_BtnUnstuck K
  else 0.

(** [static void NotifyBtnStateChg(tEvQ_Event ev, uint32_t extra)]: the
    value of the post is cast to [void]. *)
Definition NotifyBtnStateChg (K : tBspConsts) (pBtnEvqx : Q)
    (ev : tEvQ_Event) (extra : Z) : Q :=
  let ev := mkEv (notified_id K ev extra) (EvQ.evData ev) in
  if negb (EvQ.evId ev =? 0)
  then fst (Cwsw_EvQX__PostEvent pBtnEvqx ev)
  else pBtnEvqx.

End WithQueue.
End Notifier.

(* ================================================================== *)
(** * Transition table *)
(* ================================================================== *)

(** The addresses of the state functions, as the table and the task hold
    them ([pfStateHandler]); the null pointer is [None]. *)
Inductive pfStateHandler : Type :=
  | pf_stStart
  | pf_stButtonReleased
  | pf_stDebouncePress
  | pf_stButtonPressed
  | pf_stDebounceRelease
  | pf_stButtonStuck.

Definition pfStateHandler_eqb (a b : pfStateHandler) : bool :=
  match a, b with
  | pf_stStart, pf_stStart
  | pf_stButtonReleased, pf_stButtonReleased
  | pf_stDebouncePress, pf_stDebouncePress
  | pf_stButtonPressed, pf_stButtonPressed
  | pf_stDebounceRelease, pf_stDebounceRelease
  | pf_stButtonStuck, pf_stButtonStuck => true
  | _, _ => false
  end.

(** The addresses of the transition functions. *)
Inductive pfTransitionFunc : Type :=
  | pf_NullTransition
  | pf_NotifyBtnStateChg.

(** A row of [tTransitionTable], with the columns as the table's header
    comment names them. *)
Record tTransitionTable : Type := mkRow {
  row_current : pfStateHandler;
  row_reason1 : Z;
  row_reason2 : Z;
  row_reason3 : Z;
  row_next : pfStateHandler;
  row_transition : pfTransitionFunc
}.

(** [static tTransitionTable tblTransitions[]] *)
Definition tblTransitions (K : tBspConsts) : list tTransitionTable := [
  mkRow pf_stStart (evButton_Task K) 255 kReasonNone pf_stButtonReleased pf_NullTransition;

  mkRow pf_stButtonReleased (evButton_Task K) 255 kReasonTwitchNoted pf_stDebouncePress pf_NullTransition;

  mkRow pf_stDebouncePress (evBntPressed K) 255 kReasonDebounced pf_stButtonPressed pf_NotifyBtnStateChg;
  mkRow pf_stDebouncePress (evBtnReleased K) 255 kReasonDebounced pf_stButtonReleased pf_NullTransition;
  mkRow pf_stDebouncePress (evButton_Task K) 255 kReasonTimeout pf_stButtonReleased pf_NullTransition;

  mkRow pf_stButtonPressed (evButton_Task K) 255 kReasonTwitchNoted pf_stDebounceRelease pf_NullTransition;
  mkRow pf_stButtonPressed (evButton_Task K) 255 kReasonTimeout pf_stButtonStuck pf_NotifyBtnStateChg;

  mkRow pf_stDebounceRelease (evBtnReleased K) 255 kReasonDebounced pf_stButtonReleased pf_NotifyBtnStateChg;
  mkRow pf_stDebounceRelease (evBntPressed K) 255 kReasonDebounced pf_stButtonPressed pf_NullTransition;

  mkRow pf_stButtonStuck (evButton_Task K) 255 kReasonButtonUnstuck pf_stButtonReleased pf_NotifyBtnStateChg
].

(* ================================================================== *)
(** * State-machine engine *)
(* ================================================================== *)

Module Sme.

(** Modelled from the spec: the table search of the state-machine engine
    is not among the sources.  "Each row matches on (currentState-function
    identity, inbound event id, a don't-care mask applied to reason code,
    specific reason code).  The first matching row (checked in table
    order) determines the next state and the transition function to
    invoke." *)
Definition row_matches (current : pfStateHandler) (ev : tEvQ_Event) (extra : Z)
    (r : tTransitionTable) : bool :=
  pfStateHandler_eqb (row_current r) current
  && (row_reason1 r =? EvQ.evId ev)
  && (Z.land extra (row_reason2 r) =? row_reason3 r).

Definition Cwsw_Sme_FindNextState (tbl : list tTransitionTable)
    (current : pfStateHandler) (ev : tEvQ_Event) (extra : Z)
  : option tTransitionTable :=
  List.find (row_matches current ev extra) tbl.

(** Everything the state functions and the transition functions own or
    reach. *)
Record tWorld (Q : Type) : Type := mkWorld {
  wStart : Start.statics;
  wReleased : Released.statics;
  wDebounce : Debounce.statics;
  wPressed : Pressed.statics;
  wStuck : Stuck.statics;
  wDI : DI.statics;
  pBtnEvqx : Q
}.
Arguments mkWorld {Q} _ _ _ _ _ _ _.
Arguments wStart {Q} _.
Arguments wReleased {Q} _.
Arguments wDebounce {Q} _.
Arguments wPressed {Q} _.
Arguments wStuck {Q} _.
Arguments wDI {Q} _.
Arguments pBtnEvqx {Q} _.

Definition lift {Q S : Type} (w : tWorld Q) (put : S -> tWorld Q)
    (r : option (tRet S)) : option (tRet (tWorld Q)) :=
  match r with
  | None => None
  | Some r => Some (mkRet (ret r) (put (vars r)) (pev_out r) (pextra_out r))
  end.

(** The call [currentstate(&ev, &extra)] through a state-function
    pointer. *)
Definition call_state {Q : Type} (K : tBspConsts) (now : Z)
    (current : pfStateHandler) (w : tWorld Q)
    (pev : option tEvQ_Event) (pextra : option Z)
  : option (tRet (tWorld Q)) :=
  match current with
  | pf_stStart =>
      lift w (fun s => mkWorld s (wReleased w) (wDebounce w) (wPressed w)
                               (wStuck w) (wDI w) (pBtnEvqx w))
           (Start.stStart (wStart w) pev pextra)
  | pf_stButtonReleased =>
      lift w (fun '(s, d) => mkWorld (wStart w) s (wDebounce w) (wPressed w)
                                     (wStuck w) d (pBtnEvqx w))
           (Released.stButtonReleased (wReleased w) (wDI w) pev pextra)
  | pf_stDebouncePress =>
      lift w (fun '(s, d) => mkWorld (wStart w) (wReleased w) s (wPressed w)
                                     (wStuck w) d (pBtnEvqx w))
           (Debounce.stDebouncePress K now (wDebounce w) (wDI w) pev pextra)
  | pf_stDebounceRelease =>
      lift w (fun '(s, d) => mkWorld (wStart w) (wReleased w) s (wPressed w)
                                     (wStuck w) d (pBtnEvqx w))
           (Debounce.stDebounceRelease K now (wDebounce w) (wDI w) pev pextra)
  | pf_stButtonPressed =>
      lift w (fun '(s, d) => mkWorld (wStart w) (wReleased w) (wDebounce w) s
                                     (wStuck w) d (pBtnEvqx w))
           (Pressed.stButtonPressed K now (wPressed w) (wDI w) pev pextra)
  | pf_stButtonStuck =>
      lift w (fun '(s, d) => mkWorld (wStart w) (wReleased w) (wDebounce w)
                                     (wPressed w) s d (pBtnEvqx w))
           (Stuck.stButtonStuck (wStuck w) (wDI w) pev pextra)
  end.

(** The call of a row's transition function. *)
Definition call_transition {Q : Type} (K : tBspConsts)
    (post : Q -> tEvQ_Event -> Q * bool)
    (f : pfTransitionFunc) (w : tWorld Q) (ev : tEvQ_Event) (extra : Z)
  : tWorld Q :=
  let q :=
    match f with
    | pf_NullTransition => Notifier.NullTransition Q (pBtnEvqx w) ev extra
    | pf_NotifyBtnStateChg => Notifier.NotifyBtnStateChg Q post K (pBtnEvqx w) ev extra
    end in
  mkWorld (wStart w) (wReleased w) (wDebounce w) (wPressed w) (wStuck w) (wDI w) q.

(** Modelled from the spec: [Cwsw_Sme__SME] is not among the sources.
    "Looks up the current state's behavior, invokes it, matches the
    resulting (event, reason) against the table filtered by
    currentStateFn, and returns the matched row's next-state function (or
    a terminal/null sentinel if unmatched ...)"; "on exit, SME consults the
    transition table to pick next state and invoke its transition
    function"; each call of the engine runs one phase of the state.  The
    table is consulted when the state function returns the code that
    follows its exit phase. *)
Definition Cwsw_Sme__SME {Q : Type} (K : tBspConsts)
    (post : Q -> tEvQ_Event -> Q * bool) (now : Z)
    (tbl : list tTransitionTable) (currentstate : option pfStateHandler)
    (ev : tEvQ_Event) (extra : Z) (w : tWorld Q)
  : option (tWorld Q * option pfStateHandler) :=
  match currentstate with
  | None => Some (w, None)
  | Some current =>
      match call_state K now current w (Some ev) (Some extra) with
      | None => None
      | Some r =>
          if ret r =? kStateFinished then
            match pev_out r, pextra_out r with
            | Some ev', Some extra' =>
                match Cwsw_Sme_FindNextState tbl current ev' extra' with
                | Some row =>
                    Some (call_transition K post (row_transition row) (vars r) ev' extra',
                          Some (row_next row))
                | None => Some (vars r, None)
                end
            | _, _ => Some (vars r, None)
            end
          else Some (vars r, Some current)
      end
  end.

End Sme.

(* ================================================================== *)
(** * Button task *)
(* ================================================================== *)

Module Task.

(** [tmrstate] of a software alarm (enumeration of the clock service). *)
Inductive tTmrState : Type := kTmrState_Disabled | kTmrState_Enabled.

(** [tCwswSwAlarm] *)
Record tCwswSwAlarm : Type := mkAlarm {
  tm : Z;
  reloadtm : Z;
  pEvQX : option Z;
  evid : Z;
  tmrstate : tTmrState
}.

Definition disable (a : tCwswSwAlarm) : tCwswSwAlarm :=
  mkAlarm (tm a) (reloadtm a) (pEvQX a) (evid a) kTmrState_Disabled.

(** The [static] array of [Btn_tsk_ButtonRead] and the global alarm
    [Btn_tmr_ButtonRead]. *)
Record statics : Type := mk {
  currentstate : list (option pfStateHandler);
  Btn_tmr_ButtonRead : tCwswSwAlarm
}.

Definition wf (t : statics) : Prop := sized (currentstate t).

(** The re-trigger alarm of the task is disabled. *)
Definition disabled (t : statics) : Prop :=
  tmrstate (Btn_tmr_ButtonRead t) = kTmrState_Disabled.

Section WithEngine.

(** The engine [Cwsw_Sme__SME] is called as a service: [W] is whatever it
    reaches besides its arguments. *)
Variable W : Type.
Variable Cwsw_Sme__SME :
  list tTransitionTable -> option pfStateHandler -> tEvQ_Event -> Z -> W ->
  option (W * option pfStateHandler).

(** The body of the [while] loop for one [idxbutton]. *)
Definition button_pass (K : tBspConsts) (ev : tEvQ_Event) (extra : Z)
    (idxbutton : Z) (t : statics) (w : W) : option (statics * W) :=
  let cs := currentstate t in
  let cs := match rd cs idxbutton with
            | None => wr cs idxbutton (Some pf_stStart)
            | Some _ => cs
            end in
  let ev := mkEv (EvQ.evId ev) idxbutton in
  match Cwsw_Sme__SME (tblTransitions K) (rd cs idxbutton) ev extra w with
  | None => None
  | Some (w, next) =>
      let cs := wr cs idxbutton next in
      let alarm := match next with
                   | None => disable (Btn_tmr_ButtonRead t)
                   | Some _ => Btn_tmr_ButtonRead t
                   end in
      Some (mk cs alarm, w)
  end.

(** [while(idxbutton--) { ... }] entered with [idxbutton = n]. *)
Fixpoint button_loop (K : tBspConsts) (ev : tEvQ_Event) (extra : Z)
    (n : nat) (t : statics) (w : W) : option (statics * W) :=
  match n with
  | O => Some (t, w)
  | S idxbutton =>
      match button_pass K ev extra (Z.of_nat idxbutton) t w with
      | None => None
      | Some (t, w) => button_loop K ev extra idxbutton t w
      end
  end.

(** [void Btn_tsk_ButtonRead(tEvQ_Event ev, uint32_t extra)] *)
Definition Btn_tsk_ButtonRead (K : tBspConsts) (ev : tEvQ_Event) (extra : Z)
    (t : statics) (w : W) : option (statics * W) :=
  button_loop K ev extra (Z.to_nat kBoardNumButtons) t w.

End WithEngine.
End Task.

(* ================================================================== *)
(** * A concrete board *)
(* ================================================================== *)

(** One choice of the constants that the sources leave to other headers,
    and one event queue, to run the embedding on concrete inputs: distinct
    non-zero event ids, a clock that counts milliseconds (debounce time
    600 ms, stuck time 30 s), and a bounded queue that refuses a post when
    it is full. *)
Module Gtk.

Definition K : tBspConsts := mkBspConsts 1 2 3 4 5 600 30000.

Record tEvQ : Type := mkQ { q_events : list tEvQ_Event; q_capacity : nat }.

Definition PostEvent (q : tEvQ) (ev : tEvQ_Event) : tEvQ * bool :=
  if (length (q_events q) <? q_capacity q)%nat
  then (mkQ (q_events q ++ [ev]) (q_capacity q), true)
  else (q, false).

Definition zeros : list Z := replicate (Z.to_nat kBoardNumButtons) 0.

(** The zero-initialised statics of the five state functions. *)
Definition start0 : Start.statics := Start.mk zeros zeros.
Definition released0 : Released.statics := Released.mk zeros.
Definition debounce0 : Debounce.statics := Debounce.mk zeros zeros 0 zeros zeros zeros.
Definition pressed0 : Pressed.statics := Pressed.mk zeros zeros 0 zeros zeros zeros.
Definition stuck0 : Stuck.statics := Stuck.mk zeros zeros.

(** The world at program start, with the given input streams. *)
Definition world0 (d : DI.statics) : Sme.tWorld tEvQ :=
  Sme.mkWorld start0 released0 debounce0 pressed0 stuck0 d (mkQ [] 8).

(** The task's statics at program start: no current state, alarm
    enabled with a 10 ms period. *)
Definition task0 : Task.statics :=
  Task.mk (replicate (Z.to_nat kBoardNumButtons) None)
          (Task.mkAlarm 10 10 None 0 Task.kTmrState_Enabled).

(** The button task with the engine of the model, at clock reading
    [now]. *)
Definition tick (now : Z) (tw : Task.statics * Sme.tWorld tEvQ)
  : option (Task.statics * Sme.tWorld tEvQ) :=
  Task.Btn_tsk_ButtonRead (Sme.tWorld tEvQ)
    (Sme.Cwsw_Sme__SME K PostEvent now)
    K (mkEv (evButton_Task K) 0) 0 (fst tw) (snd tw).

(** [n] ticks of the task, 10 ms apart, the first one at [now]. *)
Fixpoint ticks (n : nat) (now : Z) (tw : Task.statics * Sme.tWorld tEvQ)
  : option (Task.statics * Sme.tWorld tEvQ) :=
  match n with
  | O => Some tw
  | S n' =>
      match tick now tw with
      | None => None
      | Some tw => ticks n' (now + 10) tw
      end
  end.

(** [n] calls of the shared debounce routine for the button of [ev], 10 ms
    apart, the first one at [now]. *)
Fixpoint debounce_calls (n : nat) (now : Z)
    (s : Debounce.statics) (d : DI.statics) (ev : tEvQ_Event)
  : option (Debounce.statics * DI.statics) :=
  match n with
  | O => Some (s, d)
  | S n' =>
      match Debounce.stDebounceButton K now s d (Some ev) (Some 0) with
      | None => None
      | Some r => debounce_calls n' (now + 10) (fst (vars r)) (snd (vars r)) ev
      end
  end.

(** Button 1 in a debounce state, 590 ms after its entry at time 0, having
    read 59 alternating bits: accumulator 0x55, timer due at 600 ms; five
    1-bits are left in its stream and its status bit is set. *)
Definition debounce_late : Debounce.statics :=
  Debounce.mk [0; 1; 0; 0; 0; 0; 0; 0; 0] [0; 600; 0; 0; 0; 0; 0; 0; 0] 600
              [0; 1; 0; 0; 0; 0; 0; 0; 0] zeros [0; 85; 0; 0; 0; 0; 0; 0; 0].
Definition inputs_late : DI.statics := DI.mk [0; 31; 0; 0; 0; 0; 0; 0; 0] 2.

(** Input for a press of button 1 that is debounced and a release that
    is not: eight 1-bits, one 0-bit, 55 bits of noise, status bit set. *)
Definition inputs_noisy_release : DI.statics :=
  DI.mk [0; 0xAAAAAAAAAAAAAAFF; 0; 0; 0; 0; 0; 0; 0] 2.

End Gtk.

(* ================================================================== *)
(** * GTK button callbacks *)
(* ================================================================== *)

Module Gui.
Import String.

(** [cleanpatterna] and [cleanpatternb]; the latter is [~cleanpatterna] on
    [int] and is only used masked with [0xFFF]. *)
Definition cleanpatterna : Z := 0xFF9.
Definition cleanpatternb : Z := Z.lnot cleanpatterna.

(** [(uint64_t)x] *)
Definition u64 (x : Z) : Z := x mod 2 ^ 64.

(** Modelled from the spec: [BIT_SET] and [BIT_CLR] are macros of the
    support library, which is not among the sources; the bitmap holds "one
    bit per button, reflecting last-known press/release status". *)
Definition BIT_SET (bitmap idx : Z) : Z := Z.lor bitmap (Z.shiftl 1 idx).
Definition BIT_CLR (bitmap idx : Z) : Z := Z.land bitmap (Z.lnot (Z.shiftl 1 idx)).

(** The global object pointers [btn0] .. [btn7] and the queue [BtnQ]; a
    pointer is an address, 0 for [NULL]. *)
Record objects : Type := mkObjects {
  btn0 : Z; btn1 : Z; btn2 : Z; btn3 : Z;
  btn4 : Z; btn5 : Z; btn6 : Z; btn7 : Z;
  BtnQ : Z
}.

Definition set_btn0 (g : objects) (v : Z) : objects :=
  mkObjects v (btn1 g) (btn2 g) (btn3 g) (btn4 g) (btn5 g) (btn6 g) (btn7 g) (BtnQ g).
Definition set_btn1 (g : objects) (v : Z) : objects :=
  mkObjects (btn0 g) v (btn2 g) (btn3 g) (btn4 g) (btn5 g) (btn6 g) (btn7 g) (BtnQ g).
Definition set_btn2 (g : objects) (v : Z) : objects :=
  mkObjects (btn0 g) (btn1 g) v (btn3 g) (btn4 g) (btn5 g) (btn6 g) (btn7 g) (BtnQ g).
Definition set_btn3 (g : objects) (v : Z) : objects :=
  mkObjects (btn0 g) (btn1 g) (btn2 g) v (btn4 g) (btn5 g) (btn6 g) (btn7 g) (BtnQ g).
Definition set_btn4 (g : objects) (v : Z) : objects :=
  mkObjects (btn0 g) (btn1 g) (btn2 g) (btn3 g) v (btn5 g) (btn6 g) (btn7 g) (BtnQ g).
Definition set_btn5 (g : objects) (v : Z) : objects :=
  mkObjects (btn0 g) (btn1 g) (btn2 g) (btn3 g) (btn4 g) v (btn6 g) (btn7 g) (BtnQ g).
Definition set_btn6 (g : objects) (v : Z) : objects :=
  mkObjects (btn0 g) (btn1 g) (btn2 g) (btn3 g) (btn4 g) (btn5 g) v (btn7 g) (BtnQ g).
Definition set_btn7 (g : objects) (v : Z) : objects :=
  mkObjects (btn0 g) (btn1 g) (btn2 g) (btn3 g) (btn4 g) (btn5 g) (btn6 g) v (BtnQ g).
Definition set_BtnQ (g : objects) (v : Z) : objects :=
  mkObjects (btn0 g) (btn1 g) (btn2 g) (btn3 g) (btn4 g) (btn5 g) (btn6 g) (btn7 g) v.

(** The chain [if(widget == btn0) {idx = kBoardButton0;} else ...] of the
    two callbacks; [idx] keeps its initial value when no pointer matches. *)
Definition button_of_widget (g : objects) (widget : Z) (idx : Z) : Z :=
  if widget =? btn0 g then kBoardButton0 else
  if widget =? btn1 g then kBoardButton1 else
  if widget =? btn2 g then kBoardButton2 else
  if widget =? btn3 g then kBoardButton3 else
  if widget =? btn4 g then kBoardButton4 else
  if widget =? btn5 g then kBoardButton5 else
  if widget =? btn6 g then kBoardButton6 else
  if widget =? btn7 g then kBoardButton7 else
  idx.

(** [void cbButtonClicked(GtkWidget *widget, gpointer data)] *)
Definition cbButtonClicked (g : objects) (widget : Z) (d : DI.statics)
  : DI.statics := d.

(** [void cbUiButtonPressed(GtkWidget *widget, gpointer data)], with the
    branch of the [#if 0] that is compiled. *)
Definition cbUiButtonPressed (g : objects) (widget : Z) (d : DI.statics)
  : DI.statics :=
  let idx := button_of_widget g widget kBoardButtonNone in
  let bits := DI.buttoninputbits d in
  let bits :=
    if negb (rd bits idx =? 0)
    then wr bits idx (u64 (rd bits idx + cleanpatterna * 4096))
    else wr bits idx cleanpatterna in
  DI.mk bits (BIT_SET (DI.buttonstatus d) idx).

(** [void cbUiButtonReleased(GtkWidget *widget, gpointer data)] *)
Definition cbUiButtonReleased (g : objects) (widget : Z) (d : DI.statics)
  : DI.statics :=
  let idx := button_of_widget g widget 0 in
  let bits := DI.buttoninputbits d in
  let bits :=
    if negb (rd bits idx =? 0)
    then wr bits idx (u64 (rd bits idx + u64 (Z.land cleanpatternb 0xFFF * 4096)))
    else wr bits idx (u64 (Z.land cleanpatternb 0xFFF)) in
  DI.mk bits (BIT_CLR (DI.buttonstatus d) idx).

(** The callbacks that [di_button_init] connects, and a connection made by
    [g_signal_connect(object, signal, callback, NULL)]. *)
Inductive callback : Type :=
  | cb_ButtonClicked
  | cb_UiButtonPressed
  | cb_UiButtonReleased.

Definition connection : Type := (Z * String.string * callback)%type.

(** [bool di_button_init(GtkBuilder *pUiPanel, ptEvQ_QueueCtrlEx pEvQX)].
    The builder is the function that [gtk_builder_get_object(pUiPanel, id)]
    computes; the connections made are appended to [conns]. *)
Definition di_button_init (gtk_builder_get_object : String.string -> Z) (pEvQX : Z)
    (g : objects) (conns : list connection)
  : bool * objects * list connection :=
  let bad_init := false in
  let g := set_btn0 g (gtk_builder_get_object "btn0"%string) in
  let bad_init := if btn0 g =? 0 then true else bad_init in
  let '(bad_init, g, conns) :=
    if negb bad_init then
      let conns :=
           conns ++ [(btn0 g, "clicked"%string, cb_ButtonClicked);
                     (btn0 g, "pressed"%string, cb_UiButtonPressed);
                     (btn0 g, "released"%string, cb_UiButtonReleased)] in
      let g := set_btn1 g (gtk_builder_get_object "btn1"%string) in
      (if btn1 g =? 0 then true else bad_init, g, conns)
    else (bad_init, g, conns) in
  let '(bad_init, g, conns) :=
    if negb bad_init then
      let conns :=
           conns ++ [(btn1 g, "clicked"%string, cb_ButtonClicked);
                     (btn1 g, "clicked"%string, cb_UiButtonPressed);
                     (btn1 g, "clicked"%string, cb_UiButtonReleased)] in
      let g := set_btn2 g (gtk_builder_get_object "btn2"%string) in
      (if btn2 g =? 0 then true else bad_init, g, conns)
    else (bad_init, g, conns) in
  let '(bad_init, g, conns) :=
    if negb bad_init then
      let conns :=
           conns ++ [(btn2 g, "clicked"%string, cb_ButtonClicked);
                     (btn2 g, "clicked"%string, cb_UiButtonPressed);
                     (btn2 g, "clicked"%string, cb_UiButtonReleased)] in
      let g := set_btn3 g (gtk_builder_get_object "btn3"%string) in
      (if btn3 g =? 0 then true else bad_init, g, conns)
    else (bad_init, g, conns) in
  let '(bad_init, g, conns) :=
    if negb bad_init then
      let conns :=
           conns ++ [(btn3 g, "clicked"%string, cb_ButtonClicked);
                     (btn3 g, "clicked"%string, cb_UiButtonPressed);
                     (btn3 g, "clicked"%string, cb_UiButtonReleased)] in
      let g := set_btn4 g (gtk_builder_get_object "btn4"%string) in
      (if btn4 g =? 0 then true else bad_init, g, conns)
    else (bad_init, g, conns) in
  let '(bad_init, g, conns) :=
    if negb bad_init then
      let conns :=
           conns ++ [(btn4 g, "clicked"%string, cb_ButtonClicked);
                     (btn4 g, "clicked"%string, cb_UiButtonPressed);
                     (btn4 g, "clicked"%string, cb_UiButtonReleased)] in
      let g := set_btn5 g (gtk_builder_get_object "btn5"%string) in
      (if btn5 g =? 0 then true else bad_init, g, conns)
    else (bad_init, g, conns) in
  let '(bad_init, g, conns) :=
    if negb bad_init then
      let conns :=
           conns ++ [(btn5 g, "clicked"%string, cb_ButtonClicked);
                     (btn5 g, "clicked"%string, cb_UiButtonPressed);
                     (btn5 g, "clicked"%string, cb_UiButtonReleased)] in
      let g := set_btn6 g (gtk_builder_get_object "btn6"%string) in
      (if btn6 g =? 0 then true else bad_init, g, conns)
    else (bad_init, g, conns) in
  let '(bad_init, g, conns) :=
    if negb bad_init then
      let conns :=
           conns ++ [(btn6 g, "clicked"%string, cb_ButtonClicked);
                     (btn6 g, "clicked"%string, cb_UiButtonPressed);
                     (btn6 g, "clicked"%string, cb_UiButtonReleased)] in
      let g := set_btn7 g (gtk_builder_get_object "btn7"%string) in
      (if btn7 g =? 0 then true else bad_init, g, conns)
    else (bad_init, g, conns) in
  let g := set_BtnQ g pEvQX in
  (bad_init, g, conns).

End Gui.

(* ================================================================== *)
(** * Sequences of calls *)
(* ================================================================== *)

(** A state function is called once per tick.  [drive] makes the calls of
    the list, one after the other, for as long as the call returns
    [kStateOperational]; it yields the number of calls made and the
    variables after the first call that returned another code, or [None]
    when the list runs out before that. *)
Fixpoint drive {St : Type}
    (calls : list (St -> DI.statics -> option (tRet (St * DI.statics))))
    (s : St) (d : DI.statics) : option (nat * St * DI.statics) :=
  match calls with
  | [] => None
  | f :: calls' =>
      match f s d with
      | None => None
      | Some r =>
          if ret r =? kStateOperational then
            match drive calls' (fst (vars r)) (snd (vars r)) with
            | Some (n, s', d') => Some (S n, s', d')
            | None => None
            end
          else Some (1%nat, fst (vars r), snd (vars r))
      end
  end.

(** The code returned by a call is in order: it is the phase marker stored
    for the button after the call, it is one of the three codes that follow
    [kStateUninit], and it is [kStateFinished] exactly when the call ran the
    exit phase. *)
Definition code_ok (code phase_before phase_after : Z) : Prop :=
  code = phase_after /\
  (code = kStateOperational \/ code = kStateExit \/ code = kStateFinished) /\
  (code = kStateFinished <-> phase_before = kStateExit).

(** What holds of the variables of stButtonPressed at program start and
    after every call: for each button, the saved "reason 2" is 0 or the
    button's index, and the saved "reason 3" is None, TwitchNoted or
    Timeout. *)
Definition pressed_inv (s : Pressed.statics) : Prop :=
  Pressed.wf s /\
  forall j, in_bounds j = true ->
    (rd (Pressed.reason2 s) j = 0 \/ rd (Pressed.reason2 s) j = j) /\
    In (rd (Pressed.reason3 s) j) [kReasonNone; kReasonTwitchNoted; kReasonTimeout].

(** What holds of the variables of the shared debounce routine at program
    start and after every call: for each button, the saved reason is None,
    Debounced or Timeout, and the accumulator is a byte. *)
Definition debounce_inv (s : Debounce.statics) : Prop :=
  Debounce.wf s /\
  forall j, in_bounds j = true ->
    In (rd (Debounce.reason3 s) j) [kReasonNone; kReasonDebounced; kReasonTimeout] /\
    0 <= rd (Debounce.read_bits s) j < 256.

(** The value of a list of bits read one after the other into an 8-bit
    shift register, the last one read in the least-significant place. *)
Definition bits_value (bits : list bool) : Z :=
  fold_left (fun v b => 2 * v + Z.b2z b) bits 0.

(* ================================================================== *)
(** * Properties *)
(* ================================================================== *)

(** ** Arrays *)

Lemma in_bounds_range (idx : Z) :
  in_bounds idx = true <-> 0 <= idx < kBoardNumButtons.
Proof.
  unfold in_bounds. rewrite andb_true_iff, Z.leb_le, Z.ltb_lt. tauto.
Qed.

Lemma in_bounds_lt {A : Type} (a : list A) (idx : Z) :
  in_bounds idx = true -> sized a -> (Z.to_nat idx < length a)%nat.
Proof.
  intros Hb Hs. apply in_bounds_range in Hb. rewrite Hs. lia.
Qed.

Lemma rd_wr_eq {A : Type} `{Inhabited A} (a : list A) (idx : Z) (v : A) :
  in_bounds idx = true -> sized a -> rd (wr a idx v) idx = v.
Proof.
  intros Hb Hs. unfold rd, wr.
  apply list_lookup_total_insert_eq. now apply in_bounds_lt.
Qed.

Lemma rd_wr_ne {A : Type} `{Inhabited A} (a : list A) (i j : Z) (v : A) :
  0 <= i -> 0 <= j -> i <> j -> rd (wr a i v) j = rd a j.
Proof.
  intros Hi Hj Hne. unfold rd, wr.
  apply list_lookup_total_insert_ne. lia.
Qed.

Lemma sized_wr {A : Type} (a : list A) (idx : Z) (v : A) :
  sized a -> sized (wr a idx v).
Proof. unfold sized, wr. now rewrite length_insert. Qed.

Create HintDb bsp.
#[local] Hint Resolve sized_wr : bsp.

(** ** The digital-input bit source *)

Lemma land_1_testbit (x : Z) : negb (Z.land x 1 =? 0) = Z.testbit x 0.
Proof.
  change 1 with (Z.ones 1). rewrite Z.land_ones by lia.
  rewrite Z.bit0_odd, Z.pow_1_r, Zmod_odd. now destruct (Z.odd x).
Qed.

Lemma di_read_eq (idx : Z) (d : DI.statics) :
  in_bounds idx = true -> DI.wf d ->
  DI.di_read_next_button_input_bit idx d =
    Some ((if Z.testbit (rd (DI.buttoninputbits d) idx) 0 then true
           else if rd (DI.buttoninputbits d) idx / 2 =? 0
                then Z.testbit (DI.buttonstatus d) idx
                else false),
          DI.mk (wr (DI.buttoninputbits d) idx (rd (DI.buttoninputbits d) idx / 2))
                (DI.buttonstatus d)).
Proof.
  intros Hb Hwf. unfold DI.di_read_next_button_input_bit.
  rewrite Hb. cbn [negb]. rewrite land_1_testbit, rd_wr_eq by assumption.
  unfold DI.BIT_TEST.
  destruct (Z.testbit (rd (DI.buttoninputbits d) idx) 0); cbn [negb andb];
    [reflexivity|].
  now destruct (rd (DI.buttoninputbits d) idx / 2 =? 0).
Qed.

Lemma di_read_wf (idx : Z) (d d' : DI.statics) (b : bool) :
  DI.wf d -> DI.di_read_next_button_input_bit idx d = Some (b, d') -> DI.wf d'.
Proof.
  unfold DI.di_read_next_button_input_bit, DI.wf.
  intros Hwf. destruct (negb (in_bounds idx)); [discriminate|].
  intros [= _ <-]. cbn. now apply sized_wr.
Qed.

Lemma peek_exhausted (n : nat) (idx : Z) (d : DI.statics) :
  in_bounds idx = true -> DI.wf d -> rd (DI.buttoninputbits d) idx = 0 ->
  DI.peek n idx d = Some (repeat (Z.testbit (DI.buttonstatus d) idx) n).
Proof.
  intros Hb. revert d. induction n as [|n IH]; intros d Hwf H0; [reflexivity|].
  cbn [DI.peek repeat]. rewrite di_read_eq by assumption.
  rewrite H0. cbn [Z.testbit Z.div Z.eqb].
  change (0 / 2) with 0. cbn [Z.eqb].
  rewrite IH; cbn [DI.buttonstatus DI.buttoninputbits]; try reflexivity.
  - now apply sized_wr.
  - now apply rd_wr_eq.
Qed.

(** C9.  [di_read_next_button_input_bit] is a destructive read.  For every
    button index inside the arrays, a call returns the least-significant
    bit of the button's stored stream and halves the stored value, leaving
    the other buttons' streams and the status bitmap alone; when that bit is
    0 and what remains of the stream is zero, it returns the button's bit of
    the status bitmap instead.  Once the stream is exhausted, every further
    read returns the status bit: the function keeps returning a defined
    boolean. *)
Theorem di_read_next_button_input_bit_destructive (idx : Z) (d : DI.statics) :
  in_bounds idx = true -> DI.wf d ->
  let stream := rd (DI.buttoninputbits d) idx in
  exists (retval : bool) (d' : DI.statics),
    DI.di_read_next_button_input_bit idx d = Some (retval, d') /\
    rd (DI.buttoninputbits d') idx = stream / 2 /\
    (forall j, in_bounds j = true -> j <> idx ->
       rd (DI.buttoninputbits d') j = rd (DI.buttoninputbits d) j) /\
    DI.buttonstatus d' = DI.buttonstatus d /\
    retval = (if Z.testbit stream 0 then true
              else if stream / 2 =? 0 then Z.testbit (DI.buttonstatus d) idx
                   else false) /\
    (stream = 0 ->
       forall n, DI.peek n idx d =
                 Some (repeat (Z.testbit (DI.buttonstatus d) idx) n)).
Proof.
  intros Hb Hwf stream. eexists _, _.
  split; [apply di_read_eq; assumption|].
  cbn [DI.buttoninputbits DI.buttonstatus].
  split; [now apply rd_wr_eq|].
  split.
  { intros j Hj Hne. apply in_bounds_range in Hb, Hj.
    apply rd_wr_ne; lia. }
  split; [reflexivity|].
  split; [reflexivity|].
  intros H0 n. now apply peek_exhausted.
Qed.

Lemma di_read_next_button_input_bit_destructive_witness :
  exists (retval : bool) (d' : DI.statics),
    DI.di_read_next_button_input_bit 1 (DI.mk [0; 6; 0; 0; 0; 0; 0; 0; 0] 2)
      = Some (retval, d') /\
    rd (DI.buttoninputbits d') 1 = 3 /\ retval = false.
Proof.
  destruct (di_read_next_button_input_bit_destructive 1
              (DI.mk [0; 6; 0; 0; 0; 0; 0; 0; 0] 2) eq_refl eq_refl)
    as (r & d' & Hcall & Hhalf & _ & _ & Hr & _).
  exists r, d'. split; [exact Hcall|]. split; [exact Hhalf|exact Hr].
Defined.

(** ** Null pointer arguments *)

(** C8.  Every state function called with a null event pointer or a null
    guard-output pointer returns the status 0 at once and changes nothing:
    its own variables (phase markers, accumulators, timers, saved event
    ids, for every button), the input streams and the objects behind the
    pointers are returned as they were received. *)
Theorem state_functions_null_pointer_noop
    (K : tBspConsts) (now : Z) (d : DI.statics)
    (pev : option tEvQ_Event) (pextra : option Z) :
  (pev = None \/ pextra = None) ->
  (forall s, Start.stStart s pev pextra = Some (mkRet 0 s pev pextra)) /\
  (forall s, Released.stButtonReleased s d pev pextra
             = Some (mkRet 0 (s, d) pev pextra)) /\
  (forall s, Debounce.stDebounceButton K now s d pev pextra
             = Some (mkRet 0 (s, d) pev pextra)) /\
  (forall s, Debounce.stDebouncePress K now s d pev pextra
             = Some (mkRet 0 (s, d) pev pextra)) /\
  (forall s, Debounce.stDebounceRelease K now s d pev pextra
             = Some (mkRet 0 (s, d) pev pextra)) /\
  (forall s, Pressed.stButtonPressed K now s d pev pextra
             = Some (mkRet 0 (s, d) pev pextra)) /\
  (forall s, Stuck.stButtonStuck s d pev pextra
             = Some (mkRet 0 (s, d) pev pextra)).
Proof.
  intros [-> | ->]; repeat split; intros s;
    unfold Debounce.stDebouncePress, Debounce.stDebounceRelease;
    try reflexivity; destruct pev; reflexivity.
Qed.

Lemma state_functions_null_pointer_noop_witness :
  Debounce.stDebounceButton Gtk.K 50 Gtk.debounce0 (DI.mk Gtk.zeros 0)
    None (Some 7)
  = Some (mkRet 0 (Gtk.debounce0, DI.mk Gtk.zeros 0) None (Some 7)).
Proof.
  pose proof (state_functions_null_pointer_noop Gtk.K 50 (DI.mk Gtk.zeros 0)
                None (Some 7) (or_introl eq_refl)) as H.
  apply H.
Defined.

(** ** The event notifier *)

Lemma notified_id_cases (K : tBspConsts) (ev : tEvQ_Event) (extra : Z) :
  (extra = kReasonDebounced ->
     (EvQ.evId ev = evBntPressed K \/ EvQ.evId ev = evBtnReleased K) ->
     Notifier.notified_id K ev extra = EvQ.evId ev) /\
  (extra = kReasonDebounced ->
     EvQ.evId ev <> evBntPressed K -> EvQ.evId ev <> evBtnReleased K ->
     Notifier.notified_id K ev extra = 0) /\
  (extra = kReasonTimeout ->
     Notifier.notified_id K ev extra = evButton_BtnStuck K) /\
  (extra = kReasonButtonUnstuck ->
     Notifier.notified_id K ev extra = evButton_BtnUnstuck K) /\
  (extra <> kReasonDebounced -> extra <> kReasonTimeout ->
     extra <> kReasonButtonUnstuck ->
     Notifier.notified_id K ev extra = 0).
Proof.
  unfold Notifier.notified_id.
  split; [|split; [|split; [|split]]].
  - intros -> [He | He]; cbn [Z.eqb kReasonDebounced Pos.eqb]; rewrite He;
      rewrite Z.eqb_refl; [now rewrite orb_true_r|reflexivity].
  - intros -> Hp Hr. cbn [Z.eqb kReasonDebounced Pos.eqb].
    apply Z.eqb_neq in Hp, Hr. now rewrite Hp, Hr.
  - now intros ->.
  - now intros ->.
  - intros H1 H2 H3. apply Z.eqb_neq in H1, H2, H3. now rewrite H1, H2, H3.
Qed.

(** C7.  The event notifier maps exit reasons to posted event ids: with
    reason Debounced it posts the incoming event unchanged when its id is
    Pressed or Released and posts nothing otherwise; with reason Timeout it
    posts the ButtonStuck id and with reason ButtonUnstuck the ButtonUnstuck
    id, both with the incoming event data; with any other reason the id is
    zeroed and nothing is posted.  Whatever the queue and its posting
    function are, a qualifying call applies the posting function exactly
    once and drops its success indication, so a refused post is not
    repeated. *)
Theorem NotifyBtnStateChg_posts_once
    (Q : Type) (post : Q -> tEvQ_Event -> Q * bool)
    (K : tBspConsts) (q : Q) (ev : tEvQ_Event) (extra : Z) :
  posted_ids_nonzero K ->
  (extra = kReasonDebounced ->
     (EvQ.evId ev = evBntPressed K \/ EvQ.evId ev = evBtnReleased K) ->
     Notifier.NotifyBtnStateChg Q post K q ev extra = fst (post q ev)) /\
  (extra = kReasonDebounced ->
     EvQ.evId ev <> evBntPressed K -> EvQ.evId ev <> evBtnReleased K ->
     Notifier.NotifyBtnStateChg Q post K q ev extra = q) /\
  (extra = kReasonTimeout ->
     Notifier.NotifyBtnStateChg Q post K q ev extra
     = fst (post q (mkEv (evButton_BtnStuck K) (EvQ.evData ev)))) /\
  (extra = kReasonButtonUnstuck ->
     Notifier.NotifyBtnStateChg Q post K q ev extra
     = fst (post q (mkEv (evButton_BtnUnstuck K) (EvQ.evData ev)))) /\
  (extra <> kReasonDebounced -> extra <> kReasonTimeout ->
     extra <> kReasonButtonUnstuck ->
     Notifier.notified_id K ev extra = 0 /\
     Notifier.NotifyBtnStateChg Q post K q ev extra = q).
Proof.
  intros (Hp & Hr & Hs & Hu).
  destruct (notified_id_cases K ev extra) as (N1 & N2 & N3 & N4 & N5).
  unfold Notifier.NotifyBtnStateChg. cbn [EvQ.evId EvQ.evData].
  split; [|split; [|split; [|split]]].
  - intros He Hid. rewrite (N1 He Hid).
    assert (Hnz : EvQ.evId ev <> 0) by (destruct Hid as [-> | ->]; assumption).
    apply Z.eqb_neq in Hnz. rewrite Hnz. cbn [negb]. now destruct ev.
  - intros He H1 H2. now rewrite (N2 He H1 H2).
  - intros He. rewrite (N3 He). apply Z.eqb_neq in Hs. now rewrite Hs.
  - intros He. rewrite (N4 He). apply Z.eqb_neq in Hu. now rewrite Hu.
  - intros H1 H2 H3. now rewrite (N5 H1 H2 H3).
Qed.

Lemma NotifyBtnStateChg_posts_once_witness :
  Notifier.NotifyBtnStateChg Gtk.tEvQ Gtk.PostEvent Gtk.K (Gtk.mkQ [] 0)
    (mkEv (evButton_Task Gtk.K) 3) kReasonTimeout
  = Gtk.mkQ [] 0 /\
  Notifier.NotifyBtnStateChg Gtk.tEvQ Gtk.PostEvent Gtk.K (Gtk.mkQ [] 8)
    (mkEv (evButton_Task Gtk.K) 3) kReasonTimeout
  = Gtk.mkQ [mkEv (evButton_BtnStuck Gtk.K) 3] 8.
Proof.
  assert (Hnz : posted_ids_nonzero Gtk.K) by (repeat split; discriminate).
  split.
  - destruct (NotifyBtnStateChg_posts_once Gtk.tEvQ Gtk.PostEvent Gtk.K
                (Gtk.mkQ [] 0) (mkEv (evButton_Task Gtk.K) 3) kReasonTimeout Hnz)
      as (_ & _ & H & _).
    rewrite (H eq_refl). reflexivity.
  - destruct (NotifyBtnStateChg_posts_once Gtk.tEvQ Gtk.PostEvent Gtk.K
                (Gtk.mkQ [] 8) (mkEv (evButton_Task Gtk.K) 3) kReasonTimeout Hnz)
      as (_ & _ & H & _).
    rewrite (H eq_refl). reflexivity.
Defined.

(** ** The shared debounce routine *)

Ltac debounce_fields :=
  cbn [Debounce.set_statephase Debounce.set_tmrMyStateTimer
       Debounce.set_tmrdebounce Debounce.set_evId Debounce.set_reason3
       Debounce.set_read_bits Debounce.statephase Debounce.tmrMyStateTimer
       Debounce.tmrdebounce Debounce.evId Debounce.reason3 Debounce.read_bits].

Ltac same_cells Hb Hj Hne :=
  apply in_bounds_range in Hb; apply in_bounds_range in Hj;
  unfold Debounce.same_button; debounce_fields;
  repeat split; rewrite ?rd_wr_ne by lia; reflexivity.

Lemma shift_in_range (acc : Z) (bit : bool) :
  0 <= Debounce.shift_in acc bit < 256.
Proof.
  unfold Debounce.shift_in, u8. change 255 with (Z.ones 8).
  rewrite (Z.land_ones (Z.lor _ _)) by lia. apply Z.mod_pos_bound. lia.
Qed.

Lemma lor_even_bit (m : Z) (bit : bool) :
  Z.lor (2 * m) (Z.b2z bit) = 2 * m + Z.b2z bit.
Proof.
  assert (Hland : Z.land (2 * m) (Z.b2z bit) = 0).
  { destruct bit; cbn [Z.b2z]; [|apply Z.land_0_r].
    change 1 with (Z.ones 1). rewrite Z.land_ones by lia.
    rewrite Z.pow_1_r, Z.mul_comm. apply Z_mod_mult. }
  rewrite <- Z.lxor_lor by exact Hland.
  symmetry. now apply Z.add_nocarry_lxor.
Qed.

Lemma shift_in_arith (acc : Z) (bit : bool) :
  Debounce.shift_in acc bit = (2 * acc + Z.b2z bit) mod 256.
Proof.
  unfold Debounce.shift_in, u8. change 255 with (Z.ones 8).
  rewrite !Z.land_ones by lia. rewrite Z.shiftl_mul_pow2 by lia.
  change (2 ^ 8) with 256. change (2 ^ 1) with 2.
  replace ((acc * 2) mod 256) with (2 * (acc mod 128))
    by (rewrite (Z.mul_comm acc 2); change 256 with (2 * 128);
        now rewrite Zmult_mod_distr_l).
  rewrite lor_even_bit.
  change 256 with (2 * 128) at 1.
  rewrite <- (Zmult_mod_distr_l acc 128 2). change (2 * 128) with 256.
  rewrite Zplus_mod_idemp_l. reflexivity.
Qed.

Ltac debounce_wf :=
  unfold Debounce.wf; debounce_fields; repeat split; auto with bsp.

(** The entry phase: any stored phase other than Operational and Exit. *)
Lemma debounce_entry (K : tBspConsts) (now : Z) (s : Debounce.statics)
    (d : DI.statics) (ev : tEvQ_Event) (extra : Z) :
  in_bounds (EvQ.evData ev) = true -> Debounce.wf s ->
  rd (Debounce.statephase s) (EvQ.evData ev) <> kStateOperational ->
  rd (Debounce.statephase s) (EvQ.evData ev) <> kStateExit ->
  exists s',
    Debounce.stDebounceButton K now s d (Some ev) (Some extra)
      = Some (mkRet kStateOperational (s', d) (Some ev) (Some extra)) /\
    Debounce.wf s' /\
    rd (Debounce.statephase s') (EvQ.evData ev) = kStateOperational /\
    rd (Debounce.read_bits s') (EvQ.evData ev) = 1 /\
    rd (Debounce.tmrMyStateTimer s') (EvQ.evData ev)
      = now + kTmButtonDebounceTime K /\
    rd (Debounce.evId s') (EvQ.evData ev) = EvQ.evId ev /\
    rd (Debounce.reason3 s') (EvQ.evData ev)
      = rd (Debounce.reason3 s) (EvQ.evData ev) /\
    (forall j, in_bounds j = true -> j <> EvQ.evData ev ->
       Debounce.same_button j s s').
Proof.
  intros Hb (W1 & W2 & W3 & W4 & W5) Hop Hex.
  unfold Debounce.stDebounceButton. rewrite Hb. cbn [negb].
  apply Z.eqb_neq in Hop, Hex. rewrite Hop, Hex. debounce_fields.
  eexists. split.
  { rewrite rd_wr_eq by auto with bsp. reflexivity. }
  debounce_fields.
  split; [debounce_wf|].
  rewrite !rd_wr_eq by auto with bsp.
  repeat (split; [reflexivity|]).
  intros j Hj Hne. same_cells Hb Hj Hne.
Qed.

(** The operate phase: one bit is read and shifted into the accumulator;
    the outcome depends, in this order, on the accumulator being 0, being
    0xFF, and on the timer. *)
Lemma debounce_operate (K : tBspConsts) (now : Z) (s : Debounce.statics)
    (d : DI.statics) (ev : tEvQ_Event) (extra : Z) (bit : bool)
    (d' : DI.statics) :
  in_bounds (EvQ.evData ev) = true -> Debounce.wf s ->
  rd (Debounce.statephase s) (EvQ.evData ev) = kStateOperational ->
  DI.di_read_next_button_input_bit (EvQ.evData ev) d = Some (bit, d') ->
  exists s',
    Debounce.stDebounceButton K now s d (Some ev) (Some extra)
      = Some (mkRet (rd (Debounce.statephase s') (EvQ.evData ev)) (s', d')
                    (Some ev) (Some extra)) /\
    Debounce.wf s' /\
    rd (Debounce.read_bits s') (EvQ.evData ev)
      = Debounce.shift_in (rd (Debounce.read_bits s) (EvQ.evData ev)) bit /\
    rd (Debounce.tmrMyStateTimer s') (EvQ.evData ev)
      = rd (Debounce.tmrMyStateTimer s) (EvQ.evData ev) /\
    (forall j, in_bounds j = true -> j <> EvQ.evData ev ->
       Debounce.same_button j s s') /\
    (rd (Debounce.read_bits s') (EvQ.evData ev) = 0 ->
       rd (Debounce.statephase s') (EvQ.evData ev) = kStateExit /\
       rd (Debounce.evId s') (EvQ.evData ev) = evBtnReleased K /\
       rd (Debounce.reason3 s') (EvQ.evData ev) = kReasonDebounced) /\
    (rd (Debounce.read_bits s') (EvQ.evData ev) = 255 ->
       rd (Debounce.statephase s') (EvQ.evData ev) = kStateExit /\
       rd (Debounce.evId s') (EvQ.evData ev) = evBntPressed K /\
       rd (Debounce.reason3 s') (EvQ.evData ev) = kReasonDebounced) /\
    (rd (Debounce.read_bits s') (EvQ.evData ev) <> 0 ->
     rd (Debounce.read_bits s') (EvQ.evData ev) <> 255 ->
     TM now (rd (Debounce.tmrMyStateTimer s) (EvQ.evData ev)) = true ->
       rd (Debounce.statephase s') (EvQ.evData ev) = kStateExit /\
       rd (Debounce.evId s') (EvQ.evData ev)
         = rd (Debounce.evId s) (EvQ.evData ev) /\
       rd (Debounce.reason3 s') (EvQ.evData ev) = kReasonTimeout) /\
    (rd (Debounce.read_bits s') (EvQ.evData ev) <> 0 ->
     rd (Debounce.read_bits s') (EvQ.evData ev) <> 255 ->
     TM now (rd (Debounce.tmrMyStateTimer s) (EvQ.evData ev)) = false ->
       rd (Debounce.statephase s') (EvQ.evData ev) = kStateOperational /\
       rd (Debounce.evId s') (EvQ.evData ev)
         = rd (Debounce.evId s) (EvQ.evData ev) /\
       rd (Debounce.reason3 s') (EvQ.evData ev)
         = rd (Debounce.reason3 s) (EvQ.evData ev)).
Proof.
  intros Hb (W1 & W2 & W3 & W4 & W5) Hph Hrd.
  unfold Debounce.stDebounceButton. rewrite Hb. cbn [negb].
  rewrite Hph. cbn [Z.eqb kStateOperational Pos.eqb].
  rewrite Hrd. debounce_fields. rewrite !rd_wr_eq by auto with bsp.
  set (acc := Debounce.shift_in (rd (Debounce.read_bits s) (EvQ.evData ev)) bit).
  destruct (Z.eqb_spec acc 0) as [E0 | E0];
    [|destruct (Z.eqb_spec acc 255) as [E255 | E255];
      [|destruct (TM now (rd (Debounce.tmrMyStateTimer s) (EvQ.evData ev)))
          eqn:Etm]];
    (eexists; split; [reflexivity|]); debounce_fields;
    (split; [debounce_wf|]);
    rewrite ?rd_wr_eq by auto with bsp;
    (split; [reflexivity|]); (split; [reflexivity|]);
    (split; [intros j Hj Hne; same_cells Hb Hj Hne|]);
    repeat split; try reflexivity; try congruence;
    try (exfalso; congruence).
Qed.

(** The exit phase writes the saved event id, the button and the saved
    reason through the two pointers. *)
Lemma debounce_exit (K : tBspConsts) (now : Z) (s : Debounce.statics)
    (d : DI.statics) (ev : tEvQ_Event) (extra : Z) :
  in_bounds (EvQ.evData ev) = true -> Debounce.wf s ->
  rd (Debounce.statephase s) (EvQ.evData ev) = kStateExit ->
  Debounce.stDebounceButton K now s d (Some ev) (Some extra)
    = Some (mkRet kStateFinished
              (Debounce.set_statephase s
                 (wr (Debounce.statephase s) (EvQ.evData ev) kStateFinished), d)
              (Some (mkEv (rd (Debounce.evId s) (EvQ.evData ev)) (EvQ.evData ev)))
              (Some (rd (Debounce.reason3 s) (EvQ.evData ev)))).
Proof.
  intros Hb (W1 & W2 & W3 & W4 & W5) Hph.
  unfold Debounce.stDebounceButton. rewrite Hb. cbn [negb].
  rewrite Hph. cbn [Z.eqb kStateOperational kStateExit Pos.eqb].
  debounce_fields. rewrite rd_wr_eq by auto with bsp. reflexivity.
Qed.

(** C10.  In an operate cycle of the shared debounce routine the two
    terminal-pattern tests come before the timer test: when the accumulator
    reaches 0x00 or 0xFF on a cycle at which the debounce timer has already
    expired, the state leaves with reason Debounced and the event Released
    (0x00) or Pressed (0xFF), which the following exit-phase call writes
    through the pointers; the reason is not Timeout. *)
Theorem debounce_terminal_pattern_precedes_timeout
    (K : tBspConsts) (now : Z) (s : Debounce.statics) (d : DI.statics)
    (ev : tEvQ_Event) (extra : Z) (bit : bool) (d' : DI.statics) :
  in_bounds (EvQ.evData ev) = true -> Debounce.wf s ->
  rd (Debounce.statephase s) (EvQ.evData ev) = kStateOperational ->
  DI.di_read_next_button_input_bit (EvQ.evData ev) d = Some (bit, d') ->
  TM now (rd (Debounce.tmrMyStateTimer s) (EvQ.evData ev)) = true ->
  let acc := Debounce.shift_in (rd (Debounce.read_bits s) (EvQ.evData ev)) bit in
  acc = 0 \/ acc = 255 ->
  exists s',
    Debounce.stDebounceButton K now s d (Some ev) (Some extra)
      = Some (mkRet kStateExit (s', d') (Some ev) (Some extra)) /\
    rd (Debounce.reason3 s') (EvQ.evData ev) = kReasonDebounced /\
    rd (Debounce.reason3 s') (EvQ.evData ev) <> kReasonTimeout /\
    forall now' extra',
      exists s'',
        Debounce.stDebounceButton K now' s' d' (Some ev) (Some extra')
        = Some (mkRet kStateFinished (s'', d')
                  (Some (mkEv (if acc =? 0 then evBtnReleased K else evBntPressed K)
                              (EvQ.evData ev)))
                  (Some kReasonDebounced)).
Proof.
  intros Hb Hwf Hph Hrd Htm acc Hacc.
  destruct (debounce_operate K now s d ev extra bit d' Hb Hwf Hph Hrd)
    as (s' & Hcall & Hwf' & Hacc' & _ & _ & H0 & H255 & _ & _).
  fold acc in Hacc'.
  assert (Hout : rd (Debounce.statephase s') (EvQ.evData ev) = kStateExit /\
                 rd (Debounce.evId s') (EvQ.evData ev)
                   = (if acc =? 0 then evBtnReleased K else evBntPressed K) /\
                 rd (Debounce.reason3 s') (EvQ.evData ev) = kReasonDebounced).
  { destruct Hacc as [E | E]; rewrite E in *; cbn [Z.eqb]; auto. }
  destruct Hout as (Hph' & Hid & Hre).
  exists s'. rewrite Hcall, Hph', Hre.
  split; [reflexivity|]. split; [reflexivity|]. split; [discriminate|].
  intros now' extra'. eexists.
  rewrite (debounce_exit K now' s' d' ev extra' Hb Hwf' Hph'), Hid, Hre.
  reflexivity.
Qed.

Lemma debounce_terminal_pattern_precedes_timeout_witness :
  exists s',
    Debounce.stDebounceButton Gtk.K 700
      (Debounce.mk [0; 1; 0; 0; 0; 0; 0; 0; 0] [0; 600; 0; 0; 0; 0; 0; 0; 0] 0
                   [0; 1; 0; 0; 0; 0; 0; 0; 0] Gtk.zeros
                   [0; 127; 0; 0; 0; 0; 0; 0; 0])
      (DI.mk [0; 1; 0; 0; 0; 0; 0; 0; 0] 0) (Some (mkEv 1 1)) (Some 0)
    = Some (mkRet kStateExit (s', DI.mk [0; 0; 0; 0; 0; 0; 0; 0; 0] 0)
                  (Some (mkEv 1 1)) (Some 0)) /\
    rd (Debounce.reason3 s') 1 = kReasonDebounced.
Proof.
  destruct (debounce_terminal_pattern_precedes_timeout Gtk.K 700
              (Debounce.mk [0; 1; 0; 0; 0; 0; 0; 0; 0]
                           [0; 600; 0; 0; 0; 0; 0; 0; 0] 0
                           [0; 1; 0; 0; 0; 0; 0; 0; 0] Gtk.zeros
                           [0; 127; 0; 0; 0; 0; 0; 0; 0])
              (DI.mk [0; 1; 0; 0; 0; 0; 0; 0; 0] 0) (mkEv 1 1) 0 true
              (DI.mk [0; 0; 0; 0; 0; 0; 0; 0; 0] 0))
    as (s' & Hcall & Hre & _).
  - reflexivity.
  - repeat split.
  - reflexivity.
  - reflexivity.
  - reflexivity.
  - right. reflexivity.
  - exists s'. split; [exact Hcall|exact Hre].
Defined.

(** ** Debounce timeout and the transition table *)

Lemma no_timeout_row_for_debounce_release (K : tBspConsts) :
  Forall (fun r => row_current r = pf_stDebounceRelease ->
                   row_reason3 r <> kReasonTimeout)
         (tblTransitions K).
Proof.
  unfold tblTransitions.
  repeat (constructor; [cbn; intros; discriminate|]).
  constructor.
Qed.

Lemma debounce_press_timeout_row (K : tBspConsts) (ev : tEvQ_Event) :
  EvQ.evId ev = evButton_Task K ->
  option_map row_next
    (Sme.Cwsw_Sme_FindNextState (tblTransitions K) pf_stDebouncePress ev
       kReasonTimeout)
  = Some pf_stButtonReleased.
Proof.
  intros He. unfold Sme.Cwsw_Sme_FindNextState, tblTransitions, Sme.row_matches.
  cbn [List.find row_current row_reason1 row_reason2 row_reason3
       pfStateHandler_eqb andb].
  change (Z.land kReasonTimeout 255 =? kReasonDebounced) with false.
  change (Z.land kReasonTimeout 255 =? kReasonTimeout) with true.
  rewrite !andb_false_r, He, Z.eqb_refl. reflexivity.
Qed.

(** C2, evaluated where it fails.  The timeout exit of the shared debounce
    routine keeps the inbound event id and reports reason Timeout, and for
    stDebouncePress the table leads back to stButtonReleased; but no row of
    the table has stDebounceRelease as its current state together with
    reason Timeout.  Button 1, debouncing a release with accumulator 0x55
    and an expired timer, reads a 1: the operate cycle decides Timeout, the
    exit phase reports (inbound id, 1, Timeout), the table search finds no
    row, and the engine of the model hands back the null state. *)
Theorem debounce_release_timeout_unmatched :
  let ev := mkEv (evButton_Task Gtk.K) 1 in
  let s := Debounce.mk [0; 1; 0; 0; 0; 0; 0; 0; 0] [0; 600; 0; 0; 0; 0; 0; 0; 0] 0
                       [0; 1; 0; 0; 0; 0; 0; 0; 0] Gtk.zeros
                       [0; 85; 0; 0; 0; 0; 0; 0; 0] in
  let w := Sme.mkWorld Gtk.start0 Gtk.released0 s Gtk.pressed0 Gtk.stuck0
                       (DI.mk [0; 1; 0; 0; 0; 0; 0; 0; 0] 0) (Gtk.mkQ [] 8) in
  (forall K ev', Sme.Cwsw_Sme_FindNextState (tblTransitions K)
                   pf_stDebounceRelease ev' kReasonTimeout = None) /\
  exists w1 w2,
    Sme.Cwsw_Sme__SME Gtk.K Gtk.PostEvent 600 (tblTransitions Gtk.K)
      (Some pf_stDebounceRelease) ev 0 w = Some (w1, Some pf_stDebounceRelease) /\
    rd (Debounce.read_bits (Sme.wDebounce w1)) 1 = 171 /\
    rd (Debounce.reason3 (Sme.wDebounce w1)) 1 = kReasonTimeout /\
    Sme.call_state Gtk.K 610 pf_stDebounceRelease w1 (Some ev) (Some 0)
      = Some (mkRet kStateFinished w2 (Some ev) (Some kReasonTimeout)) /\
    Sme.Cwsw_Sme__SME Gtk.K Gtk.PostEvent 610 (tblTransitions Gtk.K)
      (Some pf_stDebounceRelease) ev 0 w1 = Some (w2, None).
Proof.
  cbv zeta. split.
  - intros K ev'.
    unfold Sme.Cwsw_Sme_FindNextState, tblTransitions, Sme.row_matches.
    cbn [List.find row_current row_reason1 row_reason2 row_reason3
         pfStateHandler_eqb andb].
    change (Z.land kReasonTimeout 255 =? kReasonDebounced) with false.
    rewrite !andb_false_r. reflexivity.
  - eexists _, _. split; [vm_compute; reflexivity|].
    split; [vm_compute; reflexivity|].
    split; [vm_compute; reflexivity|].
    split; vm_compute; reflexivity.
Qed.

(** ** Debounce convergence *)

Lemma shift_in_mod (acc : Z) (bit : bool) :
  Debounce.shift_in acc bit = Debounce.shift_in (acc mod 256) bit.
Proof.
  rewrite !shift_in_arith.
  rewrite (Z.add_mod (2 * acc)), (Z.add_mod (2 * (acc mod 256))) by lia.
  rewrite (Z.mul_mod 2 acc), (Z.mul_mod 2 (acc mod 256)) by lia.
  now rewrite Z.mod_mod by lia.
Qed.

Lemma settle_mod (n : nat) (acc : Z) (bit : bool) :
  Debounce.settle n acc bit = Debounce.settle n (acc mod 256) bit.
Proof.
  destruct n as [|n]; [reflexivity|].
  cbn [Debounce.settle]. now rewrite <- shift_in_mod.
Qed.

Lemma settles_in_8_bytes :
  forallb (fun a => Debounce.settles_in_8 (Z.of_nat a) true
                    && Debounce.settles_in_8 (Z.of_nat a) false)
          (seq 0 256) = true.
Proof. vm_compute. reflexivity. Qed.

Lemma settle_8 (acc : Z) (bit : bool) :
  exists k, Debounce.settle 8 acc bit = Some (k, if bit then 255 else 0) /\
            (1 <= k <= 8)%nat.
Proof.
  rewrite settle_mod.
  assert (Hr : 0 <= acc mod 256 < 256) by (apply Z.mod_pos_bound; lia).
  pose proof settles_in_8_bytes as Hall.
  rewrite forallb_forall in Hall.
  specialize (Hall (Z.to_nat (acc mod 256))).
  rewrite Z2Nat.id in Hall by lia.
  assert (Hin : In (Z.to_nat (acc mod 256)) (seq 0 256)).
  { apply in_seq. lia. }
  specialize (Hall Hin). apply andb_true_iff in Hall as [Ht Hf].
  assert (Hb : Debounce.settles_in_8 (acc mod 256) bit = true)
    by (destruct bit; assumption).
  unfold Debounce.settles_in_8 in Hb.
  destruct (Debounce.settle 8 (acc mod 256) bit) as [[k t]|]; [|discriminate].
  apply andb_true_iff in Hb as [Hb Hpat]. apply andb_true_iff in Hb as [Hlo Hhi].
  apply Z.eqb_eq in Hpat. apply Nat.leb_le in Hlo, Hhi.
  exists k. subst t. split; [reflexivity|lia].
Qed.

Lemma peek_succ (n : nat) (idx : Z) (d : DI.statics) (bit : bool) :
  DI.peek (S n) idx d = Some (repeat bit (S n)) ->
  exists d', DI.di_read_next_button_input_bit idx d = Some (bit, d') /\
             DI.peek n idx d' = Some (repeat bit n).
Proof.
  cbn [DI.peek repeat].
  destruct (DI.di_read_next_button_input_bit idx d) as [[b0 d']|]; [|discriminate].
  destruct (DI.peek n idx d') as [bs|] eqn:Hp; [|discriminate].
  intros [= -> ->]. now exists d'.
Qed.

(** The state function follows [settle] for as long as the timer has not
    expired. *)
Lemma cycles_settle (K : tBspConsts) (ev : tEvQ_Event) (extra : Z) (bit : bool) :
  in_bounds (EvQ.evData ev) = true ->
  forall (n : nat) (nows : list Z) (s : Debounce.statics) (d : DI.statics)
         (k : nat) (t : Z),
    Debounce.wf s ->
    rd (Debounce.statephase s) (EvQ.evData ev) = kStateOperational ->
    DI.peek n (EvQ.evData ev) d = Some (repeat bit n) ->
    (n <= length nows)%nat ->
    Forall (fun now =>
              TM now (rd (Debounce.tmrMyStateTimer s) (EvQ.evData ev)) = false)
           nows ->
    Debounce.settle n (rd (Debounce.read_bits s) (EvQ.evData ev)) bit
      = Some (k, t) ->
    exists s' d',
      Debounce.cycles K nows s d ev extra = Some (k, s', d') /\
      Debounce.wf s' /\
      rd (Debounce.statephase s') (EvQ.evData ev) = kStateExit /\
      rd (Debounce.read_bits s') (EvQ.evData ev) = t /\
      rd (Debounce.reason3 s') (EvQ.evData ev) = kReasonDebounced /\
      rd (Debounce.evId s') (EvQ.evData ev)
        = (if t =? 0 then evBtnReleased K else evBntPressed K).
Proof.
  intros Hb. induction n as [|n IH]; intros nows s d k t Hwf Hph Hpk Hlen Htm Hst;
    [discriminate|].
  destruct nows as [|now nows]; [cbn in Hlen; lia|].
  apply peek_succ in Hpk as (d1 & Hrd & Hpk).
  destruct (debounce_operate K now s d ev extra bit d1 Hb Hwf Hph Hrd)
    as (s1 & Hcall & Hwf1 & Hacc & Htmr & _ & H0 & H255 & _ & Hstay).
  cbn [Debounce.cycles]. rewrite Hcall. cbn [ret vars fst snd].
  cbn [Debounce.settle] in Hst. rewrite <- Hacc in Hst.
  pose proof (Forall_inv Htm) as Hnow. pose proof (Forall_inv_tail Htm) as Htl.
  destruct (Z.eqb_spec (rd (Debounce.read_bits s1) (EvQ.evData ev)) 0) as [E0 | E0].
  { cbn [orb] in Hst. injection Hst as <- <-.
    destruct (H0 E0) as (P1 & P2 & P3). rewrite P1.
    exists s1, d1. rewrite E0. cbn [Z.eqb]. auto 10. }
  destruct (Z.eqb_spec (rd (Debounce.read_bits s1) (EvQ.evData ev)) 255)
    as [E255 | E255].
  { cbn [orb] in Hst. injection Hst as <- <-.
    destruct (H255 E255) as (P1 & P2 & P3). rewrite P1.
    exists s1, d1. rewrite E255. cbn [Z.eqb]. auto 10. }
  cbn [orb] in Hst.
  destruct (Hstay E0 E255 Hnow) as (P1 & _ & _). rewrite P1.
  cbn [Z.eqb kStateOperational Pos.eqb].
  destruct (Debounce.settle n (rd (Debounce.read_bits s1) (EvQ.evData ev)) bit)
    as [[k' t']|] eqn:Hst'; [|discriminate].
  injection Hst as <- <-.
  rewrite <- Htmr in Htl. cbn [length] in Hlen.
  destruct (IH nows s1 d1 k' t' Hwf1 P1 Hpk ltac:(lia) Htl Hst')
    as (s' & d' & Hcyc & Hrest).
  exists s', d'. rewrite Hcyc. split; [reflexivity|exact Hrest].
Qed.

(** The state used below is reached from the zero-initialised variables:
    entry at time 0, then 59 operate cycles on an alternating stream. *)
Example debounce_late_reachable :
  Gtk.debounce_calls 60 0 Gtk.debounce0
    (DI.mk [0; 0xFD55555555555555; 0; 0; 0; 0; 0; 0; 0] 2)
    (mkEv (evButton_Task Gtk.K) 1)
  = Some (Gtk.debounce_late, Gtk.inputs_late).
Proof. vm_compute. reflexivity. Qed.

(** C1 as stated fails once the debounce timer has run out.  Button 1 is in
    a debounce state in its operate phase and every one of its next 8 reads
    returns 1, yet the first operate cycle (accumulator 0xAB, timer expired)
    leaves the state, and the exit phase reports reason Timeout with the
    inbound event id, not Debounced with Pressed. *)
Lemma debounce_convergence_preempted_by_timeout :
  let ev := mkEv (evButton_Task Gtk.K) 1 in
  Debounce.wf Gtk.debounce_late /\
  rd (Debounce.statephase Gtk.debounce_late) 1 = kStateOperational /\
  DI.peek 8 1 Gtk.inputs_late = Some (repeat true 8) /\
  exists s' d' s'',
    Debounce.cycles Gtk.K [600; 610; 620; 630; 640; 650; 660; 670]
      Gtk.debounce_late Gtk.inputs_late ev 0 = Some (1%nat, s', d') /\
    rd (Debounce.read_bits s') 1 = 171 /\
    Debounce.stDebounceButton Gtk.K 610 s' d' (Some ev) (Some 0)
      = Some (mkRet kStateFinished (s'', d') (Some ev) (Some kReasonTimeout)) /\
    kReasonTimeout <> kReasonDebounced /\
    EvQ.evId ev <> evBntPressed Gtk.K.
Proof.
  cbv zeta. split; [repeat split|]. split; [reflexivity|].
  split; [vm_compute; reflexivity|].
  eexists _, _, _. split; [vm_compute; reflexivity|].
  split; [vm_compute; reflexivity|].
  split; [vm_compute; reflexivity|].
  split; discriminate.
Qed.

(** C1, amended.  For a button of a debounce state in its operate phase
    whose next 8 reads all return the bit [bit], and whose debounce timer
    has not expired at the clock readings [nows] of these 8 cycles, the shared
    debounce routine leaves the operate phase after at least 1 and at most
    8 operate cycles with the accumulator at 0xFF ([bit] = 1) or 0x00
    ([bit] = 0), and its exit phase reports reason Debounced with the event
    Pressed, respectively Released, and the button's index.  Counted from
    the seed 1 that the entry phase stores, these are exactly 7 cycles for a
    press and exactly 8 for a release.  The entry phase seeds the
    accumulator with 1 and arms the timer; each operate cycle shifts the
    accumulator left by one position within 8 bits and ORs in the bit
    read. *)
Theorem debounce_convergence_before_timeout
    (K : tBspConsts) (s : Debounce.statics) (d : DI.statics)
    (ev : tEvQ_Event) (extra : Z) (bit : bool) (nows : list Z) :
  in_bounds (EvQ.evData ev) = true -> Debounce.wf s ->
  rd (Debounce.statephase s) (EvQ.evData ev) = kStateOperational ->
  DI.peek 8 (EvQ.evData ev) d = Some (repeat bit 8) ->
  length nows = 8%nat ->
  Forall (fun now =>
            TM now (rd (Debounce.tmrMyStateTimer s) (EvQ.evData ev)) = false)
         nows ->
  (exists (n : nat) (s' : Debounce.statics) (d' : DI.statics),
     Debounce.cycles K nows s d ev extra = Some (n, s', d') /\
     (1 <= n <= 8)%nat /\
     rd (Debounce.read_bits s') (EvQ.evData ev) = (if bit then 255 else 0) /\
     (forall now' extra', exists s'',
        Debounce.stDebounceButton K now' s' d' (Some ev) (Some extra')
        = Some (mkRet kStateFinished (s'', d')
                  (Some (mkEv (if bit then evBntPressed K else evBtnReleased K)
                              (EvQ.evData ev)))
                  (Some kReasonDebounced))) /\
     (rd (Debounce.read_bits s) (EvQ.evData ev) = 1 ->
        n = if bit then 7%nat else 8%nat)) /\
  (forall now0 s0 d0 extra0,
     Debounce.wf s0 ->
     rd (Debounce.statephase s0) (EvQ.evData ev) <> kStateOperational ->
     rd (Debounce.statephase s0) (EvQ.evData ev) <> kStateExit ->
     exists s1,
       Debounce.stDebounceButton K now0 s0 d0 (Some ev) (Some extra0)
         = Some (mkRet kStateOperational (s1, d0) (Some ev) (Some extra0)) /\
       rd (Debounce.read_bits s1) (EvQ.evData ev) = 1 /\
       rd (Debounce.tmrMyStateTimer s1) (EvQ.evData ev)
         = now0 + kTmButtonDebounceTime K) /\
  (forall now1, exists rc s1 d1,
     Debounce.stDebounceButton K now1 s d (Some ev) (Some extra)
       = Some (mkRet rc (s1, d1) (Some ev) (Some extra)) /\
     rd (Debounce.read_bits s1) (EvQ.evData ev)
       = u8 (Z.lor (u8 (Z.shiftl (rd (Debounce.read_bits s) (EvQ.evData ev)) 1))
                   (Z.b2z bit))).
Proof.
  intros Hb Hwf Hph Hpk Hlen Htm.
  split; [|split].
  - destruct (settle_8 (rd (Debounce.read_bits s) (EvQ.evData ev)) bit)
      as (k & Hst & Hk).
    destruct (cycles_settle K ev extra bit Hb 8 nows s d k _ Hwf Hph Hpk
                ltac:(lia) Htm Hst)
      as (s' & d' & Hcyc & Hwf' & Hph' & Hacc & Hre & Hid).
    exists k, s', d'. split; [exact Hcyc|]. split; [exact Hk|].
    split; [exact Hacc|]. split.
    + intros now' extra'. eexists.
      rewrite (debounce_exit K now' s' d' ev extra' Hb Hwf' Hph'), Hid, Hre.
      now destruct bit.
    + intros Hseed. rewrite Hseed in Hst.
      destruct bit; vm_compute in Hst; congruence.
  - intros now0 s0 d0 extra0 Hwf0 Hop Hex.
    destruct (debounce_entry K now0 s0 d0 ev extra0 Hb Hwf0 Hop Hex)
      as (s1 & Hcall & _ & _ & Hseed & Harm & _).
    exists s1. auto.
  - intros now1.
    apply (peek_succ 7) in Hpk as (d1 & Hrd & _).
    destruct (debounce_operate K now1 s d ev extra bit d1 Hb Hwf Hph Hrd)
      as (s1 & Hcall & _ & Hacc & _).
    exists (rd (Debounce.statephase s1) (EvQ.evData ev)), s1, d1.
    split; [exact Hcall|exact Hacc].
Qed.

Lemma debounce_convergence_before_timeout_witness :
  exists (s' : Debounce.statics) (d' : DI.statics),
    Debounce.cycles Gtk.K [10; 20; 30; 40; 50; 60; 70; 80]
      (Debounce.mk [0; 1; 0; 0; 0; 0; 0; 0; 0] [0; 600; 0; 0; 0; 0; 0; 0; 0] 0
                   [0; 1; 0; 0; 0; 0; 0; 0; 0] Gtk.zeros
                   [0; 1; 0; 0; 0; 0; 0; 0; 0])
      (DI.mk [0; 255; 0; 0; 0; 0; 0; 0; 0] 0) (mkEv 1 1) 0
    = Some (7%nat, s', d') /\
    rd (Debounce.read_bits s') 1 = 255.
Proof.
  destruct (debounce_convergence_before_timeout Gtk.K
              (Debounce.mk [0; 1; 0; 0; 0; 0; 0; 0; 0]
                           [0; 600; 0; 0; 0; 0; 0; 0; 0] 0
                           [0; 1; 0; 0; 0; 0; 0; 0; 0] Gtk.zeros
                           [0; 1; 0; 0; 0; 0; 0; 0; 0])
              (DI.mk [0; 255; 0; 0; 0; 0; 0; 0; 0] 0) (mkEv 1 1) 0 true
              [10; 20; 30; 40; 50; 60; 70; 80])
    as ((n & s' & d' & Hcyc & _ & Hacc & _ & Hn) & _).
  - reflexivity.
  - repeat split.
  - reflexivity.
  - vm_compute. reflexivity.
  - reflexivity.
  - repeat constructor.
  - exists s', d'. rewrite <- (Hn eq_refl). split; [exact Hcyc|exact Hacc].
Defined.

(** ** Independence of the buttons *)

(** The operate phase of stButtonStuck, for any button: the bit comes from
    button 0's stream, which is consumed. *)
Lemma stuck_operate_reads_button_0 (s : Stuck.statics) (d : DI.statics)
    (ev : tEvQ_Event) (extra : Z) :
  in_bounds (EvQ.evData ev) = true -> Stuck.wf s -> DI.wf d ->
  rd (Stuck.statephase s) (EvQ.evData ev) = kStateOperational ->
  exists rc s' d',
    Stuck.stButtonStuck s d (Some ev) (Some extra)
      = Some (mkRet rc (s', d') (Some ev) (Some extra)) /\
    rd (DI.buttoninputbits d') 0 = rd (DI.buttoninputbits d) 0 / 2 /\
    (Z.testbit (rd (DI.buttoninputbits d) 0) 0 = true -> rc = kStateOperational).
Proof.
  intros Hb (W1 & W2) Hd Hph. unfold Stuck.stButtonStuck.
  rewrite Hb. cbn [negb]. rewrite Hph.
  cbn [Z.eqb kStateOperational Pos.eqb Stuck.statephase Stuck.evId].
  rewrite (di_read_eq 0 d eq_refl Hd).
  eexists _, _, _. split; [reflexivity|].
  cbn [DI.buttoninputbits]. split; [now apply rd_wr_eq|].
  intros ->. cbn [Stuck.statephase]. now rewrite !rd_wr_eq by auto with bsp.
Qed.

(** C3, evaluated where it fails.  The operate phase of stButtonStuck reads
    the input of button 0 whatever the button it runs for.  Button 2 is in
    the stuck state's operate phase; its own stream is exhausted and its
    status bit is clear, so its own input bit is 0, while button 0's stream
    holds 3.  The call consumes a bit of button 0's stream (3 becomes 1),
    leaves button 2's stream alone, and keeps button 2 in the operate phase
    because the bit read is 1.  With button 0's stream at 0 instead, the
    same call moves button 2 to the exit phase: button 2's outcome depends
    on button 0's pending input. *)
Theorem stuck_state_reads_and_consumes_button_0 :
  let ev := mkEv (evButton_Task Gtk.K) 2 in
  let s := Stuck.mk [0; 0; 1; 0; 0; 0; 0; 0; 0] Gtk.zeros in
  DI.peek 1 2 (DI.mk [3; 0; 0; 0; 0; 0; 0; 0; 0] 0) = Some [false] /\
  Stuck.stButtonStuck s (DI.mk [3; 0; 0; 0; 0; 0; 0; 0; 0] 0) (Some ev) (Some 0)
    = Some (mkRet kStateOperational
              (s, DI.mk [1; 0; 0; 0; 0; 0; 0; 0; 0] 0) (Some ev) (Some 0)) /\
  Stuck.stButtonStuck s (DI.mk [0; 0; 0; 0; 0; 0; 0; 0; 0] 0) (Some ev) (Some 0)
    = Some (mkRet kStateExit
              (Stuck.mk [0; 0; 2; 0; 0; 0; 0; 0; 0] Gtk.zeros,
               DI.mk [0; 0; 0; 0; 0; 0; 0; 0; 0] 0) (Some ev) (Some 0)).
Proof. cbv zeta. repeat split; vm_compute; reflexivity. Qed.

(** The other state functions, and the other phases of the stuck state,
    stay with their own button: a call of the shared debounce routine for
    button [b] leaves every other button's cells and stream as they were. *)
Lemma debounce_other_buttons_untouched (K : tBspConsts) (now : Z)
    (s : Debounce.statics) (d : DI.statics) (ev : tEvQ_Event) (extra : Z)
    (r : tRet (Debounce.statics * DI.statics)) (j : Z) :
  Debounce.stDebounceButton K now s d (Some ev) (Some extra) = Some r ->
  in_bounds j = true -> j <> EvQ.evData ev ->
  Debounce.same_button j s (fst (vars r)) /\ DI.same_stream j d (snd (vars r)).
Proof.
  unfold Debounce.stDebounceButton.
  destruct (in_bounds (EvQ.evData ev)) eqn:Hb; cbn [negb]; [|discriminate].
  intros Hcall Hj Hne.
  destruct (rd (Debounce.statephase s) (EvQ.evData ev) =? kStateOperational).
  - unfold DI.di_read_next_button_input_bit in Hcall. rewrite Hb in Hcall.
    cbn [negb] in Hcall. revert Hcall. debounce_fields.
    repeat match goal with |- context [if ?c then _ else _] => destruct c end;
      intros [= <-]; cbn [vars fst snd]; (split; [same_cells Hb Hj Hne|]);
      unfold DI.same_stream; cbn [DI.buttoninputbits];
      apply in_bounds_range in Hb, Hj; apply rd_wr_ne; lia.
  - revert Hcall.
    destruct (rd (Debounce.statephase s) (EvQ.evData ev) =? kStateExit);
      intros [= <-]; cbn [vars fst snd]; (split; [same_cells Hb Hj Hne|]);
      reflexivity.
Qed.

Ltac other_cells Hb Hj Hne :=
  apply in_bounds_range in Hb; apply in_bounds_range in Hj;
  unfold Start.same_button, Released.same_button, Pressed.same_button,
    Stuck.same_button, DI.same_stream;
  cbn [vars fst snd DI.buttoninputbits
       Start.statephase Start.evId Released.statephase Stuck.statephase
       Stuck.evId Pressed.set_statephase Pressed.set_tmrPressedStateTimer
       Pressed.set_tmrPressed Pressed.set_evId Pressed.set_reason2
       Pressed.set_reason3 Pressed.statephase Pressed.tmrPressedStateTimer
       Pressed.tmrPressed Pressed.evId Pressed.reason2 Pressed.reason3];
  repeat split; rewrite ?rd_wr_ne by lia; reflexivity.

Ltac split_call Hcall :=
  revert Hcall;
  repeat match goal with
         | |- context [if ?c then _ else _] => destruct c
         end;
  intros [= <-].

Lemma start_other_buttons_untouched (s : Start.statics) (ev : tEvQ_Event)
    (extra : Z) (r : tRet Start.statics) (j : Z) :
  Start.stStart s (Some ev) (Some extra) = Some r ->
  in_bounds j = true -> j <> EvQ.evData ev ->
  Start.same_button j s (vars r).
Proof.
  unfold Start.stStart.
  destruct (in_bounds (EvQ.evData ev)) eqn:Hb; cbn [negb]; [|discriminate].
  intros Hcall Hj Hne. split_call Hcall; other_cells Hb Hj Hne.
Qed.

Lemma released_other_buttons_untouched (s : Released.statics) (d : DI.statics)
    (ev : tEvQ_Event) (extra : Z) (r : tRet (Released.statics * DI.statics))
    (j : Z) :
  Released.stButtonReleased s d (Some ev) (Some extra) = Some r ->
  in_bounds j = true -> j <> EvQ.evData ev ->
  Released.same_button j s (fst (vars r)) /\ DI.same_stream j d (snd (vars r)).
Proof.
  unfold Released.stButtonReleased, DI.di_read_next_button_input_bit.
  destruct (in_bounds (EvQ.evData ev)) eqn:Hb; cbn [negb]; [|discriminate].
  intros Hcall Hj Hne. split_call Hcall; other_cells Hb Hj Hne.
Qed.

Lemma pressed_other_buttons_untouched (K : tBspConsts) (now : Z)
    (s : Pressed.statics) (d : DI.statics) (ev : tEvQ_Event) (extra : Z)
    (r : tRet (Pressed.statics * DI.statics)) (j : Z) :
  Pressed.stButtonPressed K now s d (Some ev) (Some extra) = Some r ->
  in_bounds j = true -> j <> EvQ.evData ev ->
  Pressed.same_button j s (fst (vars r)) /\ DI.same_stream j d (snd (vars r)).
Proof.
  unfold Pressed.stButtonPressed, DI.di_read_next_button_input_bit.
  destruct (in_bounds (EvQ.evData ev)) eqn:Hb; cbn [negb]; [|discriminate].
  intros Hcall Hj Hne. split_call Hcall; other_cells Hb Hj Hne.
Qed.

(** stButtonStuck keeps to its button's cells of its own arrays, and leaves
    alone the streams of the buttons other than button 0. *)
Lemma stuck_other_buttons_untouched (s : Stuck.statics) (d : DI.statics)
    (ev : tEvQ_Event) (extra : Z) (r : tRet (Stuck.statics * DI.statics))
    (j : Z) :
  Stuck.stButtonStuck s d (Some ev) (Some extra) = Some r ->
  in_bounds j = true -> j <> EvQ.evData ev ->
  Stuck.same_button j s (fst (vars r)) /\
  (j <> 0 -> DI.same_stream j d (snd (vars r))).
Proof.
  unfold Stuck.stButtonStuck, DI.di_read_next_button_input_bit.
  destruct (in_bounds (EvQ.evData ev)) eqn:Hb; cbn [negb]; [|discriminate].
  change (in_bounds 0) with true. cbn [negb].
  intros Hcall Hj Hne. split_call Hcall; (split; [other_cells Hb Hj Hne|]);
    intros Hj0; other_cells Hb Hj Hne.
Qed.

(** ** The exit-reason triple *)

Ltac pressed_fields :=
  cbn [negb Pressed.set_statephase Pressed.set_tmrPressedStateTimer
       Pressed.set_tmrPressed Pressed.set_evId Pressed.set_reason2
       Pressed.set_reason3 Pressed.statephase Pressed.tmrPressedStateTimer
       Pressed.tmrPressed Pressed.evId Pressed.reason2 Pressed.reason3].

(** The exit phase of stButtonPressed writes the saved event id, the saved
    "reason 2" and the saved "reason 3". *)
Lemma pressed_exit (K : tBspConsts) (now : Z) (s : Pressed.statics)
    (d : DI.statics) (ev : tEvQ_Event) (extra : Z) :
  in_bounds (EvQ.evData ev) = true -> Pressed.wf s ->
  rd (Pressed.statephase s) (EvQ.evData ev) = kStateExit ->
  Pressed.stButtonPressed K now s d (Some ev) (Some extra)
    = Some (mkRet kStateFinished
              (Pressed.set_statephase s
                 (wr (Pressed.statephase s) (EvQ.evData ev) kStateFinished), d)
              (Some (mkEv (rd (Pressed.evId s) (EvQ.evData ev))
                          (rd (Pressed.reason2 s) (EvQ.evData ev))))
              (Some (rd (Pressed.reason3 s) (EvQ.evData ev)))).
Proof.
  intros Hb (W1 & W2 & W3 & W4 & W5) Hph.
  unfold Pressed.stButtonPressed. rewrite Hb. cbn [negb].
  rewrite Hph. cbn [Z.eqb kStateOperational kStateExit Pos.eqb].
  pressed_fields. rewrite rd_wr_eq by auto with bsp. reflexivity.
Qed.

(** The operate phase of stButtonPressed on the stuck-timeout path: the
    input bit is 1 and the stuck timer has expired. *)
Lemma pressed_operate_timeout (K : tBspConsts) (now : Z) (s : Pressed.statics)
    (d : DI.statics) (ev : tEvQ_Event) (extra : Z) (d' : DI.statics) :
  in_bounds (EvQ.evData ev) = true -> Pressed.wf s ->
  rd (Pressed.statephase s) (EvQ.evData ev) = kStateOperational ->
  DI.di_read_next_button_input_bit (EvQ.evData ev) d = Some (true, d') ->
  TM now (rd (Pressed.tmrPressedStateTimer s) (EvQ.evData ev)) = true ->
  exists s',
    Pressed.stButtonPressed K now s d (Some ev) (Some extra)
      = Some (mkRet kStateExit (s', d') (Some ev) (Some extra)) /\
    Pressed.wf s' /\
    rd (Pressed.statephase s') (EvQ.evData ev) = kStateExit /\
    rd (Pressed.evId s') (EvQ.evData ev) = rd (Pressed.evId s) (EvQ.evData ev) /\
    rd (Pressed.reason2 s') (EvQ.evData ev) = 0 /\
    rd (Pressed.reason3 s') (EvQ.evData ev) = kReasonTimeout.
Proof.
  intros Hb (W1 & W2 & W3 & W4 & W5) Hph Hrd Htm.
  unfold Pressed.stButtonPressed. rewrite Hb. cbn [negb].
  rewrite Hph. cbn [Z.eqb kStateOperational Pos.eqb]. rewrite Hrd.
  pressed_fields. rewrite Htm. pressed_fields.
  eexists. split.
  { rewrite rd_wr_eq by auto with bsp. reflexivity. }
  unfold Pressed.wf. pressed_fields. rewrite !rd_wr_eq by auto with bsp.
  repeat split; auto with bsp.
Qed.

(** Together, for any button: the stuck-timeout exit of stButtonPressed
    writes the event data 0. *)
Lemma pressed_timeout_exit (K : tBspConsts) (now now' : Z) (s : Pressed.statics)
    (d : DI.statics) (ev : tEvQ_Event) (extra extra' : Z) (d' : DI.statics) :
  in_bounds (EvQ.evData ev) = true -> Pressed.wf s ->
  rd (Pressed.statephase s) (EvQ.evData ev) = kStateOperational ->
  DI.di_read_next_button_input_bit (EvQ.evData ev) d = Some (true, d') ->
  TM now (rd (Pressed.tmrPressedStateTimer s) (EvQ.evData ev)) = true ->
  exists s' s'',
    Pressed.stButtonPressed K now s d (Some ev) (Some extra)
      = Some (mkRet kStateExit (s', d') (Some ev) (Some extra)) /\
    Pressed.stButtonPressed K now' s' d' (Some ev) (Some extra')
      = Some (mkRet kStateFinished (s'', d')
                (Some (mkEv (rd (Pressed.evId s) (EvQ.evData ev)) 0))
                (Some kReasonTimeout)).
Proof.
  intros Hb Hwf Hph Hrd Htm.
  destruct (pressed_operate_timeout K now s d ev extra d' Hb Hwf Hph Hrd Htm)
    as (s' & Hcall & Hwf' & Hph' & Hid & Hr2 & Hr3).
  exists s'. eexists. split; [exact Hcall|].
  rewrite (pressed_exit K now' s' d' ev extra' Hb Hwf' Hph'), Hid, Hr2, Hr3.
  reflexivity.
Qed.

(** C4, evaluated where it fails.  Button 3 is in the pressed state's
    operate phase, its input bit is 1 and its stuck timer has expired: the
    operate cycle stores 0 as "reason 2" and Timeout as "reason 3", and the
    exit phase writes the event data 0, not the button index 3.  Run by the
    engine of the model, the stuck notification is posted for button 0. *)
Theorem pressed_timeout_exit_reports_button_0 :
  let ev := mkEv (evButton_Task Gtk.K) 3 in
  let s := Pressed.mk [0; 0; 0; 1; 0; 0; 0; 0; 0] [0; 0; 0; 30000; 0; 0; 0; 0; 0] 0
                      [0; 0; 0; 1; 0; 0; 0; 0; 0] Gtk.zeros Gtk.zeros in
  let d := DI.mk [0; 0; 0; 1; 0; 0; 0; 0; 0] 8 in
  let w := Sme.mkWorld Gtk.start0 Gtk.released0 Gtk.debounce0 s Gtk.stuck0 d
                       (Gtk.mkQ [] 8) in
  exists s1 d1 s2 w1 w2,
    Pressed.stButtonPressed Gtk.K 30000 s d (Some ev) (Some 0)
      = Some (mkRet kStateExit (s1, d1) (Some ev) (Some 0)) /\
    rd (Pressed.reason3 s1) 3 = kReasonTimeout /\
    Pressed.stButtonPressed Gtk.K 30010 s1 d1 (Some ev) (Some 0)
      = Some (mkRet kStateFinished (s2, d1)
                (Some (mkEv (evButton_Task Gtk.K) 0)) (Some kReasonTimeout)) /\
    Sme.Cwsw_Sme__SME Gtk.K Gtk.PostEvent 30000 (tblTransitions Gtk.K)
      (Some pf_stButtonPressed) ev 0 w = Some (w1, Some pf_stButtonPressed) /\
    Sme.Cwsw_Sme__SME Gtk.K Gtk.PostEvent 30010 (tblTransitions Gtk.K)
      (Some pf_stButtonPressed) ev 0 w1 = Some (w2, Some pf_stButtonStuck) /\
    Gtk.q_events (Sme.pBtnEvqx w2) = [mkEv (evButton_BtnStuck Gtk.K) 0].
Proof.
  cbv zeta. eexists _, _, _, _, _.
  split; [vm_compute; reflexivity|].
  split; [vm_compute; reflexivity|].
  split; [vm_compute; reflexivity|].
  split; [vm_compute; reflexivity|].
  split; vm_compute; reflexivity.
Qed.

(** ** Unexpected phase values *)

(** The entry branch of stButtonStuck, for any button and any stored phase
    other than Operational and Exit: the marker is left incremented, which
    is the operate phase only when it was [kStateUninit]. *)
Lemma stuck_entry_increments_phase (s : Stuck.statics) (d : DI.statics)
    (ev : tEvQ_Event) (extra : Z) :
  in_bounds (EvQ.evData ev) = true -> Stuck.wf s ->
  rd (Stuck.statephase s) (EvQ.evData ev) <> kStateOperational ->
  rd (Stuck.statephase s) (EvQ.evData ev) <> kStateExit ->
  exists s',
    Stuck.stButtonStuck s d (Some ev) (Some extra)
      = Some (mkRet (incr (rd (Stuck.statephase s) (EvQ.evData ev))) (s', d)
                    (Some ev) (Some extra)) /\
    rd (Stuck.statephase s') (EvQ.evData ev)
      = incr (rd (Stuck.statephase s) (EvQ.evData ev)) /\
    (kStateExit < rd (Stuck.statephase s) (EvQ.evData ev) < 2 ^ 32 - 1 ->
     rd (Stuck.statephase s') (EvQ.evData ev) <> kStateOperational /\
     rd (Stuck.statephase s') (EvQ.evData ev) <> kStateExit).
Proof.
  intros Hb (W1 & W2) Hop Hex. unfold Stuck.stButtonStuck.
  rewrite Hb. cbn [negb]. apply Z.eqb_neq in Hop, Hex. rewrite Hop, Hex.
  cbn [Stuck.statephase Stuck.evId].
  eexists. rewrite !rd_wr_eq by auto with bsp.
  split; [reflexivity|]. cbn [Stuck.statephase].
  rewrite rd_wr_eq by auto with bsp. split; [reflexivity|].
  intros Hr. unfold incr, kStateExit, kStateOperational in *.
  rewrite Z.mod_small by lia. lia.
Qed.

(** The entry branch of a sibling, stButtonReleased, restores the operate
    phase from any such value. *)
Lemma released_entry_restores_phase (s : Released.statics) (d : DI.statics)
    (ev : tEvQ_Event) (extra : Z) :
  in_bounds (EvQ.evData ev) = true -> Released.wf s ->
  rd (Released.statephase s) (EvQ.evData ev) <> kStateOperational ->
  rd (Released.statephase s) (EvQ.evData ev) <> kStateExit ->
  exists s',
    Released.stButtonReleased s d (Some ev) (Some extra)
      = Some (mkRet kStateOperational (s', d) (Some ev) (Some extra)) /\
    rd (Released.statephase s') (EvQ.evData ev) = kStateOperational.
Proof.
  intros Hb W1 Hop Hex. unfold Released.stButtonReleased.
  rewrite Hb. cbn [negb]. apply Z.eqb_neq in Hop, Hex. rewrite Hop, Hex.
  cbn [Released.statephase]. unfold Released.wf in W1.
  eexists. rewrite !rd_wr_eq by auto with bsp.
  split; [reflexivity|]. cbn [Released.statephase].
  now rewrite rd_wr_eq by auto with bsp.
Qed.

(** C6, evaluated where it fails.  The entry branch of stButtonStuck saves
    the event id but does not store the operate phase.  With the phase
    marker of button 1 at the unexpected value 7, the call runs the entry
    branch and leaves the marker at 8; the next call runs the entry branch
    again (marker 9, no input bit read although button 0's stream is
    pending), and so does every call after the regular end of the state
    (marker 3, then 4).  stButtonReleased, called with the same marker 7,
    restores the operate phase. *)
Theorem stuck_entry_does_not_restore_phase :
  let ev := mkEv (evButton_Task Gtk.K) 1 in
  let d := DI.mk [2; 2; 0; 0; 0; 0; 0; 0; 0] 0 in
  Stuck.stButtonStuck (Stuck.mk [0; 7; 0; 0; 0; 0; 0; 0; 0] Gtk.zeros) d
      (Some ev) (Some 0)
    = Some (mkRet 8 (Stuck.mk [0; 8; 0; 0; 0; 0; 0; 0; 0]
                              [0; 1; 0; 0; 0; 0; 0; 0; 0], d) (Some ev) (Some 0)) /\
  Stuck.stButtonStuck (Stuck.mk [0; 8; 0; 0; 0; 0; 0; 0; 0]
                                [0; 1; 0; 0; 0; 0; 0; 0; 0]) d (Some ev) (Some 0)
    = Some (mkRet 9 (Stuck.mk [0; 9; 0; 0; 0; 0; 0; 0; 0]
                              [0; 1; 0; 0; 0; 0; 0; 0; 0], d) (Some ev) (Some 0)) /\
  Stuck.stButtonStuck (Stuck.mk [0; kStateFinished; 0; 0; 0; 0; 0; 0; 0] Gtk.zeros)
      d (Some ev) (Some 0)
    = Some (mkRet 4 (Stuck.mk [0; 4; 0; 0; 0; 0; 0; 0; 0]
                              [0; 1; 0; 0; 0; 0; 0; 0; 0], d) (Some ev) (Some 0)) /\
  Released.stButtonReleased (Released.mk [0; 7; 0; 0; 0; 0; 0; 0; 0]) d
      (Some ev) (Some 0)
    = Some (mkRet kStateOperational
              (Released.mk [0; kStateOperational; 0; 0; 0; 0; 0; 0; 0], d)
              (Some ev) (Some 0)).
Proof. cbv zeta. repeat split; vm_compute; reflexivity. Qed.

(** ** The button task *)

Lemma di_read_some (idx : Z) (d : DI.statics) :
  in_bounds idx = true ->
  exists bit d', DI.di_read_next_button_input_bit idx d = Some (bit, d').
Proof.
  intros Hb. unfold DI.di_read_next_button_input_bit. rewrite Hb. cbn [negb].
  eexists _, _. reflexivity.
Qed.

(** A state function called for a button inside the arrays returns. *)
Lemma call_state_some (Q : Type) (K : tBspConsts) (now : Z)
    (current : pfStateHandler) (w : Sme.tWorld Q) (ev : tEvQ_Event) (extra : Z) :
  in_bounds (EvQ.evData ev) = true ->
  exists r, Sme.call_state K now current w (Some ev) (Some extra) = Some r.
Proof.
  intros Hb.
  destruct (di_read_some (EvQ.evData ev) (Sme.wDI w) Hb) as (bit & d' & Hrd).
  destruct (di_read_some 0 (Sme.wDI w) eq_refl) as (bit0 & d0 & Hrd0).
  destruct current; unfold Sme.call_state, Sme.lift, Start.stStart,
    Released.stButtonReleased, Debounce.stDebouncePress,
    Debounce.stDebounceRelease, Debounce.stDebounceButton,
    Pressed.stButtonPressed, Stuck.stButtonStuck;
    rewrite Hb; cbn [negb]; rewrite ?Hrd, ?Hrd0;
    repeat match goal with
           | |- context [if ?c then Some _ else _] => destruct c
           | |- context [match (if ?c then _ else _) with _ => _ end] => destruct c
           end;
    eexists; reflexivity.
Qed.

Lemma engine_some (Q : Type) (K : tBspConsts)
    (post : Q -> tEvQ_Event -> Q * bool) (now : Z)
    (tbl : list tTransitionTable) (currentstate : option pfStateHandler)
    (ev : tEvQ_Event) (extra : Z) (w : Sme.tWorld Q) :
  in_bounds (EvQ.evData ev) = true ->
  Sme.Cwsw_Sme__SME K post now tbl currentstate ev extra w <> None.
Proof.
  intros Hb. unfold Sme.Cwsw_Sme__SME.
  destruct currentstate as [current|]; [|discriminate].
  destruct (call_state_some Q K now current w ev extra Hb) as (r & ->).
  destruct (ret r =? kStateFinished); [|discriminate].
  destruct (pev_out r), (pextra_out r); try discriminate.
  destruct (Sme.Cwsw_Sme_FindNextState _ _ _ _); discriminate.
Qed.

Section TaskLoop.

Variable W : Type.
Variable sme :
  list tTransitionTable -> option pfStateHandler -> tEvQ_Event -> Z -> W ->
  option (W * option pfStateHandler).
Variable K : tBspConsts.
Variable ev : tEvQ_Event.
Variable extra : Z.

(** The engine returns whenever the task calls it. *)
Hypothesis sme_returns :
  forall idx current extra' w,
    in_bounds idx = true ->
    sme (tblTransitions K) current (mkEv (EvQ.evId ev) idx) extra' w <> None.

(** One button: the returned pointer is stored in the button's cell, the
    other cells keep their values, and the alarm is Task.disabled exactly when
    the returned pointer is null. *)
Lemma button_pass_spec (idx : Z) (t : Task.statics) (w : W) :
  in_bounds idx = true -> Task.wf t ->
  exists t' w',
    Task.button_pass W sme K ev extra idx t w = Some (t', w') /\
    Task.wf t' /\
    (forall j, 0 <= j -> j <> idx ->
       rd (Task.currentstate t') j = rd (Task.currentstate t) j) /\
    (Task.disabled t' <-> Task.disabled t \/ rd (Task.currentstate t') idx = None).
Proof.
  intros Hb Hwf. unfold Task.button_pass.
  set (cs := match rd (Task.currentstate t) idx with
             | Some _ => Task.currentstate t
             | None => wr (Task.currentstate t) idx (Some pf_stStart)
             end).
  assert (Hcs : sized cs).
  { subst cs. destruct (rd (Task.currentstate t) idx); auto with bsp. }
  assert (Hfr : forall j, 0 <= j -> j <> idx -> rd cs j = rd (Task.currentstate t) j).
  { intros j Hj Hne. subst cs. destruct (rd (Task.currentstate t) idx);
      [reflexivity|]. apply in_bounds_range in Hb. apply rd_wr_ne; lia. }
  destruct (sme (tblTransitions K) (rd cs idx) (mkEv (EvQ.evId ev) idx) extra w)
    as [[w' next]|] eqn:Hs;
    [|exfalso; exact (sme_returns idx _ extra w Hb Hs)].
  eexists _, _. split; [reflexivity|].
  unfold Task.wf, Task.disabled. cbn [Task.currentstate Task.Btn_tmr_ButtonRead].
  split; [auto with bsp|]. split.
  { intros j Hj Hne. apply in_bounds_range in Hb.
    rewrite rd_wr_ne by lia. now apply Hfr. }
  rewrite rd_wr_eq by assumption.
  destruct next; cbn [Task.disable Task.tmrstate]; split; auto.
  intros [H | H]; [exact H|discriminate].
Qed.

(** The loop entered with [idxbutton = n]. *)
Lemma button_loop_spec (n : nat) :
  (Z.of_nat n <= kBoardNumButtons) ->
  forall (t : Task.statics) (w : W),
    Task.wf t ->
    exists t' w',
      Task.button_loop W sme K ev extra n t w = Some (t', w') /\
      Task.wf t' /\
      (forall j, Z.of_nat n <= j ->
         rd (Task.currentstate t') j = rd (Task.currentstate t) j) /\
      (Task.disabled t' <->
       Task.disabled t \/
       exists idx, 0 <= idx < Z.of_nat n /\ rd (Task.currentstate t') idx = None).
Proof.
  induction n as [|n IH]; intros Hn t w Hwf.
  - exists t, w. split; [reflexivity|]. split; [assumption|].
    split; [reflexivity|]. split; [auto|].
    intros [H | (idx & Hidx & _)]; [exact H|lia].
  - cbn [Task.button_loop].
    assert (Hb : in_bounds (Z.of_nat n) = true) by (apply in_bounds_range; lia).
    destruct (button_pass_spec (Z.of_nat n) t w Hb Hwf)
      as (t1 & w1 & -> & Hwf1 & Hfr1 & Hdis1).
    destruct (IH ltac:(lia) t1 w1 Hwf1) as (t' & w' & -> & Hwf' & Hfr' & Hdis').
    exists t', w'. split; [reflexivity|]. split; [assumption|]. split.
    { intros j Hj. rewrite Hfr' by lia. apply Hfr1; lia. }
    rewrite Hdis', Hdis1. rewrite <- (Hfr' (Z.of_nat n)) by lia.
    split.
    + intros [[H | H] | (idx & Hidx & H)]; [now left| |].
      * right. exists (Z.of_nat n). split; [lia|exact H].
      * right. exists idx. split; [lia|exact H].
    + intros [H | (idx & Hidx & H)]; [now left; left|].
      destruct (Z.eq_dec idx (Z.of_nat n)) as [-> | Hne].
      * left. now right.
      * right. exists idx. split; [lia|exact H].
Qed.

(** The whole pass of the task. *)
Lemma Btn_tsk_ButtonRead_spec (t : Task.statics) (w : W) :
  Task.wf t ->
  exists t' w',
    Task.Btn_tsk_ButtonRead W sme K ev extra t w = Some (t', w') /\
    Task.wf t' /\
    (Task.disabled t' <->
     Task.disabled t \/
     exists idx, in_bounds idx = true /\ rd (Task.currentstate t') idx = None).
Proof.
  intros Hwf. unfold Task.Btn_tsk_ButtonRead.
  destruct (button_loop_spec (Z.to_nat kBoardNumButtons) ltac:(vm_compute; discriminate) t w Hwf)
    as (t' & w' & Hrun & Hwf' & _ & Hdis).
  exists t', w'. split; [exact Hrun|]. split; [exact Hwf'|].
  rewrite Hdis. split; (intros [H | (idx & Hidx & H)]; [now left|]);
    right; exists idx; (split; [|exact H]).
  - apply in_bounds_range.
    change (Z.of_nat (Z.to_nat kBoardNumButtons)) with kBoardNumButtons in Hidx.
    exact Hidx.
  - apply in_bounds_range in Hidx.
    change (Z.of_nat (Z.to_nat kBoardNumButtons)) with kBoardNumButtons.
    exact Hidx.
Qed.

End TaskLoop.

(** C5 as stated fails.  From program start, button 1 is pressed (debounced
    after eight 1-bits) and its release is noisy for the whole debounce
    time, while the other eight buttons stay released.  After 79 ticks the
    alarm is still enabled; in the 80th pass the timeout exit of the debounce
    state finds no row, the engine of the model returns the null state for
    button 1, and the task disables the alarm although the state pointers of
    all other buttons are non-null.  One pass later button 1 is back in
    stStart, no pointer is null, and the alarm is still disabled. *)
Lemma button_task_disables_alarm_for_one_button :
  exists t79 w79 t80 w80 t81 w81,
    Gtk.ticks 79 0 (Gtk.task0, Gtk.world0 Gtk.inputs_noisy_release)
      = Some (t79, w79) /\
    ~ Task.disabled t79 /\
    Gtk.tick 790 (t79, w79) = Some (t80, w80) /\
    Task.disabled t80 /\
    Task.currentstate t80
      = [Some pf_stButtonReleased; None; Some pf_stButtonReleased;
         Some pf_stButtonReleased; Some pf_stButtonReleased;
         Some pf_stButtonReleased; Some pf_stButtonReleased;
         Some pf_stButtonReleased; Some pf_stButtonReleased] /\
    ~ (forall idx, in_bounds idx = true -> rd (Task.currentstate t80) idx = None) /\
    Gtk.tick 800 (t80, w80) = Some (t81, w81) /\
    Task.disabled t81 /\
    (forall idx, in_bounds idx = true -> rd (Task.currentstate t81) idx <> None).
Proof.
  eexists _, _, _, _, _, _.
  split; [vm_compute; reflexivity|].
  split; [vm_compute; discriminate|].
  split; [vm_compute; reflexivity|].
  split; [vm_compute; reflexivity|].
  split; [vm_compute; reflexivity|].
  split; [intros H; specialize (H 0 eq_refl); vm_compute in H; discriminate|].
  split; [vm_compute; reflexivity|].
  split; [vm_compute; reflexivity|].
  intros idx Hidx. apply in_bounds_range in Hidx. unfold kBoardNumButtons in Hidx.
  assert (Hc : idx = 0 \/ idx = 1 \/ idx = 2 \/ idx = 3 \/ idx = 4 \/ idx = 5 \/
               idx = 6 \/ idx = 7 \/ idx = 8) by lia.
  repeat (destruct Hc as [-> | Hc]; [vm_compute; discriminate|]).
  subst idx. vm_compute. discriminate.
Qed.

(** C5, amended.  Whatever the engine does, provided it returns: after one
    pass of the button task over all buttons, the re-trigger alarm is
    disabled if and only if it was disabled before the pass or the
    next-state pointer persisted for at least one button is null.  In
    particular the alarm is disabled when every button's pointer is null,
    and the task never enables it. *)
Theorem button_task_disables_alarm_on_any_null
    (W : Type)
    (sme : list tTransitionTable -> option pfStateHandler -> tEvQ_Event -> Z ->
           W -> option (W * option pfStateHandler))
    (K : tBspConsts) (ev : tEvQ_Event) (extra : Z)
    (t : Task.statics) (w : W) :
  (forall idx current extra' w',
     in_bounds idx = true ->
     sme (tblTransitions K) current (mkEv (EvQ.evId ev) idx) extra' w' <> None) ->
  Task.wf t ->
  exists t' w',
    Task.Btn_tsk_ButtonRead W sme K ev extra t w = Some (t', w') /\
    (Task.disabled t' <->
     Task.disabled t \/
     exists idx, in_bounds idx = true /\ rd (Task.currentstate t') idx = None) /\
    ((forall idx, in_bounds idx = true -> rd (Task.currentstate t') idx = None) ->
     Task.disabled t') /\
    (Task.disabled t -> Task.disabled t').
Proof.
  intros Hsme Hwf.
  destruct (Btn_tsk_ButtonRead_spec W sme K ev extra Hsme t w Hwf)
    as (t' & w' & Hrun & _ & Hdis).
  exists t', w'. split; [exact Hrun|]. split; [exact Hdis|]. split.
  - intros Hall. apply Hdis. right. exists 0. split; [reflexivity|].
    now apply Hall.
  - intros H. apply Hdis. now left.
Qed.

Lemma button_task_disables_alarm_on_any_null_witness :
  exists t' w',
    Gtk.tick 0 (Gtk.task0, Gtk.world0 Gtk.inputs_noisy_release) = Some (t', w') /\
    (Task.disabled t' <->
     Task.disabled Gtk.task0 \/
     exists idx, in_bounds idx = true /\ rd (Task.currentstate t') idx = None).
Proof.
  destruct (button_task_disables_alarm_on_any_null (Sme.tWorld Gtk.tEvQ)
              (Sme.Cwsw_Sme__SME Gtk.K Gtk.PostEvent 0) Gtk.K
              (mkEv (evButton_Task Gtk.K) 0) 0 Gtk.task0
              (Gtk.world0 Gtk.inputs_noisy_release))
    as (t' & w' & Hrun & Hdis & _).
  - intros idx current extra' w' Hb. now apply engine_some.
  - reflexivity.
  - exists t', w'. split; [exact Hrun|exact Hdis].
Defined.

(* ================================================================== *)
(** * Further properties *)
(* ================================================================== *)

(** ** Reading a stream out *)

(** What the read number [i] (counted from 0) of a stream [x] returns when
    the status bit is [status]. *)
Lemma stream_bit_step (x : Z) (status : bool) :
  0 <= x ->
  (if Z.testbit x 0 then true else if x / 2 =? 0 then status else false)
  = (if Z.shiftr x 0 =? 0 then status else Z.testbit x 0).
Proof.
  intros Hx. rewrite Z.shiftr_0_r, Z.bit0_odd.
  destruct (Z.eqb_spec x 0) as [-> | Hne]; [reflexivity|].
  destruct (Z.odd x) eqn:Hodd; [reflexivity|].
  destruct (Z.eqb_spec (x / 2) 0) as [Hz | Hz]; [|reflexivity].
  exfalso. pose proof (Zmod_odd x) as Hm. rewrite Hodd in Hm.
  pose proof (Z.div_mod x 2 ltac:(lia)). lia.
Qed.

Lemma peek_bits (idx : Z) (n : nat) :
  in_bounds idx = true ->
  forall d : DI.statics,
    DI.wf d -> 0 <= rd (DI.buttoninputbits d) idx ->
    DI.peek n idx d
    = Some (map (fun i : nat =>
                   if Z.shiftr (rd (DI.buttoninputbits d) idx) (Z.of_nat i) =? 0
                   then Z.testbit (DI.buttonstatus d) idx
                   else Z.testbit (rd (DI.buttoninputbits d) idx) (Z.of_nat i))
                (seq 0 n)).
Proof.
  intros Hb. induction n as [|n IH]; intros d Hwf Hx; [reflexivity|].
  cbn [DI.peek]. rewrite di_read_eq by assumption.
  rewrite IH; cbn [DI.buttoninputbits DI.buttonstatus].
  - rewrite rd_wr_eq by assumption.
    cbn [seq map]. rewrite <- seq_shift, map_map.
    rewrite (stream_bit_step _ _ Hx). f_equal. f_equal.
    apply map_ext. intros i.
    rewrite Nat2Z.inj_succ.
    rewrite <- (Z.shiftr_div_pow2 _ 1), Z.shiftr_shiftr, Z.shiftr_spec by lia.
    now rewrite (Z.add_comm 1), (Z.add_1_r (Z.of_nat i)).
  - now apply sized_wr.
  - rewrite rd_wr_eq by assumption. apply Z.div_pos; lia.
Qed.

(** X1.  Reading a button's stream out: for a stored stream [x] (an
    unsigned value), the read number [i], counted from 0, returns bit [i]
    of [x] as long as [x >> i] is not zero, and the button's bit of the
    status bitmap from then on.  The stream is consumed from its
    least-significant bit, and its leading zeros are never read as zeros. *)
Theorem di_reads_return_stream_then_status (idx : Z) (n : nat) (d : DI.statics) :
  in_bounds idx = true -> DI.wf d -> 0 <= rd (DI.buttoninputbits d) idx ->
  DI.peek n idx d
  = Some (map (fun i : nat =>
                 if Z.shiftr (rd (DI.buttoninputbits d) idx) (Z.of_nat i) =? 0
                 then Z.testbit (DI.buttonstatus d) idx
                 else Z.testbit (rd (DI.buttoninputbits d) idx) (Z.of_nat i))
              (seq 0 n)).
Proof. intros Hb Hwf Hx. now apply peek_bits. Qed.

Lemma di_reads_return_stream_then_status_witness :
  DI.peek 5 1 (DI.mk [0; 6; 0; 0; 0; 0; 0; 0; 0] 2)
  = Some [false; true; true; true; true].
Proof.
  rewrite (di_reads_return_stream_then_status 1 5
             (DI.mk [0; 6; 0; 0; 0; 0; 0; 0; 0] 2) eq_refl eq_refl);
    [reflexivity|discriminate].
Defined.

(** ** The GTK callbacks *)

Lemma button_of_widget_cases (g : Gui.objects) (widget idx : Z) :
  Gui.button_of_widget g widget idx = idx \/
  1 <= Gui.button_of_widget g widget idx <= 8.
Proof.
  unfold Gui.button_of_widget.
  repeat match goal with
         | |- context [if ?c then _ else _] => destruct c
         end; (now left) || (right; vm_compute; split; discriminate).
Qed.

Lemma button_of_widget_in_bounds (g : Gui.objects) (widget : Z) :
  in_bounds (Gui.button_of_widget g widget 0) = true.
Proof.
  apply in_bounds_range.
  destruct (button_of_widget_cases g widget 0) as [-> | H];
    unfold kBoardNumButtons; lia.
Qed.

Lemma testbit_BIT_SET (bitmap idx j : Z) :
  0 <= idx -> 0 <= j ->
  Z.testbit (Gui.BIT_SET bitmap idx) j
  = if j =? idx then true else Z.testbit bitmap j.
Proof.
  intros Hi Hj. unfold Gui.BIT_SET.
  rewrite Z.lor_spec, Z.shiftl_spec by lia.
  destruct (Z.eqb_spec j idx) as [-> | Hne].
  - rewrite Z.sub_diag. cbn. apply orb_true_r.
  - destruct (Z.ltb_spec j idx).
    + rewrite (Z.testbit_neg_r 1) by lia. apply orb_false_r.
    + rewrite (Z.bits_above_log2 1) by (cbn; lia). apply orb_false_r.
Qed.

Lemma testbit_BIT_CLR (bitmap idx j : Z) :
  0 <= idx -> 0 <= j ->
  Z.testbit (Gui.BIT_CLR bitmap idx) j
  = if j =? idx then false else Z.testbit bitmap j.
Proof.
  intros Hi Hj. unfold Gui.BIT_CLR.
  rewrite Z.land_spec, Z.lnot_spec, Z.shiftl_spec by lia.
  destruct (Z.eqb_spec j idx) as [-> | Hne].
  - rewrite Z.sub_diag. cbn. apply andb_false_r.
  - destruct (Z.ltb_spec j idx).
    + rewrite (Z.testbit_neg_r 1) by lia. apply andb_true_r.
    + rewrite (Z.bits_above_log2 1) by (cbn; lia). apply andb_true_r.
Qed.

Lemma pressed_pattern_bit (status : bool) (i : nat) :
  (3 <= i)%nat ->
  (if Z.shiftr Gui.cleanpatterna (Z.of_nat i) =? 0 then true
   else Z.testbit Gui.cleanpatterna (Z.of_nat i)) = true.
Proof.
  intros Hi. destruct (Nat.lt_ge_cases i 12) as [Hlt | Hge].
  - do 12 (destruct i as [|i]; [try lia; reflexivity|]). lia.
  - rewrite Z.shiftr_eq_0; [reflexivity|vm_compute; discriminate|].
    change (Z.log2 Gui.cleanpatterna) with 11. lia.
Qed.

(** X2.  A press on an idle button.  When the stream of the button that
    the widget designates is empty, [cbUiButtonPressed] stores the pattern
    0xFF9 and sets the button's status bit, so that the following reads of
    that button return 1, 0, 0 and then 1 for as long as nothing else
    touches the stream: the nine remaining bits of the pattern and, once
    the stream is exhausted, the status bit. *)
Theorem press_on_idle_button_reads (g : Gui.objects) (widget : Z)
    (d : DI.statics) (n : nat) :
  DI.wf d ->
  let idx := Gui.button_of_widget g widget kBoardButtonNone in
  rd (DI.buttoninputbits d) idx = 0 ->
  rd (DI.buttoninputbits (Gui.cbUiButtonPressed g widget d)) idx = 0xFF9 /\
  DI.peek (3 + n) idx (Gui.cbUiButtonPressed g widget d)
  = Some ([true; false; false] ++ repeat true n).
Proof.
  intros Hwf idx H0.
  assert (Hb : in_bounds idx = true) by apply button_of_widget_in_bounds.
  assert (Hstream : rd (DI.buttoninputbits (Gui.cbUiButtonPressed g widget d)) idx
                    = Gui.cleanpatterna).
  { unfold Gui.cbUiButtonPressed. fold idx. rewrite H0.
    cbn [Z.eqb negb DI.buttoninputbits]. now apply rd_wr_eq. }
  assert (Hwf' : DI.wf (Gui.cbUiButtonPressed g widget d)).
  { unfold Gui.cbUiButtonPressed, DI.wf. fold idx. cbn [DI.buttoninputbits].
    destruct (negb _); now apply sized_wr. }
  assert (Hstat : Z.testbit (DI.buttonstatus (Gui.cbUiButtonPressed g widget d)) idx
                  = true).
  { unfold Gui.cbUiButtonPressed. fold idx. cbn [DI.buttonstatus].
    apply in_bounds_range in Hb.
    rewrite testbit_BIT_SET by lia. now rewrite Z.eqb_refl. }
  split; [exact Hstream|].
  rewrite peek_bits by (try assumption; rewrite Hstream; discriminate).
  rewrite Hstream, Hstat. f_equal.
  change (3 + n)%nat with (S (S (S n))). cbn [seq map].
  change (Z.shiftr Gui.cleanpatterna (Z.of_nat 0) =? 0) with false.
  change (Z.shiftr Gui.cleanpatterna (Z.of_nat 1) =? 0) with false.
  change (Z.shiftr Gui.cleanpatterna (Z.of_nat 2) =? 0) with false.
  change (Z.testbit Gui.cleanpatterna (Z.of_nat 0)) with true.
  change (Z.testbit Gui.cleanpatterna (Z.of_nat 1)) with false.
  change (Z.testbit Gui.cleanpatterna (Z.of_nat 2)) with false.
  cbn [app]. do 3 f_equal.
  assert (Hgen : forall k m,
             (3 <= k)%nat ->
             map (fun i : nat =>
                    if Z.shiftr Gui.cleanpatterna (Z.of_nat i) =? 0 then true
                    else Z.testbit Gui.cleanpatterna (Z.of_nat i)) (seq k m)
             = repeat true m).
  { intros k m. revert k. induction m as [|m IH]; intros k Hk; [reflexivity|].
    cbn [seq map repeat]. rewrite (pressed_pattern_bit true k Hk).
    f_equal. apply IH. lia. }
  apply Hgen. lia.
Qed.

Lemma press_on_idle_button_reads_witness :
  DI.peek 5 2 (Gui.cbUiButtonPressed (Gui.mkObjects 10 20 30 40 50 60 70 80 0) 20
                 (DI.mk Gtk.zeros 0))
  = Some [true; false; false; true; true].
Proof.
  destruct (press_on_idle_button_reads (Gui.mkObjects 10 20 30 40 50 60 70 80 0)
              20 (DI.mk Gtk.zeros 0) 2 eq_refl eq_refl) as [_ H].
  exact H.
Defined.





Lemma peek_bits_then_status (idx : Z) (k n : nat) (d : DI.statics) :
  in_bounds idx = true -> DI.wf d ->
  0 <= rd (DI.buttoninputbits d) idx < 2 ^ Z.of_nat k ->
  DI.peek (k + n) idx d
  = Some (map (fun i : nat =>
                 if Z.shiftr (rd (DI.buttoninputbits d) idx) (Z.of_nat i) =? 0
                 then Z.testbit (DI.buttonstatus d) idx
                 else Z.testbit (rd (DI.buttoninputbits d) idx) (Z.of_nat i))
              (seq 0 k)
          ++ repeat (Z.testbit (DI.buttonstatus d) idx) n).
Proof.
  intros Hb Hwf Hx. rewrite peek_bits by (try assumption; lia).
  f_equal. rewrite seq_app, map_app. f_equal. cbn [Nat.add].
  assert (Hgen : forall m i0, (k <= i0)%nat ->
            map (fun i : nat =>
                   if Z.shiftr (rd (DI.buttoninputbits d) idx) (Z.of_nat i) =? 0
                   then Z.testbit (DI.buttonstatus d) idx
                   else Z.testbit (rd (DI.buttoninputbits d) idx) (Z.of_nat i))
                (seq i0 m)
            = repeat (Z.testbit (DI.buttonstatus d) idx) m).
  { induction m as [|m IH]; intros i0 Hi; [reflexivity|].
    cbn [seq map repeat]. rewrite IH by lia. f_equal.
    rewrite Z.shiftr_div_pow2 by lia. rewrite Z.div_small; [reflexivity|].
    split; [lia|]. apply Z.lt_le_trans with (2 ^ Z.of_nat k); [lia|].
    apply Z.pow_le_mono_r; lia. }
  apply Hgen. lia.
Qed.

(** X5.  A click: the press callback followed by the release callback, as
    both are connected to the "clicked" signal of [btn1] .. [btn6].  On an
    idle button (empty stream) the release finds the press pattern pending
    and queues its own behind it: the stream holds 0x6FF9, the status bit
    ends cleared, and the reads that follow return 1, 0, 0, nine times 1,
    then 0, 1, 1, and 0 from then on. *)
Theorem click_on_idle_button_reads (g : Gui.objects) (widget : Z)
    (d : DI.statics) (n : nat) :
  DI.wf d ->
  let idx := Gui.button_of_widget g widget kBoardButtonNone in
  rd (DI.buttoninputbits d) idx = 0 ->
  let d' := Gui.cbUiButtonReleased g widget (Gui.cbUiButtonPressed g widget d) in
  rd (DI.buttoninputbits d') idx = 0x6FF9 /\
  Z.testbit (DI.buttonstatus d') idx = false /\
  DI.peek (15 + n) idx d'
  = Some ([true; false; false] ++ repeat true 9 ++ [false; true; true]
          ++ repeat false n).
Proof.
  intros Hwf idx H0 d'.
  assert (Hb : in_bounds idx = true) by apply button_of_widget_in_bounds.
  assert (Hstream : rd (DI.buttoninputbits d') idx = 0x6FF9).
  { subst d'. unfold Gui.cbUiButtonReleased, Gui.cbUiButtonPressed.
    change (Gui.button_of_widget g widget 0) with idx. fold idx.
    rewrite H0. cbn [Z.eqb negb DI.buttoninputbits].
    rewrite !rd_wr_eq by assumption.
    change (negb (Gui.cleanpatterna =? 0)) with true. cbv iota.
    rewrite rd_wr_eq by (try apply sized_wr; assumption).
    reflexivity. }
  assert (Hwf' : DI.wf d').
  { subst d'. unfold Gui.cbUiButtonReleased, Gui.cbUiButtonPressed, DI.wf.
    cbn [DI.buttoninputbits].
    repeat match goal with
           | |- context [if ?c then _ else _] => destruct c
           end; repeat apply sized_wr; exact Hwf. }
  assert (Hstat : Z.testbit (DI.buttonstatus d') idx = false).
  { subst d'. unfold Gui.cbUiButtonReleased.
    change (Gui.button_of_widget g widget 0) with idx.
    cbn [DI.buttonstatus]. apply in_bounds_range in Hb.
    rewrite testbit_BIT_CLR by lia. now rewrite Z.eqb_refl. }
  split; [exact Hstream|]. split; [exact Hstat|].
  rewrite (peek_bits_then_status idx 15 n d' Hb Hwf')
    by (rewrite Hstream; split; [discriminate|reflexivity]).
  rewrite Hstream, Hstat. reflexivity.
Qed.

Lemma click_on_idle_button_reads_witness :
  DI.peek 16 2
    (Gui.cbUiButtonReleased (Gui.mkObjects 10 20 30 40 50 60 70 80 0) 20
       (Gui.cbUiButtonPressed (Gui.mkObjects 10 20 30 40 50 60 70 80 0) 20
          (DI.mk Gtk.zeros 0)))
  = Some ([true; false; false] ++ repeat true 9 ++ [false; true; true]
          ++ repeat false 1).
Proof.
  destruct (click_on_idle_button_reads (Gui.mkObjects 10 20 30 40 50 60 70 80 0)
              20 (DI.mk Gtk.zeros 0) 1 eq_refl eq_refl) as (_ & _ & H).
  exact H.
Defined.

(** ** Initialisation of the GTK buttons *)

Section ButtonInit.
Import String.

(** X6.  [di_button_init] reports failure exactly when the builder lacks
    one of the eight objects "btn0" .. "btn7".  The queue pointer [BtnQ] is
    stored whether the initialisation fails or not.  On success the eight
    object pointers are those of the builder and 21 connections have been
    made (three for each of [btn0] .. [btn6], none for [btn7]); when "btn0"
    is missing, nothing is connected and [btn1] .. [btn7] keep their
    values. *)
Theorem di_button_init_outcome (builder : String.string -> Z) (pEvQX : Z)
    (g : Gui.objects) (conns : list Gui.connection) :
  let res := Gui.di_button_init builder pEvQX g conns in
  let bad_init := fst (fst res) in
  let g' := snd (fst res) in
  let conns' := snd res in
  (bad_init = true <->
   builder "btn0"%string = 0 \/ builder "btn1"%string = 0 \/
   builder "btn2"%string = 0 \/ builder "btn3"%string = 0 \/
   builder "btn4"%string = 0 \/ builder "btn5"%string = 0 \/
   builder "btn6"%string = 0 \/ builder "btn7"%string = 0) /\
  Gui.BtnQ g' = pEvQX /\
  (bad_init = false ->
   (List.length conns' = List.length conns + 21)%nat /\
   Gui.btn0 g' = builder "btn0"%string /\ Gui.btn1 g' = builder "btn1"%string /\
   Gui.btn2 g' = builder "btn2"%string /\ Gui.btn3 g' = builder "btn3"%string /\
   Gui.btn4 g' = builder "btn4"%string /\ Gui.btn5 g' = builder "btn5"%string /\
   Gui.btn6 g' = builder "btn6"%string /\ Gui.btn7 g' = builder "btn7"%string) /\
  (builder "btn0"%string = 0 ->
   conns' = conns /\
   Gui.btn1 g' = Gui.btn1 g /\ Gui.btn2 g' = Gui.btn2 g /\
   Gui.btn3 g' = Gui.btn3 g /\ Gui.btn4 g' = Gui.btn4 g /\
   Gui.btn5 g' = Gui.btn5 g /\ Gui.btn6 g' = Gui.btn6 g /\
   Gui.btn7 g' = Gui.btn7 g).
Proof.
  cbv zeta. unfold Gui.di_button_init.
  cbn [Gui.set_btn0 Gui.set_btn1 Gui.set_btn2 Gui.set_btn3 Gui.set_btn4
       Gui.set_btn5 Gui.set_btn6 Gui.set_btn7 Gui.set_BtnQ
       Gui.btn0 Gui.btn1 Gui.btn2 Gui.btn3 Gui.btn4 Gui.btn5 Gui.btn6
       Gui.btn7 Gui.BtnQ].
  destruct (Z.eqb_spec (builder "btn0"%string) 0) as [E0 | E0]; cbn;
    [intuition congruence|].
  destruct (Z.eqb_spec (builder "btn1"%string) 0) as [E1 | E1]; cbn;
    [intuition congruence|].
  destruct (Z.eqb_spec (builder "btn2"%string) 0) as [E2 | E2]; cbn;
    [intuition congruence|].
  destruct (Z.eqb_spec (builder "btn3"%string) 0) as [E3 | E3]; cbn;
    [intuition congruence|].
  destruct (Z.eqb_spec (builder "btn4"%string) 0) as [E4 | E4]; cbn;
    [intuition congruence|].
  destruct (Z.eqb_spec (builder "btn5"%string) 0) as [E5 | E5]; cbn;
    [intuition congruence|].
  destruct (Z.eqb_spec (builder "btn6"%string) 0) as [E6 | E6]; cbn;
    [intuition congruence|].
  destruct (Z.eqb_spec (builder "btn7"%string) 0) as [E7 | E7]; cbn;
    [intuition congruence|].
  split; [intuition congruence|]. split; [reflexivity|].
  split; [|intuition congruence].
  intros _. rewrite !length_app. cbn [List.length]. repeat split; lia.
Qed.

Lemma di_button_init_outcome_witness :
  snd (Gui.di_button_init (fun _ => 0) 7 (Gui.mkObjects 1 2 3 4 5 6 7 8 0) [])
  = [] /\
  Gui.BtnQ (snd (fst (Gui.di_button_init (fun _ => 0) 7
                        (Gui.mkObjects 1 2 3 4 5 6 7 8 0) []))) = 7.
Proof.
  destruct (di_button_init_outcome (fun _ => 0) 7
              (Gui.mkObjects 1 2 3 4 5 6 7 8 0) []) as (_ & Hq & _ & H0).
  split; [exact (proj1 (H0 eq_refl))|exact Hq].
Defined.

End ButtonInit.

(** ** Phase markers and return codes *)

Ltac phase_cases s_phase :=
  destruct (Z.eqb_spec s_phase kStateOperational) as [Hop | Hop];
  [rewrite Hop
  |destruct (Z.eqb_spec s_phase kStateExit) as [Hex | Hex]; [rewrite Hex|]].

Ltac finish_codes :=
  eexists; split; [reflexivity|];
  cbn [ret vars fst snd Start.statephase Released.statephase
       Debounce.set_statephase Debounce.set_tmrMyStateTimer
       Debounce.set_tmrdebounce Debounce.set_evId Debounce.set_reason3
       Debounce.set_read_bits Debounce.statephase
       Pressed.set_statephase Pressed.set_tmrPressedStateTimer
       Pressed.set_tmrPressed Pressed.set_evId Pressed.set_reason2
       Pressed.set_reason3 Pressed.statephase];
  rewrite ?rd_wr_eq by auto with bsp;
  (split; [reflexivity|]);
  (split; [first [now left | now (right; left) | now (right; right)]|]);
  (split; intros H; first [reflexivity | assumption | discriminate H
                          | exfalso; congruence | vm_compute in H; discriminate H]).

Lemma start_codes (s : Start.statics) (ev : tEvQ_Event) (extra : Z) :
  in_bounds (EvQ.evData ev) = true -> Start.wf s ->
  exists r, Start.stStart s (Some ev) (Some extra) = Some r /\
    code_ok (ret r) (rd (Start.statephase s) (EvQ.evData ev))
            (rd (Start.statephase (vars r)) (EvQ.evData ev)).
Proof.
  intros Hb (W1 & W2). unfold Start.stStart, code_ok. rewrite Hb. cbn [negb].
  phase_cases (rd (Start.statephase s) (EvQ.evData ev));
    cbn [Z.eqb kStateOperational kStateExit Pos.eqb]; finish_codes.
Qed.

Lemma released_codes (s : Released.statics) (d : DI.statics)
    (ev : tEvQ_Event) (extra : Z) :
  in_bounds (EvQ.evData ev) = true -> Released.wf s ->
  exists r, Released.stButtonReleased s d (Some ev) (Some extra) = Some r /\
    code_ok (ret r) (rd (Released.statephase s) (EvQ.evData ev))
            (rd (Released.statephase (fst (vars r))) (EvQ.evData ev)).
Proof.
  intros Hb W1. unfold Released.wf in W1.
  destruct (di_read_some _ d Hb) as (bit & d' & Hrd).
  unfold Released.stButtonReleased, code_ok. rewrite Hb. cbn [negb].
  phase_cases (rd (Released.statephase s) (EvQ.evData ev));
    cbn [Z.eqb kStateOperational kStateExit Pos.eqb]; rewrite ?Hrd;
    try destruct bit; cbn [negb]; finish_codes.
Qed.

Lemma debounce_codes (K : tBspConsts) (now : Z) (s : Debounce.statics)
    (d : DI.statics) (ev : tEvQ_Event) (extra : Z) :
  in_bounds (EvQ.evData ev) = true -> Debounce.wf s ->
  exists r, Debounce.stDebounceButton K now s d (Some ev) (Some extra) = Some r /\
    code_ok (ret r) (rd (Debounce.statephase s) (EvQ.evData ev))
            (rd (Debounce.statephase (fst (vars r))) (EvQ.evData ev)).
Proof.
  intros Hb (W1 & W2 & W3 & W4 & W5).
  destruct (di_read_some _ d Hb) as (bit & d' & Hrd).
  unfold Debounce.stDebounceButton, code_ok. rewrite Hb. cbn [negb].
  phase_cases (rd (Debounce.statephase s) (EvQ.evData ev));
    cbn [Z.eqb kStateOperational kStateExit Pos.eqb]; rewrite ?Hrd;
    debounce_fields;
    repeat match goal with
           | |- context [if ?c then _ else _] => destruct c
           end; finish_codes.
Qed.

Lemma pressed_codes (K : tBspConsts) (now : Z) (s : Pressed.statics)
    (d : DI.statics) (ev : tEvQ_Event) (extra : Z) :
  in_bounds (EvQ.evData ev) = true -> Pressed.wf s ->
  exists r, Pressed.stButtonPressed K now s d (Some ev) (Some extra) = Some r /\
    code_ok (ret r) (rd (Pressed.statephase s) (EvQ.evData ev))
            (rd (Pressed.statephase (fst (vars r))) (EvQ.evData ev)).
Proof.
  intros Hb (W1 & W2 & W3 & W4 & W5).
  destruct (di_read_some _ d Hb) as (bit & d' & Hrd).
  unfold Pressed.stButtonPressed, code_ok. rewrite Hb. cbn [negb].
  phase_cases (rd (Pressed.statephase s) (EvQ.evData ev));
    cbn [Z.eqb kStateOperational kStateExit Pos.eqb]; rewrite ?Hrd;
    pressed_fields;
    repeat match goal with
           | |- context [if ?c then _ else _] => destruct c
           end; finish_codes.
Qed.

(** X7.  Return codes of the four state functions that store the operate
    phase in their entry branch (stStart, stButtonReleased, the shared
    debounce routine, stButtonPressed).  Called with non-null pointers for a
    button inside the arrays, whatever the phase marker stored for the
    button, each of them returns [kStateOperational], [kStateExit] or
    [kStateFinished]; the code returned is the marker it leaves stored; and
    it returns [kStateFinished] exactly when the call ran the exit phase. *)
Theorem state_functions_return_codes (K : tBspConsts) (now : Z)
    (d : DI.statics) (ev : tEvQ_Event) (extra : Z) :
  in_bounds (EvQ.evData ev) = true ->
  (forall s, Start.wf s ->
     exists r, Start.stStart s (Some ev) (Some extra) = Some r /\
       code_ok (ret r) (rd (Start.statephase s) (EvQ.evData ev))
               (rd (Start.statephase (vars r)) (EvQ.evData ev))) /\
  (forall s, Released.wf s ->
     exists r, Released.stButtonReleased s d (Some ev) (Some extra) = Some r /\
       code_ok (ret r) (rd (Released.statephase s) (EvQ.evData ev))
               (rd (Released.statephase (fst (vars r))) (EvQ.evData ev))) /\
  (forall s, Debounce.wf s ->
     exists r, Debounce.stDebounceButton K now s d (Some ev) (Some extra) = Some r /\
       code_ok (ret r) (rd (Debounce.statephase s) (EvQ.evData ev))
               (rd (Debounce.statephase (fst (vars r))) (EvQ.evData ev))) /\
  (forall s, Pressed.wf s ->
     exists r, Pressed.stButtonPressed K now s d (Some ev) (Some extra) = Some r /\
       code_ok (ret r) (rd (Pressed.statephase s) (EvQ.evData ev))
               (rd (Pressed.statephase (fst (vars r))) (EvQ.evData ev))).
Proof.
  intros Hb. split; [|split; [|split]]; intros s Hwf.
  - now apply start_codes.
  - now apply released_codes.
  - now apply debounce_codes.
  - now apply pressed_codes.
Qed.

Lemma state_functions_return_codes_witness :
  exists r,
    Pressed.stButtonPressed Gtk.K 0
      (Pressed.mk [0; 77; 0; 0; 0; 0; 0; 0; 0] Gtk.zeros 0 Gtk.zeros Gtk.zeros
                  Gtk.zeros)
      (DI.mk Gtk.zeros 0) (Some (mkEv 1 1)) (Some 0) = Some r /\
    ret r = kStateOperational.
Proof.
  destruct (state_functions_return_codes Gtk.K 0 (DI.mk Gtk.zeros 0) (mkEv 1 1) 0
              eq_refl) as (_ & _ & _ & H).
  destruct (H (Pressed.mk [0; 77; 0; 0; 0; 0; 0; 0; 0] Gtk.zeros 0 Gtk.zeros
                          Gtk.zeros Gtk.zeros)) as (r & Hcall & Hcode).
  - repeat split.
  - exists r. split; [exact Hcall|].
    vm_compute in Hcall. injection Hcall as <-. reflexivity.
Defined.

(** X8.  No state function changes another button's cells.  A call for
    button [b] that returns leaves, for every other button [j], the cells of
    [j] in the function's own arrays as they were; stStart,
    stButtonReleased, the shared debounce routine and stButtonPressed also
    leave [j]'s input stream as it was, and stButtonStuck leaves it as it
    was unless [j] is button 0. *)
Theorem state_functions_keep_to_their_button (K : tBspConsts) (now : Z)
    (d : DI.statics) (ev : tEvQ_Event) (extra : Z) (j : Z) :
  in_bounds j = true -> j <> EvQ.evData ev ->
  (forall s r, Start.stStart s (Some ev) (Some extra) = Some r ->
     Start.same_button j s (vars r)) /\
  (forall s r, Released.stButtonReleased s d (Some ev) (Some extra) = Some r ->
     Released.same_button j s (fst (vars r)) /\
     DI.same_stream j d (snd (vars r))) /\
  (forall s r, Debounce.stDebounceButton K now s d (Some ev) (Some extra) = Some r ->
     Debounce.same_button j s (fst (vars r)) /\
     DI.same_stream j d (snd (vars r))) /\
  (forall s r, Pressed.stButtonPressed K now s d (Some ev) (Some extra) = Some r ->
     Pressed.same_button j s (fst (vars r)) /\
     DI.same_stream j d (snd (vars r))) /\
  (forall s r, Stuck.stButtonStuck s d (Some ev) (Some extra) = Some r ->
     Stuck.same_button j s (fst (vars r)) /\
     (j <> 0 -> DI.same_stream j d (snd (vars r)))).
Proof.
  intros Hj Hne. split; [|split; [|split; [|split]]]; intros s r Hcall.
  - exact (start_other_buttons_untouched s ev extra r j Hcall Hj Hne).
  - exact (released_other_buttons_untouched s d ev extra r j Hcall Hj Hne).
  - exact (debounce_other_buttons_untouched K now s d ev extra r j Hcall Hj Hne).
  - exact (pressed_other_buttons_untouched K now s d ev extra r j Hcall Hj Hne).
  - exact (stuck_other_buttons_untouched s d ev extra r j Hcall Hj Hne).
Qed.

Lemma state_functions_keep_to_their_button_witness :
  exists r,
    Debounce.stDebounceButton Gtk.K 0 Gtk.debounce_late Gtk.inputs_late
      (Some (mkEv 1 1)) (Some 0) = Some r /\
    DI.same_stream 2 Gtk.inputs_late (snd (vars r)).
Proof.
  destruct (Debounce.stDebounceButton Gtk.K 0 Gtk.debounce_late Gtk.inputs_late
              (Some (mkEv 1 1)) (Some 0)) as [r|] eqn:Hcall;
    [|vm_compute in Hcall; discriminate].
  exists r. split; [reflexivity|].
  destruct (state_functions_keep_to_their_button Gtk.K 0 Gtk.inputs_late
              (mkEv 1 1) 0 2 eq_refl) as (_ & _ & H & _).
  - discriminate.
  - exact (proj2 (H _ _ Hcall)).
Defined.

(** ** The released, pressed and stuck states over several ticks *)

Lemma peek_cons (n : nat) (idx : Z) (d : DI.statics) (b0 : bool) (bs : list bool) :
  DI.peek (S n) idx d = Some (b0 :: bs) ->
  exists d', DI.di_read_next_button_input_bit idx d = Some (b0, d') /\
             DI.peek n idx d' = Some bs.
Proof.
  cbn [DI.peek].
  destruct (DI.di_read_next_button_input_bit idx d) as [[b1 d']|]; [|discriminate].
  destruct (DI.peek n idx d') as [bs'|] eqn:Hp; [|discriminate].
  intros [= -> ->]. now exists d'.
Qed.

Lemma released_operate (s : Released.statics) (d : DI.statics)
    (ev : tEvQ_Event) (extra : Z) (bit : bool) (d' : DI.statics) :
  in_bounds (EvQ.evData ev) = true -> Released.wf s ->
  rd (Released.statephase s) (EvQ.evData ev) = kStateOperational ->
  DI.di_read_next_button_input_bit (EvQ.evData ev) d = Some (bit, d') ->
  exists s',
    Released.stButtonReleased s d (Some ev) (Some extra)
      = Some (mkRet (if bit then kStateExit else kStateOperational) (s', d')
                    (Some ev) (Some extra)) /\
    Released.wf s' /\
    rd (Released.statephase s') (EvQ.evData ev)
      = (if bit then kStateExit else kStateOperational).
Proof.
  intros Hb W1 Hph Hrd. unfold Released.wf in W1.
  unfold Released.stButtonReleased. rewrite Hb. cbn [negb]. rewrite Hph.
  cbn [Z.eqb kStateOperational Pos.eqb]. rewrite Hrd.
  destruct bit; cbn [negb Released.statephase]; eexists;
    rewrite ?rd_wr_eq by auto with bsp;
    (split; [reflexivity|]); unfold Released.wf; cbn [Released.statephase];
    rewrite ?rd_wr_eq by auto with bsp; split; auto with bsp.
Qed.

Lemma released_exit (s : Released.statics) (d : DI.statics)
    (ev : tEvQ_Event) (extra : Z) :
  in_bounds (EvQ.evData ev) = true -> Released.wf s ->
  rd (Released.statephase s) (EvQ.evData ev) = kStateExit ->
  Released.stButtonReleased s d (Some ev) (Some extra)
  = Some (mkRet kStateFinished
            (Released.mk (wr (Released.statephase s) (EvQ.evData ev) kStateFinished), d)
            (Some (mkEv (EvQ.evId ev) (EvQ.evData ev))) (Some kReasonTwitchNoted)).
Proof.
  intros Hb W1 Hph. unfold Released.wf in W1.
  unfold Released.stButtonReleased. rewrite Hb. cbn [negb]. rewrite Hph.
  cbn [Z.eqb kStateOperational kStateExit Pos.eqb Released.statephase].
  rewrite rd_wr_eq by auto with bsp. reflexivity.
Qed.

Lemma released_drive (ev : tEvQ_Event) (extra : Z) (n : nat) :
  in_bounds (EvQ.evData ev) = true ->
  forall (s : Released.statics) (d : DI.statics),
    Released.wf s ->
    rd (Released.statephase s) (EvQ.evData ev) = kStateOperational ->
    DI.peek (S n) (EvQ.evData ev) d = Some (repeat false n ++ [true]) ->
    let call := fun s d => Released.stButtonReleased s d (Some ev) (Some extra) in
    drive (repeat call n) s d = None /\
    exists s' d',
      drive (repeat call (S n)) s d = Some (S n, s', d') /\
      Released.wf s' /\
      rd (Released.statephase s') (EvQ.evData ev) = kStateExit.
Proof.
  intros Hb. induction n as [|n IH]; intros s d Hwf Hph Hpk call.
  - split; [reflexivity|].
    apply peek_cons in Hpk as (d1 & Hrd & _).
    destruct (released_operate s d ev extra true d1 Hb Hwf Hph Hrd)
      as (s1 & Hcall & Hwf1 & Hph1).
    exists s1, d1. cbn [repeat drive]. subst call. cbv beta. rewrite Hcall.
    cbn [ret vars fst snd]. auto.
  - cbn [repeat app] in Hpk. apply peek_cons in Hpk as (d1 & Hrd & Hpk).
    destruct (released_operate s d ev extra false d1 Hb Hwf Hph Hrd)
      as (s1 & Hcall & Hwf1 & Hph1).
    destruct (IH s1 d1 Hwf1 Hph1 Hpk) as (Hnone & s' & d' & Hsome & Hrest).
    fold call in Hnone, Hsome.
    split.
    + cbn [repeat drive]. subst call. cbv beta. rewrite Hcall.
      cbn [ret vars fst snd Z.eqb kStateOperational Pos.eqb].
      now rewrite Hnone.
    + exists s', d'. split; [|exact Hrest].
      change (repeat call (S (S n))) with (call :: repeat call (S n)).
      cbn [drive]. subst call. cbv beta. rewrite Hcall.
      cbn [ret vars fst snd Z.eqb kStateOperational Pos.eqb].
      now rewrite Hsome.
Qed.

(** X9.  A released button waits for the first 1-bit.  In the operate phase
    of stButtonReleased, if the next reads of the button return [n] zeros
    and then a 1, the function returns [kStateOperational] for the first
    [n] calls (it has not left the operate phase after them) and leaves it
    at call [n + 1]; the exit-phase call that follows reports reason
    TwitchNoted with the button's index and passes on the event id of the
    event it is called with. *)
Theorem released_waits_for_first_one (s : Released.statics) (d : DI.statics)
    (ev : tEvQ_Event) (extra : Z) (n : nat) :
  in_bounds (EvQ.evData ev) = true -> Released.wf s ->
  rd (Released.statephase s) (EvQ.evData ev) = kStateOperational ->
  DI.peek (S n) (EvQ.evData ev) d = Some (repeat false n ++ [true]) ->
  let call := fun s d => Released.stButtonReleased s d (Some ev) (Some extra) in
  drive (repeat call n) s d = None /\
  exists s' d',
    drive (repeat call (S n)) s d = Some (S n, s', d') /\
    forall ev' extra',
      EvQ.evData ev' = EvQ.evData ev ->
      exists s'',
        Released.stButtonReleased s' d' (Some ev') (Some extra')
        = Some (mkRet kStateFinished (s'', d')
                  (Some (mkEv (EvQ.evId ev') (EvQ.evData ev)))
                  (Some kReasonTwitchNoted)).
Proof.
  intros Hb Hwf Hph Hpk call.
  destruct (released_drive ev extra n Hb s d Hwf Hph Hpk)
    as (Hnone & s' & d' & Hsome & Hwf' & Hph').
  split; [exact Hnone|]. exists s', d'. split; [exact Hsome|].
  intros ev' extra' Hev. eexists.
  rewrite released_exit by (rewrite ?Hev; assumption).
  rewrite Hev. reflexivity.
Qed.

Lemma released_waits_for_first_one_witness :
  exists s' d',
    drive (repeat (fun s d => Released.stButtonReleased s d (Some (mkEv 1 1)) (Some 0)) 3)
      (Released.mk [0; 1; 0; 0; 0; 0; 0; 0; 0])
      (DI.mk [0; 4; 0; 0; 0; 0; 0; 0; 0] 0)
    = Some (3%nat, s', d').
Proof.
  destruct (released_waits_for_first_one (Released.mk [0; 1; 0; 0; 0; 0; 0; 0; 0])
              (DI.mk [0; 4; 0; 0; 0; 0; 0; 0; 0] 0) (mkEv 1 1) 0 2
              eq_refl eq_refl eq_refl eq_refl) as (_ & s' & d' & H & _).
  exists s', d'. exact H.
Defined.

Lemma pressed_operate_twitch (K : tBspConsts) (now : Z) (s : Pressed.statics)
    (d : DI.statics) (ev : tEvQ_Event) (extra : Z) (d' : DI.statics) :
  in_bounds (EvQ.evData ev) = true -> Pressed.wf s ->
  rd (Pressed.statephase s) (EvQ.evData ev) = kStateOperational ->
  DI.di_read_next_button_input_bit (EvQ.evData ev) d = Some (false, d') ->
  exists s',
    Pressed.stButtonPressed K now s d (Some ev) (Some extra)
      = Some (mkRet kStateExit (s', d') (Some ev) (Some extra)) /\
    Pressed.wf s' /\
    rd (Pressed.statephase s') (EvQ.evData ev) = kStateExit /\
    rd (Pressed.evId s') (EvQ.evData ev) = rd (Pressed.evId s) (EvQ.evData ev) /\
    rd (Pressed.reason2 s') (EvQ.evData ev) = EvQ.evData ev /\
    rd (Pressed.reason3 s') (EvQ.evData ev) = kReasonTwitchNoted.
Proof.
  intros Hb (W1 & W2 & W3 & W4 & W5) Hph Hrd.
  unfold Pressed.stButtonPressed. rewrite Hb. cbn [negb].
  rewrite Hph. cbn [Z.eqb kStateOperational Pos.eqb]. rewrite Hrd.
  pressed_fields. eexists. split.
  { rewrite rd_wr_eq by auto with bsp. reflexivity. }
  unfold Pressed.wf. pressed_fields. rewrite !rd_wr_eq by auto with bsp.
  repeat split; auto with bsp.
Qed.

Lemma pressed_operate_stay (K : tBspConsts) (now : Z) (s : Pressed.statics)
    (d : DI.statics) (ev : tEvQ_Event) (extra : Z) (d' : DI.statics) :
  in_bounds (EvQ.evData ev) = true -> Pressed.wf s ->
  rd (Pressed.statephase s) (EvQ.evData ev) = kStateOperational ->
  DI.di_read_next_button_input_bit (EvQ.evData ev) d = Some (true, d') ->
  TM now (rd (Pressed.tmrPressedStateTimer s) (EvQ.evData ev)) = false ->
  exists s',
    Pressed.stButtonPressed K now s d (Some ev) (Some extra)
      = Some (mkRet kStateOperational (s', d') (Some ev) (Some extra)) /\
    Pressed.wf s' /\
    rd (Pressed.statephase s') (EvQ.evData ev) = kStateOperational /\
    rd (Pressed.evId s') (EvQ.evData ev) = rd (Pressed.evId s) (EvQ.evData ev) /\
    rd (Pressed.tmrPressedStateTimer s') (EvQ.evData ev)
      = rd (Pressed.tmrPressedStateTimer s) (EvQ.evData ev).
Proof.
  intros Hb (W1 & W2 & W3 & W4 & W5) Hph Hrd Htm.
  unfold Pressed.stButtonPressed. rewrite Hb. cbn [negb].
  rewrite Hph. cbn [Z.eqb kStateOperational Pos.eqb]. rewrite Hrd.
  pressed_fields. rewrite Htm. pressed_fields. eexists. split.
  { rewrite !rd_wr_eq by auto with bsp. reflexivity. }
  unfold Pressed.wf. pressed_fields. rewrite !rd_wr_eq by auto with bsp.
  repeat split; auto with bsp.
Qed.

Lemma pressed_entry (K : tBspConsts) (now : Z) (s : Pressed.statics)
    (d : DI.statics) (ev : tEvQ_Event) (extra : Z) :
  in_bounds (EvQ.evData ev) = true -> Pressed.wf s ->
  rd (Pressed.statephase s) (EvQ.evData ev) <> kStateOperational ->
  rd (Pressed.statephase s) (EvQ.evData ev) <> kStateExit ->
  exists s',
    Pressed.stButtonPressed K now s d (Some ev) (Some extra)
      = Some (mkRet kStateOperational (s', d) (Some ev) (Some extra)) /\
    Pressed.wf s' /\
    rd (Pressed.statephase s') (EvQ.evData ev) = kStateOperational /\
    rd (Pressed.evId s') (EvQ.evData ev) = EvQ.evId ev /\
    rd (Pressed.tmrPressedStateTimer s') (EvQ.evData ev)
      = now + kButtonStuckTimeoutValue K.
Proof.
  intros Hb (W1 & W2 & W3 & W4 & W5) Hop Hex.
  unfold Pressed.stButtonPressed. rewrite Hb. cbn [negb].
  apply Z.eqb_neq in Hop, Hex. rewrite Hop, Hex. pressed_fields.
  eexists. split.
  { rewrite rd_wr_eq by auto with bsp. reflexivity. }
  unfold Pressed.wf. pressed_fields. rewrite !rd_wr_eq by auto with bsp.
  repeat split; auto with bsp.
Qed.

(** X10.  In the operate phase of stButtonPressed the input bit is tested
    before the stuck timer: when the bit read is 0, the state leaves with
    reason TwitchNoted, whether the stuck timer has expired or not, and the
    exit phase reports the event id saved at entry, the button's index and
    TwitchNoted. *)
Theorem pressed_zero_bit_precedes_timeout (K : tBspConsts) (now : Z)
    (s : Pressed.statics) (d : DI.statics) (ev : tEvQ_Event) (extra : Z)
    (d' : DI.statics) :
  in_bounds (EvQ.evData ev) = true -> Pressed.wf s ->
  rd (Pressed.statephase s) (EvQ.evData ev) = kStateOperational ->
  DI.di_read_next_button_input_bit (EvQ.evData ev) d = Some (false, d') ->
  exists s',
    Pressed.stButtonPressed K now s d (Some ev) (Some extra)
      = Some (mkRet kStateExit (s', d') (Some ev) (Some extra)) /\
    forall now' extra', exists s'',
      Pressed.stButtonPressed K now' s' d' (Some ev) (Some extra')
      = Some (mkRet kStateFinished (s'', d')
                (Some (mkEv (rd (Pressed.evId s) (EvQ.evData ev)) (EvQ.evData ev)))
                (Some kReasonTwitchNoted)).
Proof.
  intros Hb Hwf Hph Hrd.
  destruct (pressed_operate_twitch K now s d ev extra d' Hb Hwf Hph Hrd)
    as (s' & Hcall & Hwf' & Hph' & Hid & Hr2 & Hr3).
  exists s'. split; [exact Hcall|]. intros now' extra'. eexists.
  rewrite (pressed_exit K now' s' d' ev extra' Hb Hwf' Hph'), Hid, Hr2, Hr3.
  reflexivity.
Qed.

Lemma pressed_zero_bit_precedes_timeout_witness :
  exists s',
    Pressed.stButtonPressed Gtk.K 99999
      (Pressed.mk [0; 0; 0; 1; 0; 0; 0; 0; 0] [0; 0; 0; 30000; 0; 0; 0; 0; 0] 0
                  [0; 0; 0; 1; 0; 0; 0; 0; 0] Gtk.zeros Gtk.zeros)
      (DI.mk Gtk.zeros 0) (Some (mkEv 1 3)) (Some 0)
    = Some (mkRet kStateExit (s', DI.mk Gtk.zeros 0) (Some (mkEv 1 3)) (Some 0)).
Proof.
  destruct (pressed_zero_bit_precedes_timeout Gtk.K 99999
              (Pressed.mk [0; 0; 0; 1; 0; 0; 0; 0; 0]
                          [0; 0; 0; 30000; 0; 0; 0; 0; 0] 0
                          [0; 0; 0; 1; 0; 0; 0; 0; 0] Gtk.zeros Gtk.zeros)
              (DI.mk Gtk.zeros 0) (mkEv 1 3) 0 (DI.mk Gtk.zeros 0))
    as (s' & H & _).
  - reflexivity.
  - repeat split.
  - reflexivity.
  - reflexivity.
  - exists s'. exact H.
Defined.

Lemma pressed_drive (K : tBspConsts) (ev : tEvQ_Event) (extra : Z) (t : Z)
    (l : list Z) :
  in_bounds (EvQ.evData ev) = true ->
  forall (s : Pressed.statics) (d : DI.statics),
    Pressed.wf s ->
    rd (Pressed.statephase s) (EvQ.evData ev) = kStateOperational ->
    DI.peek (S (length l)) (EvQ.evData ev) d = Some (repeat true (S (length l))) ->
    Forall (fun now =>
              TM now (rd (Pressed.tmrPressedStateTimer s) (EvQ.evData ev)) = false)
           l ->
    TM t (rd (Pressed.tmrPressedStateTimer s) (EvQ.evData ev)) = true ->
    let call := fun now s d =>
                  Pressed.stButtonPressed K now s d (Some ev) (Some extra) in
    drive (map call l) s d = None /\
    exists s' d',
      drive (map call (l ++ [t])) s d = Some (S (length l), s', d') /\
      Pressed.wf s' /\
      rd (Pressed.statephase s') (EvQ.evData ev) = kStateExit /\
      rd (Pressed.evId s') (EvQ.evData ev) = rd (Pressed.evId s) (EvQ.evData ev) /\
      rd (Pressed.reason2 s') (EvQ.evData ev) = 0 /\
      rd (Pressed.reason3 s') (EvQ.evData ev) = kReasonTimeout.
Proof.
  intros Hb. induction l as [|now l IH]; intros s d Hwf Hph Hpk Hl Ht call.
  - split; [reflexivity|].
    apply peek_cons in Hpk as (d1 & Hrd & _).
    destruct (pressed_operate_timeout K t s d ev extra d1 Hb Hwf Hph Hrd Ht)
      as (s1 & Hcall & Hwf1 & Hph1 & Hid & Hr2 & Hr3).
    exists s1, d1. cbn [app map drive length]. subst call. cbv beta.
    rewrite Hcall. cbn [ret vars fst snd]. auto 10.
  - cbn [length repeat] in Hpk. apply peek_cons in Hpk as (d1 & Hrd & Hpk).
    pose proof (Forall_inv Hl) as Hnow. pose proof (Forall_inv_tail Hl) as Htl.
    destruct (pressed_operate_stay K now s d ev extra d1 Hb Hwf Hph Hrd Hnow)
      as (s1 & Hcall & Hwf1 & Hph1 & Hid & Htmr).
    rewrite <- Htmr in Htl, Ht.
    destruct (IH s1 d1 Hwf1 Hph1 Hpk Htl Ht)
      as (Hnone & s' & d' & Hsome & Hwf' & Hph' & Hid' & Hrest).
    fold call in Hnone, Hsome.
    split.
    + cbn [map drive]. subst call. cbv beta. rewrite Hcall.
      cbn [ret vars fst snd Z.eqb kStateOperational Pos.eqb].
      now rewrite Hnone.
    + exists s', d'. split.
      * cbn [app map drive length]. subst call. cbv beta. rewrite Hcall.
        cbn [ret vars fst snd Z.eqb kStateOperational Pos.eqb].
        now rewrite Hsome.
      * rewrite Hid' , Hid. auto.
Qed.

(** X11.  A button held down.  In the operate phase of stButtonPressed,
    while every read returns 1, the state stays for every call whose clock
    reading is before the expiry of the stuck timer, and leaves at the first
    call whose reading is at or past it; its exit phase then reports reason
    Timeout with the event id saved at entry and the event data 0.  The
    entry phase arms the timer for the clock reading of the entry plus
    [kButtonStuckTimeoutValue]. *)
Theorem pressed_held_until_stuck_timeout (K : tBspConsts)
    (s : Pressed.statics) (d : DI.statics) (ev : tEvQ_Event) (extra : Z)
    (l : list Z) (t : Z) :
  in_bounds (EvQ.evData ev) = true -> Pressed.wf s ->
  rd (Pressed.statephase s) (EvQ.evData ev) = kStateOperational ->
  DI.peek (S (length l)) (EvQ.evData ev) d = Some (repeat true (S (length l))) ->
  Forall (fun now => now < rd (Pressed.tmrPressedStateTimer s) (EvQ.evData ev)) l ->
  rd (Pressed.tmrPressedStateTimer s) (EvQ.evData ev) <= t ->
  let call := fun now s d =>
                Pressed.stButtonPressed K now s d (Some ev) (Some extra) in
  drive (map call l) s d = None /\
  (exists s' d',
     drive (map call (l ++ [t])) s d = Some (S (length l), s', d') /\
     forall now' extra', exists s'',
       Pressed.stButtonPressed K now' s' d' (Some ev) (Some extra')
       = Some (mkRet kStateFinished (s'', d')
                 (Some (mkEv (rd (Pressed.evId s) (EvQ.evData ev)) 0))
                 (Some kReasonTimeout))) /\
  (forall now0 s0 d0,
     Pressed.wf s0 ->
     rd (Pressed.statephase s0) (EvQ.evData ev) <> kStateOperational ->
     rd (Pressed.statephase s0) (EvQ.evData ev) <> kStateExit ->
     exists s1,
       Pressed.stButtonPressed K now0 s0 d0 (Some ev) (Some extra)
         = Some (mkRet kStateOperational (s1, d0) (Some ev) (Some extra)) /\
       rd (Pressed.tmrPressedStateTimer s1) (EvQ.evData ev)
         = now0 + kButtonStuckTimeoutValue K).
Proof.
  intros Hb Hwf Hph Hpk Hl Ht call.
  assert (Hl' : Forall (fun now =>
                  TM now (rd (Pressed.tmrPressedStateTimer s) (EvQ.evData ev))
                  = false) l).
  { eapply Forall_impl; [exact Hl|]. cbv beta. intros now Hnow.
    unfold TM, Cwsw_GetTimeLeft. apply Z.leb_gt. lia. }
  assert (Ht' : TM t (rd (Pressed.tmrPressedStateTimer s) (EvQ.evData ev)) = true).
  { unfold TM, Cwsw_GetTimeLeft. apply Z.leb_le. lia. }
  destruct (pressed_drive K ev extra t l Hb s d Hwf Hph Hpk Hl' Ht')
    as (Hnone & s' & d' & Hsome & Hwf' & Hph' & Hid & Hr2 & Hr3).
  split; [exact Hnone|]. split.
  - exists s', d'. split; [exact Hsome|]. intros now' extra'. eexists.
    rewrite (pressed_exit K now' s' d' ev extra' Hb Hwf' Hph'), Hid, Hr2, Hr3.
    reflexivity.
  - intros now0 s0 d0 Hwf0 Hop Hex.
    destruct (pressed_entry K now0 s0 d0 ev extra Hb Hwf0 Hop Hex)
      as (s1 & Hcall & _ & _ & _ & Harm).
    exists s1. auto.
Qed.

Lemma pressed_held_until_stuck_timeout_witness :
  exists s' d',
    drive (map (fun now s d =>
                  Pressed.stButtonPressed Gtk.K now s d (Some (mkEv 1 3)) (Some 0))
               ([10; 20] ++ [30000]))
      (Pressed.mk [0; 0; 0; 1; 0; 0; 0; 0; 0] [0; 0; 0; 30000; 0; 0; 0; 0; 0] 0
                  [0; 0; 0; 1; 0; 0; 0; 0; 0] Gtk.zeros Gtk.zeros)
      (DI.mk Gtk.zeros 8)
    = Some (3%nat, s', d').
Proof.
  destruct (pressed_held_until_stuck_timeout Gtk.K
              (Pressed.mk [0; 0; 0; 1; 0; 0; 0; 0; 0]
                          [0; 0; 0; 30000; 0; 0; 0; 0; 0] 0
                          [0; 0; 0; 1; 0; 0; 0; 0; 0] Gtk.zeros Gtk.zeros)
              (DI.mk Gtk.zeros 8) (mkEv 1 3) 0 [10; 20] 30000)
    as (_ & (s' & d' & H & _) & _).
  - reflexivity.
  - repeat split.
  - reflexivity.
  - vm_compute. reflexivity.
  - repeat constructor.
  - vm_compute. discriminate.
  - exists s', d'. exact H.
Defined.







(** ** The start state *)

Lemma start_entry (s : Start.statics) (ev : tEvQ_Event) (extra : Z) :
  in_bounds (EvQ.evData ev) = true -> Start.wf s ->
  rd (Start.statephase s) (EvQ.evData ev) <> kStateOperational ->
  rd (Start.statephase s) (EvQ.evData ev) <> kStateExit ->
  exists s',
    Start.stStart s (Some ev) (Some extra)
      = Some (mkRet kStateOperational s' (Some ev) (Some extra)) /\
    Start.wf s' /\
    rd (Start.statephase s') (EvQ.evData ev) = kStateOperational /\
    rd (Start.evId s') (EvQ.evData ev) = EvQ.evId ev.
Proof.
  intros Hb (W1 & W2) Hop Hex. unfold Start.stStart. rewrite Hb. cbn [negb].
  apply Z.eqb_neq in Hop, Hex. rewrite Hop, Hex.
  cbn [Start.statephase Start.evId]. eexists.
  rewrite !rd_wr_eq by auto with bsp. split; [reflexivity|].
  unfold Start.wf. cbn [Start.statephase Start.evId].
  rewrite !rd_wr_eq by auto with bsp. repeat split; auto with bsp.
Qed.

Lemma start_operate (s : Start.statics) (ev : tEvQ_Event) (extra : Z) :
  in_bounds (EvQ.evData ev) = true -> Start.wf s ->
  rd (Start.statephase s) (EvQ.evData ev) = kStateOperational ->
  exists s',
    Start.stStart s (Some ev) (Some extra)
      = Some (mkRet kStateExit s' (Some ev) (Some extra)) /\
    Start.wf s' /\
    rd (Start.statephase s') (EvQ.evData ev) = kStateExit /\
    rd (Start.evId s') (EvQ.evData ev) = rd (Start.evId s) (EvQ.evData ev).
Proof.
  intros Hb (W1 & W2) Hph. unfold Start.stStart. rewrite Hb. cbn [negb].
  rewrite Hph. cbn [Z.eqb kStateOperational Pos.eqb Start.statephase Start.evId].
  eexists. rewrite !rd_wr_eq by auto with bsp. split; [reflexivity|].
  unfold Start.wf. cbn [Start.statephase Start.evId].
  rewrite !rd_wr_eq by auto with bsp. repeat split; auto with bsp.
Qed.

Lemma start_exit (s : Start.statics) (ev : tEvQ_Event) (extra : Z) :
  in_bounds (EvQ.evData ev) = true -> Start.wf s ->
  rd (Start.statephase s) (EvQ.evData ev) = kStateExit ->
  Start.stStart s (Some ev) (Some extra)
  = Some (mkRet kStateFinished
            (Start.mk (wr (Start.statephase s) (EvQ.evData ev) kStateFinished)
                      (Start.evId s))
            (Some (mkEv (rd (Start.evId s) (EvQ.evData ev)) (EvQ.evData ev)))
            (Some kReasonNone)).
Proof.
  intros Hb (W1 & W2) Hph. unfold Start.stStart. rewrite Hb. cbn [negb].
  rewrite Hph.
  cbn [Z.eqb kStateOperational kStateExit Pos.eqb Start.statephase Start.evId].
  rewrite rd_wr_eq by auto with bsp. reflexivity.
Qed.

(** X13.  The start state takes three calls and reads no input.  From any
    phase marker other than Operational and Exit, three successive calls of
    stStart for a button return [kStateOperational], [kStateExit] and
    [kStateFinished]; the third writes the event id of the event that the
    first call received (not that of the later calls), the button's index
    and reason None. *)
Theorem start_state_three_calls (s : Start.statics)
    (ev ev2 ev3 : tEvQ_Event) (extra extra2 extra3 : Z) :
  in_bounds (EvQ.evData ev) = true -> Start.wf s ->
  rd (Start.statephase s) (EvQ.evData ev) <> kStateOperational ->
  rd (Start.statephase s) (EvQ.evData ev) <> kStateExit ->
  EvQ.evData ev2 = EvQ.evData ev -> EvQ.evData ev3 = EvQ.evData ev ->
  exists s1 s2 s3,
    Start.stStart s (Some ev) (Some extra)
      = Some (mkRet kStateOperational s1 (Some ev) (Some extra)) /\
    Start.stStart s1 (Some ev2) (Some extra2)
      = Some (mkRet kStateExit s2 (Some ev2) (Some extra2)) /\
    Start.stStart s2 (Some ev3) (Some extra3)
      = Some (mkRet kStateFinished s3
                (Some (mkEv (EvQ.evId ev) (EvQ.evData ev))) (Some kReasonNone)).
Proof.
  intros Hb Hwf Hop Hex H2 H3.
  destruct (start_entry s ev extra Hb Hwf Hop Hex)
    as (s1 & Hc1 & Hwf1 & Hph1 & Hid1).
  assert (Hb2 : in_bounds (EvQ.evData ev2) = true) by (rewrite H2; exact Hb).
  assert (Hb3 : in_bounds (EvQ.evData ev3) = true) by (rewrite H3; exact Hb).
  rewrite <- H2 in Hph1, Hid1.
  destruct (start_operate s1 ev2 extra2 Hb2 Hwf1 Hph1)
    as (s2 & Hc2 & Hwf2 & Hph2 & Hid2).
  rewrite H2, <- H3 in Hph2, Hid2. rewrite H2, <- H3 in Hid1.
  exists s1, s2. eexists. split; [exact Hc1|]. split; [exact Hc2|].
  rewrite (start_exit s2 ev3 extra3 Hb3 Hwf2 Hph2), Hid2, Hid1, H3.
  reflexivity.
Qed.

Lemma start_state_three_calls_witness :
  exists s1 s2 s3,
    Start.stStart Gtk.start0 (Some (mkEv 1 4)) (Some 0)
      = Some (mkRet kStateOperational s1 (Some (mkEv 1 4)) (Some 0)) /\
    Start.stStart s1 (Some (mkEv 9 4)) (Some 0)
      = Some (mkRet kStateExit s2 (Some (mkEv 9 4)) (Some 0)) /\
    Start.stStart s2 (Some (mkEv 9 4)) (Some 0)
      = Some (mkRet kStateFinished s3 (Some (mkEv 1 4)) (Some kReasonNone)).
Proof.
  apply (start_state_three_calls Gtk.start0 (mkEv 1 4) (mkEv 9 4) (mkEv 9 4) 0 0 0).
  - reflexivity.
  - repeat split.
  - discriminate.
  - discriminate.
  - reflexivity.
  - reflexivity.
Defined.

(** ** The accumulator as a shift register *)

Lemma bits_value_from (bits : list bool) (v : Z) :
  fold_left (fun v b => 2 * v + Z.b2z b) bits v
  = 2 ^ Z.of_nat (length bits) * v + bits_value bits.
Proof.
  unfold bits_value. revert v.
  induction bits as [|b bits IH]; intros v; [cbn; lia|].
  cbn [fold_left length]. rewrite IH, (IH (2 * 0 + Z.b2z b)).
  rewrite Nat2Z.inj_succ, Z.pow_succ_r by lia. ring.
Qed.

Lemma fold_shift_in_arith (bits : list bool) (b : bool) (acc : Z) :
  fold_left Debounce.shift_in (b :: bits) acc
  = (2 ^ Z.of_nat (length (b :: bits)) * acc + bits_value (b :: bits)) mod 256.
Proof.
  revert b acc. induction bits as [|b' bits IH]; intros b acc.
  - cbn [fold_left length]. unfold bits_value. cbn [fold_left].
    rewrite shift_in_arith. reflexivity.
  - change (fold_left Debounce.shift_in (b :: b' :: bits) acc)
      with (fold_left Debounce.shift_in (b' :: bits) (Debounce.shift_in acc b)).
    rewrite IH, shift_in_arith.
    unfold bits_value. cbn [fold_left].
    rewrite (bits_value_from bits (2 * 0 + Z.b2z b')).
    rewrite (bits_value_from bits (2 * (2 * 0 + Z.b2z b) + Z.b2z b')).
    set (n := Z.of_nat (length bits)).
    replace (Z.of_nat (length (b' :: bits))) with (n + 1)
      by (cbn [length]; lia).
    replace (Z.of_nat (length (b :: b' :: bits))) with (n + 2)
      by (cbn [length]; lia).
    rewrite !Z.pow_add_r by lia. change (2 ^ 1) with 2. change (2 ^ 2) with 4.
    rewrite Z.add_mod, Z.mul_mod_idemp_r, <- Z.add_mod by lia.
    f_equal. ring.
Qed.

Lemma bits_value_8 (bits : list bool) :
  length bits = 8%nat ->
  0 <= bits_value bits < 256 /\
  (bits_value bits = 255 <-> bits = repeat true 8) /\
  (bits_value bits = 0 <-> bits = repeat false 8).
Proof.
  intros Hlen.
  do 8 (destruct bits as [|? bits]; [discriminate Hlen|]).
  destruct bits; [|discriminate Hlen].
  repeat match goal with b : bool |- _ => destruct b end;
    vm_compute; repeat split; intros; congruence.
Qed.

(** X14.  The debounce accumulator is an 8-bit shift register.  After
    eight or more operate cycles it holds exactly the last eight bits read,
    the latest one in the least-significant place, whatever it held before
    (the seed included): it is 0xFF exactly when the last eight reads were
    all 1 and 0x00 exactly when they were all 0. *)
Theorem accumulator_holds_last_eight_bits (acc : Z) (earlier last8 : list bool) :
  length last8 = 8%nat ->
  let acc' := fold_left Debounce.shift_in (earlier ++ last8) acc in
  acc' = bits_value last8 /\
  (acc' = 255 <-> last8 = repeat true 8) /\
  (acc' = 0 <-> last8 = repeat false 8).
Proof.
  intros Hlen acc'.
  destruct (bits_value_8 last8 Hlen) as (Hr & H255 & H0).
  assert (Hacc : acc' = bits_value last8).
  { subst acc'. rewrite fold_left_app.
    destruct last8 as [|b bits]; [discriminate Hlen|].
    rewrite fold_shift_in_arith, Hlen.
    change (2 ^ Z.of_nat 8) with 256.
    rewrite Z.add_comm, Z.mul_comm, Z_mod_plus_full.
    apply Z.mod_small. exact Hr. }
  rewrite Hacc. auto.
Qed.

Lemma accumulator_holds_last_eight_bits_witness :
  fold_left Debounce.shift_in
    ([false; true] ++ [true; true; true; true; true; true; true; true]) 1 = 255.
Proof.
  destruct (accumulator_holds_last_eight_bits 1 [false; true]
              [true; true; true; true; true; true; true; true] eq_refl)
    as (_ & H & _).
  apply H. reflexivity.
Defined.

(** ** Debounce timeout from entry *)



(** ** The task and the engine *)




(** ** What the exit phases can report *)

Lemma zeros_rd (j : Z) : in_bounds j = true -> rd Gtk.zeros j = 0.
Proof.
  intros Hj. apply in_bounds_range in Hj. unfold kBoardNumButtons in Hj.
  assert (Hc : j = 0 \/ j = 1 \/ j = 2 \/ j = 3 \/ j = 4 \/ j = 5 \/ j = 6 \/
               j = 7 \/ j = 8) by lia.
  repeat (destruct Hc as [-> | Hc]; [reflexivity|]). subst j. reflexivity.
Qed.

Lemma pressed_inv_call (K : tBspConsts) (now : Z) (s : Pressed.statics)
    (d : DI.statics) (ev : tEvQ_Event) (extra : Z)
    (r : tRet (Pressed.statics * DI.statics)) :
  pressed_inv s ->
  Pressed.stButtonPressed K now s d (Some ev) (Some extra) = Some r ->
  pressed_inv (fst (vars r)) /\
  (ret r = kStateFinished ->
   exists id data reason,
     pev_out r = Some (mkEv id data) /\ pextra_out r = Some reason /\
     (data = 0 \/ data = EvQ.evData ev) /\
     In reason [kReasonNone; kReasonTwitchNoted; kReasonTimeout]).
Proof.
  intros ((W1 & W2 & W3 & W4 & W5) & Hinv) Hcall.
  pose proof Hcall as Hframe.
  unfold Pressed.stButtonPressed in Hcall.
  destruct (in_bounds (EvQ.evData ev)) eqn:Hb; cbn [negb] in Hcall;
    [|discriminate].
  assert (Hother : forall j, in_bounds j = true -> j <> EvQ.evData ev ->
            rd (Pressed.reason2 (fst (vars r))) j = rd (Pressed.reason2 s) j /\
            rd (Pressed.reason3 (fst (vars r))) j = rd (Pressed.reason3 s) j).
  { intros j Hj Hne.
    destruct (pressed_other_buttons_untouched K now s d ev extra r j Hframe Hj Hne)
      as ((_ & _ & _ & H2 & H3) & _). auto. }
  destruct (Hinv _ Hb) as (Hr2 & Hr3).
  assert (Hthis :
    Pressed.wf (fst (vars r)) /\
    (rd (Pressed.reason2 (fst (vars r))) (EvQ.evData ev) = 0 \/
     rd (Pressed.reason2 (fst (vars r))) (EvQ.evData ev) = EvQ.evData ev) /\
    In (rd (Pressed.reason3 (fst (vars r))) (EvQ.evData ev))
       [kReasonNone; kReasonTwitchNoted; kReasonTimeout] /\
    (ret r = kStateFinished ->
     exists id data reason,
       pev_out r = Some (mkEv id data) /\ pextra_out r = Some reason /\
       (data = 0 \/ data = EvQ.evData ev) /\
       In reason [kReasonNone; kReasonTwitchNoted; kReasonTimeout])).
  { destruct (di_read_some _ d Hb) as (bit & d' & Hrd).
    rewrite Hrd in Hcall. revert Hcall.
    destruct (Z.eqb_spec (rd (Pressed.statephase s) (EvQ.evData ev))
                kStateOperational) as [Hop | Hop];
      [|destruct (Z.eqb_spec (rd (Pressed.statephase s) (EvQ.evData ev))
                   kStateExit) as [Hex | Hex]];
      pressed_fields;
      repeat match goal with
             | |- context [if ?c then _ else _] => destruct c
             end;
      intros [= <-]; cbn [ret vars fst snd pev_out pextra_out];
      unfold Pressed.wf; pressed_fields;
      rewrite ?rd_wr_eq by auto with bsp;
      (split; [repeat split; auto with bsp|]);
      (split; [auto|]);
      (split; [cbn [In]; auto|]);
      intros Hret;
      try (rewrite ?Hop, ?Hex in Hret; vm_compute in Hret; discriminate Hret);
      eexists _, _, _; (split; [reflexivity|]); (split; [reflexivity|]);
      auto. }
  destruct Hthis as (Hwf' & H2' & H3' & Hout).
  split; [|exact Hout]. split; [exact Hwf'|].
  intros j Hj. destruct (Z.eq_dec j (EvQ.evData ev)) as [-> | Hne].
  - auto.
  - destruct (Hother j Hj Hne) as (E2 & E3). rewrite E2, E3. now apply Hinv.
Qed.

Lemma debounce_inv_call (K : tBspConsts) (now : Z) (s : Debounce.statics)
    (d : DI.statics) (ev : tEvQ_Event) (extra : Z)
    (r : tRet (Debounce.statics * DI.statics)) :
  debounce_inv s ->
  Debounce.stDebounceButton K now s d (Some ev) (Some extra) = Some r ->
  debounce_inv (fst (vars r)) /\
  (ret r = kStateFinished ->
   exists id reason,
     pev_out r = Some (mkEv id (EvQ.evData ev)) /\ pextra_out r = Some reason /\
     In reason [kReasonNone; kReasonDebounced; kReasonTimeout]).
Proof.
  intros ((W1 & W2 & W3 & W4 & W5) & Hinv) Hcall.
  pose proof Hcall as Hframe.
  unfold Debounce.stDebounceButton in Hcall.
  destruct (in_bounds (EvQ.evData ev)) eqn:Hb; cbn [negb] in Hcall;
    [|discriminate].
  assert (Hother : forall j, in_bounds j = true -> j <> EvQ.evData ev ->
            rd (Debounce.reason3 (fst (vars r))) j = rd (Debounce.reason3 s) j /\
            rd (Debounce.read_bits (fst (vars r))) j = rd (Debounce.read_bits s) j).
  { intros j Hj Hne.
    destruct (debounce_other_buttons_untouched K now s d ev extra r j Hframe Hj Hne)
      as ((_ & _ & _ & H3 & Hrb) & _). auto. }
  destruct (Hinv _ Hb) as (Hr3 & Hrb).
  assert (Hthis :
    Debounce.wf (fst (vars r)) /\
    In (rd (Debounce.reason3 (fst (vars r))) (EvQ.evData ev))
       [kReasonNone; kReasonDebounced; kReasonTimeout] /\
    0 <= rd (Debounce.read_bits (fst (vars r))) (EvQ.evData ev) < 256 /\
    (ret r = kStateFinished ->
     exists id reason,
       pev_out r = Some (mkEv id (EvQ.evData ev)) /\ pextra_out r = Some reason /\
       In reason [kReasonNone; kReasonDebounced; kReasonTimeout])).
  { destruct (di_read_some _ d Hb) as (bit & d' & Hrd).
    rewrite Hrd in Hcall. revert Hcall.
    pose proof (shift_in_range (rd (Debounce.read_bits s) (EvQ.evData ev)) bit)
      as Hsh.
    destruct (Z.eqb_spec (rd (Debounce.statephase s) (EvQ.evData ev))
                kStateOperational) as [Hop | Hop];
      [|destruct (Z.eqb_spec (rd (Debounce.statephase s) (EvQ.evData ev))
                   kStateExit) as [Hex | Hex]];
      debounce_fields;
      repeat match goal with
             | |- context [if ?c then _ else _] => destruct c
             end;
      intros [= <-]; cbn [ret vars fst snd pev_out pextra_out];
      unfold Debounce.wf; debounce_fields;
      rewrite ?rd_wr_eq by auto with bsp;
      (split; [repeat split; auto with bsp|]);
      (split; [cbn [In]; auto|]);
      (split; [first [exact Hsh | exact Hrb | lia]|]);
      intros Hret;
      try (rewrite ?Hop, ?Hex in Hret; vm_compute in Hret; discriminate Hret);
      eexists _, _; (split; [reflexivity|]); (split; [reflexivity|]);
      auto. }
  destruct Hthis as (Hwf' & H3' & Hrb' & Hout).
  split; [|exact Hout]. split; [exact Hwf'|].
  intros j Hj. destruct (Z.eq_dec j (EvQ.evData ev)) as [-> | Hne].
  - auto.
  - destruct (Hother j Hj Hne) as (E3 & Eb). rewrite E3, Eb. now apply Hinv.
Qed.

(** X17.  What stButtonPressed and the shared debounce routine can report.
    The following holds of their zero-initialised variables and is kept by
    every call, for whatever button, clock reading and input: for each
    button the reason saved by stButtonPressed is None, TwitchNoted or
    Timeout and its saved event data is 0 or the button's index; the reason
    saved by the debounce routine is None, Debounced or Timeout and its
    accumulator is a byte.  Consequently an exit-phase call of
    stButtonPressed writes an event data that is 0 or the button's index and
    one of its three reasons, and an exit-phase call of the debounce routine
    writes the button's index and one of its three reasons. *)
Theorem exit_reports_stay_in_range (K : tBspConsts) (now : Z) (d : DI.statics)
    (ev : tEvQ_Event) (extra : Z) :
  pressed_inv Gtk.pressed0 /\ debounce_inv Gtk.debounce0 /\
  (forall s r,
     pressed_inv s ->
     Pressed.stButtonPressed K now s d (Some ev) (Some extra) = Some r ->
     pressed_inv (fst (vars r)) /\
     (ret r = kStateFinished ->
      exists id data reason,
        pev_out r = Some (mkEv id data) /\ pextra_out r = Some reason /\
        (data = 0 \/ data = EvQ.evData ev) /\
        In reason [kReasonNone; kReasonTwitchNoted; kReasonTimeout])) /\
  (forall s r,
     debounce_inv s ->
     Debounce.stDebounceButton K now s d (Some ev) (Some extra) = Some r ->
     debounce_inv (fst (vars r)) /\
     (ret r = kStateFinished ->
      exists id reason,
        pev_out r = Some (mkEv id (EvQ.evData ev)) /\ pextra_out r = Some reason /\
        In reason [kReasonNone; kReasonDebounced; kReasonTimeout])).
Proof.
  split; [|split; [|split]].
  - split; [repeat split|]. intros j Hj.
    cbn [Gtk.pressed0 Pressed.reason2 Pressed.reason3].
    rewrite zeros_rd by exact Hj. cbn [In]. auto.
  - split; [repeat split|]. intros j Hj.
    cbn [Gtk.debounce0 Debounce.reason3 Debounce.read_bits].
    rewrite zeros_rd by exact Hj. cbn [In]. split; [auto|lia].
  - intros s r Hinv Hcall. exact (pressed_inv_call K now s d ev extra r Hinv Hcall).
  - intros s r Hinv Hcall. exact (debounce_inv_call K now s d ev extra r Hinv Hcall).
Qed.

Lemma exit_reports_stay_in_range_witness :
  exists r,
    Pressed.stButtonPressed Gtk.K 0 Gtk.pressed0 (DI.mk Gtk.zeros 0)
      (Some (mkEv 1 3)) (Some 0) = Some r /\
    pressed_inv (fst (vars r)).
Proof.
  destruct (Pressed.stButtonPressed Gtk.K 0 Gtk.pressed0 (DI.mk Gtk.zeros 0)
              (Some (mkEv 1 3)) (Some 0)) as [r|] eqn:Hcall;
    [|vm_compute in Hcall; discriminate].
  exists r. split; [reflexivity|].
  destruct (exit_reports_stay_in_range Gtk.K 0 (DI.mk Gtk.zeros 0) (mkEv 1 3) 0)
    as (H0 & _ & H & _).
  exact (proj1 (H _ _ H0 Hcall)).
Defined.
